(** * CHIP-8 virtual machine: a shallow embedding of the execution engine

    The engine of the emulator package ([chip8.go], [opcodes.go]) is
    translated function by function.  Go's fixed-size arrays are lists, its
    unsigned integers are [Z] with the wrap-around written out, and the two
    ways a call can fail to return (a run-time panic on an index or slice
    bound, and [log.Fatalf]) are the two error constructors of [result]. *)

From Stdlib Require Import ZArith String Ascii Lia Bool.
From stdpp Require Import base tactics option list.

Open Scope string_scope.
Open Scope list_scope.
Open Scope Z_scope.

Infix "+:+" := String.append (at level 60, right associativity).

(** ** Results of a call *)

Inductive result (A : Type) : Type :=
| Ok (a : A)
| Panic
| Fatal (msg : string).
Arguments Ok {A} a.
Arguments Panic {A}.
Arguments Fatal {A} msg.

#[global] Instance result_ret : MRet result := fun A a => Ok a.
#[global] Instance result_bind : MBind result := fun A B f m =>
  match m with
  | Ok a => f a
  | Panic => Panic
  | Fatal msg => Fatal msg
  end.

(** ** Machine integers *)

Definition u8 (z : Z) : Z := z mod 256.
Definition u16 (z : Z) : Z := z mod 65536.

Definition is_u8 (z : Z) : Prop := 0 <= z < 256.
Definition is_u16 (z : Z) : Prop := 0 <= z < 65536.

(** ** Arrays and slices *)

(** [a[k]] *)
Definition index {A} (a : list A) (k : Z) : result A :=
  if k <? 0 then Panic
  else match a !! Z.to_nat k with
       | Some e => Ok e
       | None => Panic
       end.

(** [a[k] = e] *)
Definition store {A} (a : list A) (k : Z) (e : A) : result (list A) :=
  if (0 <=? k) && (k <? Z.of_nat (length a)) then Ok (<[Z.to_nat k := e]> a)
  else Panic.

(** [a[k:]] *)
Definition slice_from {A} (a : list A) (k : Z) : result (list A) :=
  if (0 <=? k) && (k <=? Z.of_nat (length a)) then Ok (drop (Z.to_nat k) a)
  else Panic.

(** [a[:k]] *)
Definition slice_to {A} (a : list A) (k : Z) : result (list A) :=
  if (0 <=? k) && (k <=? Z.of_nat (length a)) then Ok (take (Z.to_nat k) a)
  else Panic.

(** The built-in [copy(dst, src)]: the first [min (len dst) (len src)]
    elements of [dst] are overwritten; the result is the new content of
    [dst]. *)
Definition copy {A} (dst src : list A) : list A :=
  take (length dst) src ++ drop (length src) dst.

(** [copy(a[k:], src)], seen from the array [a] that backs the slice. *)
Definition copy_at {A} (a : list A) (k : Z) (src : list A) : result (list A) :=
  dst ← slice_from a k;
  Ok (take (Z.to_nat k) a ++ copy dst src).

(** [copy(a[:k], src)], seen from the array [a]. *)
Definition copy_upto {A} (a : list A) (k : Z) (src : list A) : result (list A) :=
  dst ← slice_to a k;
  Ok (copy dst src ++ drop (Z.to_nat k) a).

(** A [for] loop over the values [ks] of its counter. *)
Fixpoint for_each {S} (ks : list Z) (body : Z -> S -> result S) (s : S)
  : result S :=
  match ks with
  | [] => Ok s
  | k :: ks' => s' ← body k s; for_each ks' body s'
  end.

(** ** Formatting verbs of [fmt.Sprintf] *)

Definition digitChar (d : Z) : ascii :=
  nth (Z.to_nat d) (list_ascii_of_string "0123456789ABCDEF") "?"%char.

Fixpoint digitsOf (fuel : nat) (base z : Z) (acc : string) : string :=
  match fuel with
  | O => acc
  | S fuel' =>
      let acc' := String (digitChar (z mod base)) acc in
      if z / base =? 0 then acc' else digitsOf fuel' base (z / base) acc'
  end.

Fixpoint zeros (k : nat) : string :=
  match k with
  | O => EmptyString
  | S k' => String "0"%char (zeros k')
  end.

Definition padZero (width : nat) (s : string) : string :=
  (zeros (width - String.length s) ++ s)%string.

(** [%0wX] on an unsigned value ([%0X] is width 0). *)
Definition fmtX (width : nat) (z : Z) : string :=
  padZero width (digitsOf 64 16 z EmptyString).

(** [%d] on an unsigned value. *)
Definition fmtD (z : Z) : string := digitsOf 64 10 z EmptyString.

Definition newline : string := String (ascii_of_nat 10) EmptyString.

(** ** Machine state ([chip8.go]) *)

Definition Chip8DisplayW : Z := 64.
Definition Chip8DisplayH : Z := 32.
Definition CharacterSpritesOffset : Z := 0x100.
Definition CharacterSpriteBytes : Z := 5.
Definition ProgramOffset : Z := 0x200.
Definition OpHistoryNum : Z := 16.

Record Chip8 : Type := mkChip8 {
  mem : list Z;            (* [4096]uint8 *)
  pc : Z;                  (* uint16 *)
  v : list Z;              (* [16]uint8 *)
  i : Z;                   (* uint16 *)
  dt : Z;                  (* uint8 *)
  st : Z;                  (* uint8 *)
  sp : Z;                  (* uint8 *)
  stack : list Z;          (* [16]uint16 *)
  keys : list Z;           (* [16]uint8 *)
  disp : list Z;           (* [64 * 32]uint8 *)
  ophistory : list string; (* [OpHistoryNum]string *)
  ophistoryIndex : Z       (* int *)
}.

Definition set_mem (m : list Z) (c : Chip8) : Chip8 :=
  mkChip8 m (pc c) (v c) (i c) (dt c) (st c) (sp c) (stack c) (keys c)
          (disp c) (ophistory c) (ophistoryIndex c).
Definition set_pc (p : Z) (c : Chip8) : Chip8 :=
  mkChip8 (mem c) p (v c) (i c) (dt c) (st c) (sp c) (stack c) (keys c)
          (disp c) (ophistory c) (ophistoryIndex c).
Definition set_v (r : list Z) (c : Chip8) : Chip8 :=
  mkChip8 (mem c) (pc c) r (i c) (dt c) (st c) (sp c) (stack c) (keys c)
          (disp c) (ophistory c) (ophistoryIndex c).
Definition set_i (a : Z) (c : Chip8) : Chip8 :=
  mkChip8 (mem c) (pc c) (v c) a (dt c) (st c) (sp c) (stack c) (keys c)
          (disp c) (ophistory c) (ophistoryIndex c).
Definition set_dt (t : Z) (c : Chip8) : Chip8 :=
  mkChip8 (mem c) (pc c) (v c) (i c) t (st c) (sp c) (stack c) (keys c)
          (disp c) (ophistory c) (ophistoryIndex c).
Definition set_st (t : Z) (c : Chip8) : Chip8 :=
  mkChip8 (mem c) (pc c) (v c) (i c) (dt c) t (sp c) (stack c) (keys c)
          (disp c) (ophistory c) (ophistoryIndex c).
Definition set_sp (p : Z) (c : Chip8) : Chip8 :=
  mkChip8 (mem c) (pc c) (v c) (i c) (dt c) (st c) p (stack c) (keys c)
          (disp c) (ophistory c) (ophistoryIndex c).
Definition set_stack (s : list Z) (c : Chip8) : Chip8 :=
  mkChip8 (mem c) (pc c) (v c) (i c) (dt c) (st c) (sp c) s (keys c)
          (disp c) (ophistory c) (ophistoryIndex c).
Definition set_keys (k : list Z) (c : Chip8) : Chip8 :=
  mkChip8 (mem c) (pc c) (v c) (i c) (dt c) (st c) (sp c) (stack c) k
          (disp c) (ophistory c) (ophistoryIndex c).
Definition set_disp (d : list Z) (c : Chip8) : Chip8 :=
  mkChip8 (mem c) (pc c) (v c) (i c) (dt c) (st c) (sp c) (stack c) (keys c)
          d (ophistory c) (ophistoryIndex c).
Definition set_history (h : list string) (k : Z) (c : Chip8) : Chip8 :=
  mkChip8 (mem c) (pc c) (v c) (i c) (dt c) (st c) (sp c) (stack c) (keys c)
          (disp c) h k.

Definition characterSprites : list Z :=
  [ 0xF0; 0x90; 0x90; 0x90; 0xF0;   (* 0 *)
    0x20; 0x60; 0x20; 0x20; 0x70;   (* 1 *)
    0xF0; 0x10; 0xF0; 0x80; 0xF0;   (* 2 *)
    0xF0; 0x10; 0xF0; 0x10; 0xF0;   (* 3 *)
    0x90; 0x90; 0xF0; 0x10; 0x10;   (* 4 *)
    0xF0; 0x80; 0xF0; 0x10; 0xF0;   (* 5 *)
    0xF0; 0x80; 0xF0; 0x90; 0xF0;   (* 6 *)
    0xF0; 0x10; 0x20; 0x40; 0x40;   (* 7 *)
    0xF0; 0x90; 0xF0; 0x90; 0xF0;   (* 8 *)
    0xF0; 0x90; 0xF0; 0x10; 0xF0;   (* 9 *)
    0xF0; 0x90; 0xF0; 0x90; 0x90;   (* A *)
    0xE0; 0x90; 0xE0; 0x90; 0xE0;   (* B *)
    0xF0; 0x80; 0x80; 0x80; 0xF0;   (* C *)
    0xE0; 0x90; 0x90; 0x90; 0xE0;   (* D *)
    0xF0; 0x80; 0xF0; 0x80; 0xF0;   (* E *)
    0xF0; 0x80; 0xF0; 0x80; 0x80 ]. (* F *)

(** The zero value [&Chip8{}]. *)
Definition zeroChip8 : Chip8 :=
  mkChip8 (replicate 4096 0) 0 (replicate 16 0) 0 0 0 0 (replicate 16 0)
          (replicate 16 0) (replicate (64 * 32) 0)
          (replicate 16 EmptyString) 0.

(** [newChip8]: both [copy] calls target a slice of the 4096-byte array, so
    neither slice expression can fail. *)
Definition newChip8 (b : list Z) : result Chip8 :=
  let c := set_sp 0x0f (set_pc ProgramOffset zeroChip8) in
  m1 ← copy_at (mem c) ProgramOffset b;
  m2 ← copy_at m1 CharacterSpritesOffset characterSprites;
  Ok (set_mem m2 c).

Definition decrementTimer (c : Chip8) : Chip8 :=
  let c1 := if dt c >? 0 then set_dt (u8 (dt c - 1)) c else c in
  if st c1 >? 0 then set_st (u8 (st c1 - 1)) c1 else c1.

Definition fetchOpcode (c : Chip8) : result (Z * Chip8) :=
  hi ← index (mem c) (pc c);
  lo ← index (mem c) (u16 (pc c + 1));
  let op := Z.lor (u16 (Z.shiftl hi 8)) lo in
  Ok (op, set_pc (u16 (pc c + 2)) c).

Definition updateCarryFlag (b : bool) (c : Chip8) : result Chip8 :=
  r ← store (v c) 0xf (if b then 1 else 0);
  Ok (set_v r c).

Definition pushStack (a : Z) (c : Chip8) : result Chip8 :=
  s ← store (stack c) (sp c) a;
  Ok (set_sp (u8 (sp c - 1)) (set_stack s c)).

Definition popStack (c : Chip8) : result (Z * Chip8) :=
  let c1 := set_sp (u8 (sp c + 1)) c in
  a ← index (stack c1) (sp c1);
  Ok (a, c1).

(** One pixel of the sprite: the body of the inner loop of [draw]. *)
Definition drawPixel (sm : list Z) (x y iy ix : Z) (acc : list Z * bool)
  : result (list Z * bool) :=
  let tx := x + ix in
  let ty := y + iy in
  if (tx >=? Chip8DisplayW) || (ty >=? Chip8DisplayH) then Ok acc
  else
    s ← index (fst acc) (ty * Chip8DisplayW + tx);
    row ← index sm iy;
    let d := Z.land (Z.shiftr row (u8 (7 - ix))) 0x01 in
    cur ← index (fst acc) (ty * Chip8DisplayW + tx);
    g ← store (fst acc) (ty * Chip8DisplayW + tx) (Z.lxor cur d);
    Ok (g, if (s =? 1) && (d =? 1) then true else snd acc).

Definition draw (x y n : Z) (c : Chip8) : result (bool * Chip8) :=
  sm ← slice_from (mem c) (i c);
  acc ← for_each (seqZ 0 n)
        (fun iy => for_each (seqZ 0 8) (fun ix => drawPixel sm x y iy ix))
        (disp c, false);
  Ok (snd acc, set_disp (fst acc) c).

(** [for i, v := range c.keys]: [k] is the index of the head of [ks]. *)
Fixpoint firstPressed (ks : list Z) (k : Z) : Z :=
  match ks with
  | [] => 0xff
  | e :: ks' => if e =? 1 then u8 k else firstPressed ks' (k + 1)
  end.

Definition pressedAnyKey (c : Chip8) : Z := firstPressed (keys c) 0.

(** ** Instruction decoding and execution ([opcodes.go]) *)

Definition opH (op : Z) : Z := Z.land op 0xF000.
Definition opNNN (op : Z) : Z := Z.land op 0x0FFF.
Definition opNN (op : Z) : Z := u8 (Z.land (opNNN op) 0xff).
Definition opX (op : Z) : Z := u8 (Z.land (Z.shiftr (opNNN op) 8) 0xf).
Definition opY (op : Z) : Z := u8 (Z.land (Z.shiftr (opNNN op) 4) 0xf).
Definition opN (op : Z) : Z := Z.land (opNN op) 0x0f.

(** [c.v[x]] and [c.v[x] = e] *)
Definition getV (x : Z) (c : Chip8) : result Z := index (v c) x.
Definition setV (x e : Z) (c : Chip8) : result Chip8 :=
  r ← store (v c) x e;
  Ok (set_v r c).

(** [if cond { c.pc += 2 }] *)
Definition skipIf (cond : bool) (c : Chip8) : Chip8 :=
  if cond then set_pc (u16 (pc c + 2)) c else c.

(** The last two statements of [execOpcode]: the trace record. *)
Definition recordOp (pc0 op : Z) (mnemonic : string) (c : Chip8)
  : result Chip8 :=
  h ← store (ophistory c) (ophistoryIndex c)
        (fmtX 3 pc0 +:+ "-" +:+ fmtX 4 op +:+ " " +:+ mnemonic);
  Ok (set_history h (Z.rem (ophistoryIndex c + 1) OpHistoryNum) c).

(** [execOpcode].  [rnd] is the value [rand.Uint32()] returns if the
    instruction asks for one: the generator is process-wide and not part of
    the machine state.  Each [switch] is the chain of comparisons it stands
    for; a [switch] with no [default] falls out with the state unchanged and
    the mnemonic still empty. *)
Definition execOpcode (rnd op : Z) (c : Chip8) : result Chip8 :=
  let pc0 := u16 (pc c - 2) in
  let h := opH op in
  let nnn := opNNN op in
  let nn := opNN op in
  let x := opX op in
  let y := opY op in
  let n := opN op in
  r ←
    (if h =? 0x0000 then
       if op =? 0x00E0 then                       (* clear display *)
         Ok (set_disp (const 0 <$> disp c) c, "CLS  ")
       else if op =? 0x00EE then                  (* return from subroutine *)
         '(a, c1) ← popStack c;
         Ok (set_pc a c1, "RET  ")
       else
         Fatal ("Not Implemented 0NNN " +:+ fmtX 4 op +:+ newline)
     else if h =? 0x1000 then                     (* goto 0x0NNN *)
       Ok (set_pc nnn c, "GOTO " +:+ fmtX 3 nnn)
     else if h =? 0x2000 then                     (* call 0x0NNN *)
       c1 ← pushStack (pc c) c;
       Ok (set_pc nnn c1, "CALL " +:+ fmtX 3 nnn)
     else if h =? 0x3000 then                     (* 0x3XNN if(Vx==NN) *)
       vx ← getV x c;
       Ok (skipIf (vx =? nn) c, "SE   V" +:+ fmtX 0 x +:+ ",#" +:+ fmtX 2 nn)
     else if h =? 0x4000 then                     (* 0x4XNN if(Vx!=NN) *)
       vx ← getV x c;
       Ok (skipIf (negb (vx =? nn)) c,
           "SNE  V" +:+ fmtX 0 x +:+ ",#" +:+ fmtX 2 nn)
     else if h =? 0x5000 then                     (* 0x5XY0 if(Vx==Vy) *)
       vx ← getV x c;
       vy ← getV y c;
       Ok (skipIf (vx =? vy) c, "SE   V" +:+ fmtX 0 x +:+ ",V" +:+ fmtX 0 y)
     else if h =? 0x6000 then                     (* 6XNN Vx = NN *)
       c1 ← setV x nn c;
       Ok (c1, "LD   V" +:+ fmtX 0 x +:+ ",#" +:+ fmtX 2 nn)
     else if h =? 0x7000 then                     (* 7XNN Vx += NN *)
       vx ← getV x c;
       c1 ← setV x (u8 (vx + nn)) c;
       Ok (c1, "ADD  V" +:+ fmtX 0 x +:+ ",#" +:+ fmtX 2 nn)
     else if h =? 0x8000 then
       let sub := Z.land nnn 0xf in
       if sub =? 0 then                           (* 8XY0 Vx=Vy *)
         vy ← getV y c;
         c1 ← setV x vy c;
         Ok (c1, "LD   V" +:+ fmtX 0 x +:+ ",V" +:+ fmtX 0 y)
       else if sub =? 1 then                      (* 8XY1 Vx=Vx|Vy *)
         vx ← getV x c;
         vy ← getV y c;
         c1 ← setV x (Z.lor vx vy) c;
         Ok (c1, "OR   V" +:+ fmtX 0 x +:+ ",V" +:+ fmtX 0 y)
       else if sub =? 2 then                      (* 8XY2 Vx=Vx&Vy *)
         vx ← getV x c;
         vy ← getV y c;
         c1 ← setV x (Z.land vx vy) c;
         Ok (c1, "AND  V" +:+ fmtX 0 x +:+ ",V" +:+ fmtX 0 y)
       else if sub =? 3 then                      (* 8XY3 Vx=Vx^Vy *)
         vx ← getV x c;
         vy ← getV y c;
         c1 ← setV x (Z.lxor vx vy) c;
         Ok (c1, "XOR  V" +:+ fmtX 0 x +:+ ",V" +:+ fmtX 0 y)
       else if sub =? 4 then                      (* 8XY4 Vx += Vy *)
         vx ← getV x c;
         vy ← getV y c;
         let carried := u16 (u16 vx + u16 vy) >? 0xff in
         c1 ← setV x (u8 (vx + vy)) c;
         c2 ← updateCarryFlag carried c1;
         Ok (c2, "ADD  V" +:+ fmtX 0 x +:+ ",V" +:+ fmtX 0 y)
       else if sub =? 5 then                      (* 8XY5 Vx -= Vy *)
         vx ← getV x c;
         vy ← getV y c;
         let borrowed := vx <? vy in
         c1 ← setV x (u8 (vx - vy)) c;
         c2 ← updateCarryFlag (negb borrowed) c1;
         Ok (c2, "SUB  V" +:+ fmtX 0 x +:+ ",V" +:+ fmtX 0 y)
       else if sub =? 6 then                      (* 8XY6 Vx>>=1 *)
         vx ← getV x c;
         c1 ← updateCarryFlag (Z.land vx 0x01 =? 1) c;
         vx1 ← getV x c1;
         c2 ← setV x (Z.shiftr vx1 1) c1;
         Ok (c2, "SHR  V" +:+ fmtX 0 x)
       else if sub =? 7 then                      (* 8XY7 Vx=Vy-Vx *)
         vx ← getV x c;
         vy ← getV y c;
         let borrowed := vy <? vx in
         c1 ← setV x (u8 (vy - vx)) c;
         c2 ← updateCarryFlag (negb borrowed) c1;
         Ok (c2, "SUBN V" +:+ fmtX 0 x +:+ ",V" +:+ fmtX 0 y)
       else if sub =? 0xE then                    (* 8XYE Vx<<=1 *)
         vx ← getV x c;
         c1 ← updateCarryFlag (Z.shiftr vx 7 =? 1) c;
         vx1 ← getV x c1;
         c2 ← setV x (u8 (Z.shiftl vx1 1)) c1;
         Ok (c2, "SHL  V" +:+ fmtX 0 x)
       else Ok (c, "")
     else if h =? 0x9000 then                     (* 9XY0 if(Vx!=Vy) *)
       vx ← getV x c;
       vy ← getV y c;
       Ok (skipIf (negb (vx =? vy)) c,
           "SNE  V" +:+ fmtX 0 x +:+ ",V" +:+ fmtX 0 y)
     else if h =? 0xA000 then                     (* ANNN I = NNN *)
       Ok (set_i nnn c, "LD   I,#" +:+ fmtX 4 nnn)
     else if h =? 0xB000 then                     (* BNNN PC=V0+NNN *)
       v0 ← getV 0 c;
       Ok (set_pc (u16 (u16 v0 + nnn)) c, "JP   V0,#" +:+ fmtX 4 nnn)
     else if h =? 0xC000 then                     (* CXNN Vx=rand()&NN *)
       c1 ← setV x (u8 (Z.land rnd nn)) c;
       Ok (c1, "RND  V" +:+ fmtX 0 x +:+ ",#" +:+ fmtX 2 nn)
     else if h =? 0xD000 then                     (* DXYN draw(Vx,Vy,N) *)
       vx ← getV x c;
       vy ← getV y c;
       '(flipped, c1) ← draw vx vy n c;
       c2 ← updateCarryFlag flipped c1;
       Ok (c2, "DRW  V" +:+ fmtX 0 x +:+ ",V" +:+ fmtX 0 y +:+ "," +:+ fmtD n)
     else if h =? 0xE000 then
       if nn =? 0x9E then                         (* EX9E if(key()==Vx) *)
         vx ← getV x c;
         k ← index (keys c) vx;
         Ok (skipIf (k =? 1) c, "SKP  V" +:+ fmtX 0 x)
       else if nn =? 0xA1 then                    (* EXA1 if(key()!=Vx) *)
         vx ← getV x c;
         k ← index (keys c) vx;
         Ok (skipIf (k =? 0) c, "SKNP V" +:+ fmtX 0 x)
       else Ok (c, "")
     else if h =? 0xF000 then
       if nn =? 0x07 then                         (* FX07 Vx = get_delay() *)
         c1 ← setV x (dt c) c;
         Ok (c1, "LD   V" +:+ fmtX 0 x +:+ ",DT")
       else if nn =? 0x0A then                    (* FX0A Vx = get_key() *)
         c1 ← (if pressedAnyKey c =? 0xff
               then Ok (set_pc (u16 (pc c - 2)) c) (* pc decrement for blocking *)
               else setV x (pressedAnyKey c) c);
         Ok (c1, "LD   V" +:+ fmtX 0 x +:+ ",K")
       else if nn =? 0x15 then                    (* FX15 delay_timer(Vx) *)
         vx ← getV x c;
         Ok (set_dt vx c, "LD   DT,V" +:+ fmtX 0 x)
       else if nn =? 0x18 then                    (* FX18 sound_timer(Vx) *)
         vx ← getV x c;
         Ok (set_st vx c, "LD   ST,V" +:+ fmtX 0 x)
       else if nn =? 0x1E then                    (* FX1E I +=Vx *)
         vx ← getV x c;
         Ok (set_i (u16 (i c + u16 vx)) c, "ADD  I,V" +:+ fmtX 0 x)
       else if nn =? 0x29 then                    (* FX29 I=sprite_addr[Vx] *)
         vx ← getV x c;
         Ok (set_i (u16 (CharacterSpritesOffset
                         + u16 (u16 vx * CharacterSpriteBytes))) c,
             "LD   F,V" +:+ fmtX 0 x)
       else if nn =? 0x33 then                    (* FX33 set_BCD(Vx) *)
         vx ← getV x c;
         m1 ← store (mem c) (u16 (i c + 0)) (vx / 100);
         m2 ← store m1 (u16 (i c + 1)) ((vx mod 100) / 10);
         m3 ← store m2 (u16 (i c + 2)) (vx mod 10);
         Ok (set_mem m3 c, "LD   B,V" +:+ fmtX 0 x)
       else if nn =? 0x55 then                    (* FX55 reg_dump(Vx,&I) *)
         src ← slice_to (v c) (u8 (x + 1));
         m ← copy_at (mem c) (i c) src;
         Ok (set_mem m c, "LD   [I],V" +:+ fmtX 0 x)
       else if nn =? 0x65 then                    (* FX65 reg_load(Vx,&I) *)
         src ← slice_from (mem c) (i c);
         r ← copy_upto (v c) (u8 (x + 1)) src;
         Ok (set_v r c, "LD   V" +:+ fmtX 0 x +:+ ",[I]")
       else Ok (c, "")
     else Ok (c, ""));
  recordOp pc0 op (snd r) (fst r).

Definition step (rnd : Z) (c : Chip8) : result Chip8 :=
  '(op, c1) ← fetchOpcode c;
  execOpcode rnd op c1.

(** [k] calls of [step]; the random source is not consulted by the programs
    run below and is fixed to [0]. *)
Definition steps (k : nat) (c : Chip8) : result Chip8 :=
  Nat.iter k (fun r => c' ← r; step 0 c') (Ok c).

(** ** The keypad as the host drives it ([emulator.go]) *)

(** The keys of the host keyboard that [scanCode2Key] ([emulator.go]) maps
    to the keypad; any other key is [SCANCODE_other]. *)
Inductive Scancode : Type :=
| SCANCODE_4 | SCANCODE_5 | SCANCODE_6 | SCANCODE_7
| SCANCODE_R | SCANCODE_T | SCANCODE_Y | SCANCODE_U
| SCANCODE_F | SCANCODE_G | SCANCODE_H | SCANCODE_J
| SCANCODE_V | SCANCODE_B | SCANCODE_N | SCANCODE_M
| SCANCODE_other.

Definition scanCode2Key (s : Scancode) : option Z :=
  match s with
  | SCANCODE_4 => Some 0x1
  | SCANCODE_5 => Some 0x2
  | SCANCODE_6 => Some 0x3
  | SCANCODE_7 => Some 0xc
  | SCANCODE_R => Some 0x4
  | SCANCODE_T => Some 0x5
  | SCANCODE_Y => Some 0x6
  | SCANCODE_U => Some 0xd
  | SCANCODE_F => Some 0x7
  | SCANCODE_G => Some 0x8
  | SCANCODE_H => Some 0x9
  | SCANCODE_J => Some 0xe
  | SCANCODE_V => Some 0xa
  | SCANCODE_B => Some 0x0
  | SCANCODE_N => Some 0xb
  | SCANCODE_M => Some 0xf
  | SCANCODE_other => None
  end.

(** The keypad update of [pollEvents]: [e.chip8.keys[i] = 1] on a key-down
    event of a mapped key, [= 0] on its key-up event. *)
Definition setKey (s : Scancode) (down : bool) (c : Chip8) : result Chip8 :=
  match scanCode2Key s with
  | Some k => ks ← store (keys c) k (if down then 1 else 0); Ok (set_keys ks c)
  | None => Ok c
  end.

(** ** The host loop ([emulator.go]) *)

Definition Chip8Frequency : Z := 60 * 8.
Definition VBlankFrequency : Z := 60.

(** The keys [pollEvents] itself listens to, among those [scanCode2Key]
    does not map. *)
Inductive Control : Type :=
| SCANCODE_SPACE | SCANCODE_RETURN | SCANCODE_Z | SCANCODE_unused.

(** An event of the SDL queue.  A keyboard event carries its scancode as
    [scanCode2Key] sees it and, for a [SCANCODE_other], which key it is. *)
Inductive Event : Type :=
| QuitEvent
| KEYDOWN (s : Scancode) (o : Control)
| KEYUP (s : Scancode)
| WINDOWEVENT_FOCUS_LOST
| WINDOWEVENT_FOCUS_GAINED
| OtherEvent.

(** [Emulator], without its handles to the SDL renderer, audio device and
    font texture. *)
Record Emulator : Type := mkEmulator {
  rom : list Z;
  chip8 : Chip8;
  running : bool;
  focus : bool;
  stepMode : bool
}.

Definition set_chip8 (c : Chip8) (e : Emulator) : Emulator :=
  mkEmulator (rom e) c (running e) (focus e) (stepMode e).
Definition set_running (b : bool) (e : Emulator) : Emulator :=
  mkEmulator (rom e) (chip8 e) b (focus e) (stepMode e).
Definition set_focus (b : bool) (e : Emulator) : Emulator :=
  mkEmulator (rom e) (chip8 e) (running e) b (stepMode e).
Definition set_stepMode (b : bool) (e : Emulator) : Emulator :=
  mkEmulator (rom e) (chip8 e) (running e) (focus e) b.


(** [e.chip8.step()] *)
Definition stepChip8 (rnd : Z) (e : Emulator) : result Emulator :=
  c ← step rnd (chip8 e);
  Ok (set_chip8 c e).

(** The body of the loop of [pollEvents] for one event; [rnd] is what the
    random generator returns if the event makes the machine step. *)
Definition handleEvent (rnd : Z) (ev : Event) (e : Emulator) : result Emulator :=
  match ev with
  | QuitEvent => Ok (set_running false e)
  | KEYDOWN s o =>
      match scanCode2Key s with
      | Some _ => c ← setKey s true (chip8 e); Ok (set_chip8 c e)
      | None =>
          match o with
          | SCANCODE_SPACE =>
              if stepMode e then stepChip8 rnd e else Ok (set_stepMode true e)
          | SCANCODE_RETURN =>
              if stepMode e then Ok (set_stepMode false e) else Ok e
          | SCANCODE_Z => c ← newChip8 (rom e); Ok (set_chip8 c e)
          | SCANCODE_unused => Ok e
          end
      end
  | KEYUP s =>
      match scanCode2Key s with
      | Some _ => c ← setKey s false (chip8 e); Ok (set_chip8 c e)
      | None => Ok e
      end
  | WINDOWEVENT_FOCUS_LOST => Ok (set_focus false e)
  | WINDOWEVENT_FOCUS_GAINED => Ok (set_focus true e)
  | OtherEvent => Ok e
  end.

(** [pollEvents] drains the queue [evs]. *)
Fixpoint pollEvents (evs : list (Event * Z)) (e : Emulator) : result Emulator :=
  match evs with
  | [] => Ok e
  | (ev, rnd) :: evs' => e' ← handleEvent rnd ev e; pollEvents evs' e'
  end.

(** What one turn of the loop of [Run] receives from outside: the random
    number for its instruction and the events queued when it polls. *)
Record Turn : Type := mkTurn {
  turn_rnd : Z;
  turn_events : list (Event * Z)
}.

Definition perVblankCycle : Z := Chip8Frequency / VBlankFrequency.

(** The body of the loop of [Run]; [cycle] is its local counter.  The calls
    of [e.draw] and [e.updateSound] only talk to SDL and leave the emulator
    as it is. *)
Definition turn (t : Turn) (s : Emulator * Z) : result (Emulator * Z) :=
  let cycle := snd s + 1 in
  e1 ← (if focus (fst s) && negb (stepMode (fst s))
        then stepChip8 (turn_rnd t) (fst s) else Ok (fst s));
  let s2 :=
    if cycle >? perVblankCycle
    then (if focus e1 then set_chip8 (decrementTimer (chip8 e1)) e1 else e1, 0)
    else (e1, cycle) in
  e3 ← pollEvents (turn_events t) (fst s2);
  Ok (e3, snd s2).

(** The loop of [Run] over the turns [ts]: it leaves as soon as [running]
    is off. *)
Fixpoint runLoop (ts : list Turn) (s : Emulator * Z) : result (Emulator * Z) :=
  match ts with
  | [] => Ok s
  | t :: ts' => if running (fst s) then s' ← turn t s; runLoop ts' s' else Ok s
  end.

Definition Run (ts : list Turn) (e : Emulator) : result (Emulator * Z) :=
  runLoop ts (e, 0).

(** Line [k] of the trace panel: [drawDebugInfo] ([emulator.go]) shows
    [ophistory[(ophistoryIndex + k) % OpHistoryNum]] for [k] from 0 to 15. *)
Definition historyLine (c : Chip8) (k : Z) : result string :=
  index (ophistory c) (Z.rem (ophistoryIndex c + k) OpHistoryNum).

(** ** Well-formed states

    What Go's types guarantee of a [Chip8] value (array lengths and integer
    widths), and the one invariant the code keeps by itself: the write
    position of the trace stays inside the ring buffer. *)

Record wf (c : Chip8) : Prop := mk_wf {
  wf_mem_len : length (mem c) = 4096%nat;
  wf_mem : Forall is_u8 (mem c);
  wf_pc : is_u16 (pc c);
  wf_v_len : length (v c) = 16%nat;
  wf_v : Forall is_u8 (v c);
  wf_i : is_u16 (i c);
  wf_dt : is_u8 (dt c);
  wf_st : is_u8 (st c);
  wf_sp : is_u8 (sp c);
  wf_stack_len : length (stack c) = 16%nat;
  wf_stack : Forall is_u16 (stack c);
  wf_keys_len : length (keys c) = 16%nat;
  wf_keys : Forall is_u8 (keys c);
  wf_disp_len : length (disp c) = 2048%nat;
  wf_disp : Forall is_u8 (disp c);
  wf_hist_len : length (ophistory c) = 16%nat;
  wf_hist_idx : 0 <= ophistoryIndex c < 16
}.

Definition u8b (z : Z) : bool := (0 <=? z) && (z <? 256).
Definition u16b (z : Z) : bool := (0 <=? z) && (z <? 65536).

(** The executable form of [wf]. *)
Definition wfb (c : Chip8) : bool :=
  (length (mem c) =? 4096)%nat && forallb u8b (mem c) && u16b (pc c)
  && (length (v c) =? 16)%nat && forallb u8b (v c) && u16b (i c)
  && u8b (dt c) && u8b (st c) && u8b (sp c)
  && (length (stack c) =? 16)%nat && forallb u16b (stack c)
  && (length (keys c) =? 16)%nat && forallb u8b (keys c)
  && (length (disp c) =? 2048)%nat && forallb u8b (disp c)
  && (length (ophistory c) =? 16)%nat
  && (0 <=? ophistoryIndex c) && (ophistoryIndex c <? 16).

(** The value of register [VX]. *)
Definition reg (c : Chip8) (x : Z) : Z := default 0 (v c !! Z.to_nat x).

(** The cell of a framebuffer at column [cx], row [cy] (row-major). *)
Definition cellAt (d : list Z) (cx cy : Z) : Z :=
  default 0 (d !! Z.to_nat (cy * Chip8DisplayW + cx)).

Definition pixel (c : Chip8) (cx cy : Z) : Z := cellAt (disp c) cx cy.

(** The memory byte at address [a]. *)
Definition byte (c : Chip8) (a : Z) : Z := default 0 (mem c !! Z.to_nat a).

(** Key [k] of the keypad is down. *)
Definition pressed (c : Chip8) (k : Z) : Prop := keys c !! Z.to_nat k = Some 1.

(** Bit [col] (0 is the leftmost) of row [r] of the sprite at [I]. *)
Definition spriteBit (c : Chip8) (r col : Z) : Z :=
  Z.land (Z.shiftr (byte c (i c + r)) (7 - col)) 0x01.

(** The cell lies in the 8-by-[n] rectangle whose corner is [(x, y)]. *)
Definition in_sprite (x y n cx cy : Z) : Prop :=
  x <= cx < x + 8 /\ y <= cy < y + n.

(** ** Vocabulary of the proofs *)

(** [post Q m]: if the call [m] returns, its result satisfies [Q]. *)
Definition post {A} (Q : A -> Prop) (m : result A) : Prop :=
  match m with
  | Ok a => Q a
  | _ => True
  end.

(** A call that may panic but never reaches [log.Fatalf]. *)
Definition no_fatal {A} (r : result A) : Prop :=
  match r with
  | Fatal _ => False
  | _ => True
  end.

(** The sub-operation selectors that have a [case] in [execOpcode]. *)
Definition subops8 : list Z := [0; 1; 2; 3; 4; 5; 6; 7; 0xE].
Definition subopsE : list Z := [0x9E; 0xA1].
Definition subopsF : list Z :=
  [0x07; 0x0A; 0x15; 0x18; 0x1E; 0x29; 0x33; 0x55; 0x65].

(** An opcode of family 0x8, 0xE or 0xF whose selector has no [case]. *)
Definition unlisted (op : Z) : bool :=
  (opH op =? 0x8000) && negb (existsb (Z.eqb (Z.land (opNNN op) 0xf)) subops8)
  || (opH op =? 0xE000) && negb (existsb (Z.eqb (opNN op)) subopsE)
  || (opH op =? 0xF000) && negb (existsb (Z.eqb (opNN op)) subopsF).

Definition state_of (r : result Chip8) : Chip8 :=
  match r with
  | Ok c => c
  | _ => zeroChip8
  end.

(** The sprite rows read through the slice [sm = c.mem[c.i:]]. *)
Definition rowBit (sm : list Z) (r col : Z) : Z :=
  Z.land (Z.shiftr (default 0 (sm !! Z.to_nat r)) (7 - col)) 0x01.

(** The cells the loops of [draw] have visited when the outer counter is [k]
    and the inner one [m]. *)
Definition drawn (x y k m cx cy : Z) : Prop :=
  x <= cx < x + 8 /\ (y <= cy < y + k \/ (cy = y + k /\ cx < x + m)).

(** Invariant of the loops of [draw]: [d0] is the framebuffer at entry. *)
Definition draw_inv (sm d0 : list Z) (x y k m : Z) (acc : list Z * bool) : Prop :=
  length (fst acc) = 2048%nat
  /\ (forall cx cy, 0 <= cx < 64 -> 0 <= cy < 32 ->
        (drawn x y k m cx cy ->
         cellAt (fst acc) cx cy
         = Z.lxor (cellAt d0 cx cy) (rowBit sm (cy - y) (cx - x)))
        /\ (~ drawn x y k m cx cy -> cellAt (fst acc) cx cy = cellAt d0 cx cy))
  /\ (snd acc = true <->
      exists cx cy, 0 <= cx < 64 /\ 0 <= cy < 32 /\ drawn x y k m cx cy
                    /\ cellAt d0 cx cy = 1 /\ rowBit sm (cy - y) (cx - x) = 1).

(** ** Sample programs and states *)

(** The state [newChip8] returns for the program [b]. *)
Definition booted (b : list Z) : Chip8 := state_of (newChip8 b).

(** The state in which the first instruction of [b] has just been fetched
    and the registers hold [regs]. *)
Definition fetched (b regs : list Z) : Chip8 :=
  set_pc 0x202 (set_v regs (booted b)).

Definition noRegs : list Z := replicate 16 0.

(* 0123: a family-0x0 opcode that is neither CLS nor RET *)
Definition sample_sys : Chip8 := booted [0x01; 0x23].
(* 8008: family 0x8, sub-operation 8 has no case *)
Definition sample_unlisted : Chip8 := booted [0x80; 0x08].
(* LD V0,#10 ; SKP V0 *)
Definition sample_skp_rom : Chip8 := booted [0x60; 0x10; 0xE0; 0x9E].
(* ADD VA,VB with VA = 200, VB = 100 *)
Definition sample_add : Chip8 :=
  fetched [0x8A; 0xB4] (<[10%nat := 200]> (<[11%nat := 100]> noRegs)).
(* ADD VF,V1 with VF = 3, V1 = 4 *)
Definition sample_add_vf : Chip8 :=
  fetched [0x8F; 0x14] (<[15%nat := 3]> (<[1%nat := 4]> noRegs)).
(* SHR VC with VC = 3 *)
Definition sample_shr : Chip8 := fetched [0x8C; 0xD6] (<[12%nat := 3]> noRegs).
(* SHR VF with VF = 3 *)
Definition sample_shr_vf : Chip8 :=
  fetched [0x8F; 0x06] (<[15%nat := 3]> noRegs).
(* ADD V8,#F0 with V8 = 0F *)
Definition sample_addi : Chip8 :=
  fetched [0x78; 0xF0] (<[8%nat := 0x0f]> noRegs).
(* ADD VF,#01 with VF = 0 *)
Definition sample_addi_vf : Chip8 := fetched [0x7F; 0x01] noRegs.
(* DRW V1,V2,5 at (60, 30) of the glyph "0" stored at 0x100 *)
Definition sample_draw : Chip8 :=
  set_i 0x100
    (fetched [0xD1; 0x25] (<[1%nat := 60]> (<[2%nat := 30]> noRegs))).
(* LD V2,K with keys 3 and 7 down *)
Definition sample_key : Chip8 :=
  set_keys (<[3%nat := 1]> (<[7%nat := 1]> (replicate 16 0)))
           (booted [0xF2; 0x0A]).
(* the program of the end-to-end scenario *)
Definition sample_rom : list Z := [0x60; 0x05; 0xA2; 0x50; 0xD0; 0x05].
(* delay timer 5, sound timer 0 *)
Definition sample_timers : Chip8 := set_st 0 (set_dt 5 zeroChip8).
(* LD [I],V7 with I = 0x300 and V0..VF = 1..16 *)
Definition sample_dump : Chip8 :=
  set_i 0x300
    (fetched [0xF7; 0x55] [1; 2; 3; 4; 5; 6; 7; 8; 9; 10; 11; 12; 13; 14; 15; 16]).
(* SKP V0 with V0 = 16 *)
Definition sample_skp : Chip8 := fetched [0xE0; 0x9E] (<[0%nat := 16]> noRegs).

(** The harness of [TestExecOpcodes] ([opcodes_test.go]): a program of
    0x100 bytes that starts with [op], [before] applied to the fresh state,
    then one [step]. *)
Definition runTest (op : Z) (before : Chip8 -> Chip8) : result Chip8 :=
  c ← newChip8 ([Z.shiftr op 8; Z.land op 0xff] ++ replicate 254 0);
  step 0 (before c).

(** Every opcode of the form [f x y n], field by field. *)
Definition encode (f x y n : Z) : Z := 0x1000 * f + 0x100 * x + 0x10 * y + n.

Definition fieldsOk (f x y n : Z) : bool :=
  let op := encode f x y n in
  (opH op =? 0x1000 * f) && (opX op =? x) && (opY op =? y) && (opN op =? n)
  && (opNN op =? 0x10 * y + n) && (opNNN op =? 0x100 * x + 0x10 * y + n)
  && (Z.land (opNNN op) 0xf =? n).

(** What a pair of instruction bytes decodes to, field by field. *)
Definition bytesOk (hi lo : Z) : bool :=
  let op := Z.lor (u16 (Z.shiftl hi 8)) lo in
  (op =? 256 * hi + lo) && (opH op =? 0x1000 * (hi / 16))
  && (opX op =? hi mod 16) && (opY op =? lo / 16) && (opN op =? lo mod 16)
  && (opNN op =? lo) && (opNNN op =? 256 * (hi mod 16) + lo).

(** [execOpcode] on each of [ops] in turn. *)
Fixpoint execAll (rnd : Z) (ops : list Z) (c : Chip8) : result Chip8 :=
  match ops with
  | [] => Ok c
  | op :: ops' => c' ← execOpcode rnd op c; execAll rnd ops' c'
  end.

(** [step] called once for each of the random numbers [rnds]. *)
Fixpoint stepsWith (rnds : list Z) (c : Chip8) : result Chip8 :=
  match rnds with
  | [] => Ok c
  | r :: rs => c' ← step r c; stepsWith rs c'
  end.

(** A turn in which no event is queued. *)
Definition quiet (t : Turn) : Prop := turn_events t = [].

(** [SPACE] pressed. *)
Definition space (rnd : Z) : Event * Z := (KEYDOWN SCANCODE_other SCANCODE_SPACE, rnd).

(* a focused, running emulator of the program [b], not in step mode *)
Definition sample_emulator (b : list Z) : Emulator :=
  mkEmulator b (booted b) true true false.

(** * Basic facts *)

Lemma u8b_spec z : u8b z = true <-> is_u8 z.
Proof. unfold u8b, is_u8. rewrite andb_true_iff. lia. Qed.

Lemma u16b_spec z : u16b z = true <-> is_u16 z.
Proof. unfold u16b, is_u16. rewrite andb_true_iff. lia. Qed.

Lemma forallb_u8b l : forallb u8b l = true -> Forall is_u8 l.
Proof.
  induction l as [|e l IH]; simpl; [constructor|].
  rewrite andb_true_iff. intros [He Hl]. constructor; [by apply u8b_spec|auto].
Qed.

Lemma forallb_u16b l : forallb u16b l = true -> Forall is_u16 l.
Proof.
  induction l as [|e l IH]; simpl; [constructor|].
  rewrite andb_true_iff. intros [He Hl]. constructor; [by apply u16b_spec|auto].
Qed.

Lemma wfb_wf c : wfb c = true -> wf c.
Proof.
  unfold wfb. intros H.
  repeat (apply andb_prop in H as [H ?]).
  repeat match goal with
    | E : (_ =? _)%nat = true |- _ => apply Nat.eqb_eq in E
    end.
  constructor; auto using forallb_u8b, forallb_u16b;
    try (by apply u8b_spec); try (by apply u16b_spec); lia.
Qed.

(** Closes [wf] of a concrete state by running its executable form. *)
Ltac wf_by_compute := apply wfb_wf; vm_compute; reflexivity.

Lemma u8_id z : is_u8 z -> u8 z = z.
Proof. unfold is_u8, u8. intros. by apply Z.mod_small. Qed.

Lemma u16_id z : is_u16 z -> u16 z = z.
Proof. unfold is_u16, u16. intros. by apply Z.mod_small. Qed.

Lemma u8_range z : is_u8 (u8 z).
Proof. unfold is_u8, u8. apply Z.mod_pos_bound. lia. Qed.

Lemma u16_range z : is_u16 (u16 z).
Proof. unfold is_u16, u16. apply Z.mod_pos_bound. lia. Qed.

Lemma land_0xf z : Z.land z 0xf = z mod 16.
Proof. change 0xf with (Z.ones 4). by rewrite Z.land_ones. Qed.

Lemma opX_range op : 0 <= opX op < 16.
Proof.
  unfold opX. rewrite land_0xf, u8_id; unfold is_u8;
    pose proof (Z.mod_pos_bound (Z.shiftr (opNNN op) 8) 16); lia.
Qed.

Lemma opY_range op : 0 <= opY op < 16.
Proof.
  unfold opY. rewrite land_0xf, u8_id; unfold is_u8;
    pose proof (Z.mod_pos_bound (Z.shiftr (opNNN op) 4) 16); lia.
Qed.

Lemma opNN_range op : is_u8 (opNN op).
Proof. apply u8_range. Qed.

Lemma opN_range op : 0 <= opN op < 16.
Proof. unfold opN. rewrite land_0xf. apply Z.mod_pos_bound. lia. Qed.

Lemma fieldsOk_all :
  forallb (fun f =>
    forallb (fun x =>
      forallb (fun y => forallb (fieldsOk f x y) (seqZ 0 16)) (seqZ 0 16))
      (seqZ 0 16)) (seqZ 0 16) = true.
Proof. vm_compute. reflexivity. Qed.

Lemma In_seqZ_16 k : 0 <= k < 16 -> In k (seqZ 0 16).
Proof. intros Hk. apply list_elem_of_In, elem_of_seqZ. lia. Qed.

(** Every family [f] and every choice of the selectors [x], [y] and of the
    low nibble [n] is the decoding of the opcode [encode f x y n]. *)
Lemma decode_encode f x y n :
  0 <= f < 16 -> 0 <= x < 16 -> 0 <= y < 16 -> 0 <= n < 16 ->
  opH (encode f x y n) = 0x1000 * f
  /\ opX (encode f x y n) = x /\ opY (encode f x y n) = y
  /\ opN (encode f x y n) = n
  /\ opNN (encode f x y n) = 0x10 * y + n
  /\ opNNN (encode f x y n) = 0x100 * x + 0x10 * y + n
  /\ Z.land (opNNN (encode f x y n)) 0xf = n.
Proof.
  intros Hf Hx Hy Hn. pose proof fieldsOk_all as Hall.
  rewrite forallb_forall in Hall. specialize (Hall f (In_seqZ_16 f Hf)).
  rewrite forallb_forall in Hall. specialize (Hall x (In_seqZ_16 x Hx)).
  rewrite forallb_forall in Hall. specialize (Hall y (In_seqZ_16 y Hy)).
  rewrite forallb_forall in Hall. specialize (Hall n (In_seqZ_16 n Hn)).
  unfold fieldsOk in Hall. cbv zeta in Hall.
  repeat (apply andb_prop in Hall as [Hall ?]).
  repeat match goal with E : (_ =? _) = true |- _ => apply Z.eqb_eq in E end.
  by repeat split.
Qed.

Section Arrays.
Context {A : Type}.
Implicit Types (a : list A) (k : Z) (e : A).

Lemma index_Ok a k e :
  0 <= k -> a !! Z.to_nat k = Some e -> index a k = Ok e.
Proof.
  intros Hk He. unfold index.
  destruct (k <? 0) eqn:E; [lia|]. by rewrite He.
Qed.

Lemma index_Panic a k : Z.of_nat (length a) <= k -> index a k = Panic.
Proof.
  intros Hk. unfold index. destruct (k <? 0); [done|].
  rewrite (lookup_ge_None_2 a (Z.to_nat k)); [done|lia].
Qed.

Lemma store_Ok a k e :
  0 <= k < Z.of_nat (length a) -> store a k e = Ok (<[Z.to_nat k := e]> a).
Proof.
  intros Hk. unfold store.
  destruct (0 <=? k) eqn:E1, (k <? Z.of_nat (length a)) eqn:E2; simpl; [done|lia..].
Qed.

Lemma slice_from_Ok a k :
  0 <= k <= Z.of_nat (length a) -> slice_from a k = Ok (drop (Z.to_nat k) a).
Proof.
  intros Hk. unfold slice_from.
  destruct (0 <=? k) eqn:E1, (k <=? Z.of_nat (length a)) eqn:E2; simpl; [done|lia..].
Qed.

Lemma slice_to_Ok a k :
  0 <= k <= Z.of_nat (length a) -> slice_to a k = Ok (take (Z.to_nat k) a).
Proof.
  intros Hk. unfold slice_to.
  destruct (0 <=? k) eqn:E1, (k <=? Z.of_nat (length a)) eqn:E2; simpl; [done|lia..].
Qed.

Lemma length_copy (dst src : list A) : length (copy dst src) = length dst.
Proof. unfold copy. rewrite length_app, length_take, length_drop. lia. Qed.

End Arrays.

(** ** The result monad and the state accessors *)

Lemma bind_Ok {A B} (a : A) (f : A -> result B) : (Ok a ≫= f) = f a.
Proof. reflexivity. Qed.

Lemma bind_inv {A B} (m : result A) (f : A -> result B) b :
  (m ≫= f) = Ok b -> exists a, m = Ok a /\ f a = Ok b.
Proof. destruct m as [a| |msg]; [eauto|done..]. Qed.

Lemma if_eqb_false {A} (a b : Z) (X Y : A) :
  (a =? b) = false -> (if a =? b then X else Y) = Y.
Proof. by intros ->. Qed.

Lemma if_eqb_true {A} (a b : Z) (X Y : A) :
  (a =? b) = true -> (if a =? b then X else Y) = X.
Proof. by intros ->. Qed.

(** Walks down a [switch] as far as its comparisons are decided, by
    computation or by a hypothesis, dropping the branches not taken. *)
Ltac dispatch :=
  repeat first
    [ rewrite if_eqb_false by (reflexivity || assumption)
    | rewrite if_eqb_true by (reflexivity || assumption) ].

Lemma getV_Ok c x :
  length (v c) = 16%nat -> 0 <= x < 16 -> getV x c = Ok (reg c x).
Proof.
  intros Hlen Hx. unfold getV, reg.
  destruct (lookup_lt_is_Some_2 (v c) (Z.to_nat x)) as [e He]; [lia|].
  rewrite He. apply index_Ok; [lia|done].
Qed.

Lemma setV_Ok c x e :
  length (v c) = 16%nat -> 0 <= x < 16 ->
  setV x e c = Ok (set_v (<[Z.to_nat x := e]> (v c)) c).
Proof. intros Hlen Hx. unfold setV. rewrite store_Ok by lia. done. Qed.

Lemma updateCarryFlag_Ok c b :
  length (v c) = 16%nat ->
  updateCarryFlag b c
  = Ok (set_v (<[15%nat := if b then 1 else 0]> (v c)) c).
Proof. intros Hlen. unfold updateCarryFlag. rewrite store_Ok by lia. done. Qed.

Lemma recordOp_Ok pc0 op m c :
  length (ophistory c) = 16%nat -> 0 <= ophistoryIndex c < 16 ->
  recordOp pc0 op m c
  = Ok (set_history
          (<[Z.to_nat (ophistoryIndex c)
             := fmtX 3 pc0 +:+ "-" +:+ fmtX 4 op +:+ " " +:+ m]> (ophistory c))
          (Z.rem (ophistoryIndex c + 1) OpHistoryNum) c).
Proof. intros Hlen Hk. unfold recordOp. rewrite store_Ok by lia. done. Qed.

Lemma reg_range c x : wf c -> is_u8 (reg c x).
Proof.
  intros Hwf. unfold reg.
  destruct (v c !! Z.to_nat x) as [e|] eqn:He; simpl; [|unfold is_u8; lia].
  eapply Forall_lookup_1; [apply (wf_v c Hwf)|done].
Qed.

(** * Well-formedness is an invariant *)

Lemma post_Ok {A} (Q : A -> Prop) a : Q a -> post Q (Ok a).
Proof. done. Qed.

Lemma post_bind {A B} (Q : B -> Prop) (m : result A) (f : A -> result B) :
  post (fun a => post Q (f a)) m -> post Q (m ≫= f).
Proof. by destruct m. Qed.

Lemma post_index {A} (Q : A -> Prop) (a : list A) k :
  (forall e, a !! Z.to_nat k = Some e -> Q e) -> post Q (index a k).
Proof.
  intros HQ. unfold index. destruct (k <? 0); [done|].
  destruct (a !! Z.to_nat k) eqn:E; [|done]. by apply HQ.
Qed.

Lemma post_store {A} (Q : list A -> Prop) (a : list A) k e :
  Q (<[Z.to_nat k := e]> a) -> post Q (store a k e).
Proof. intros HQ. unfold store. by case_match. Qed.

Lemma post_slice_from {A} (Q : list A -> Prop) (a : list A) k :
  (0 <= k <= Z.of_nat (length a) -> Q (drop (Z.to_nat k) a)) ->
  post Q (slice_from a k).
Proof.
  intros HQ. unfold slice_from.
  destruct (0 <=? k) eqn:E1, (k <=? Z.of_nat (length a)) eqn:E2; simpl;
    try done. apply HQ. lia.
Qed.

Lemma post_slice_to {A} (Q : list A -> Prop) (a : list A) k :
  (0 <= k <= Z.of_nat (length a) -> Q (take (Z.to_nat k) a)) ->
  post Q (slice_to a k).
Proof.
  intros HQ. unfold slice_to.
  destruct (0 <=? k) eqn:E1, (k <=? Z.of_nat (length a)) eqn:E2; simpl;
    try done. apply HQ. lia.
Qed.

Lemma post_for_each {S} (I : S -> Prop) ks (body : Z -> S -> result S) s :
  (forall k s', I s' -> post I (body k s')) -> I s ->
  post I (for_each ks body s).
Proof.
  intros Hbody. revert s.
  induction ks as [|k ks IH]; intros s Hs; simpl; [done|].
  apply post_bind. specialize (Hbody k s Hs).
  destruct (body k s); simpl in *; auto.
Qed.

(** ** Ranges of the values the instructions compute *)

Lemma is_u8_bits z : is_u8 z <-> 0 <= z /\ (z = 0 \/ Z.log2 z < 8).
Proof.
  unfold is_u8. change 256 with (2 ^ 8).
  destruct (decide (z = 0)) as [->|Hz]; [intuition lia|].
  split.
  - intros [H0 H1]. split; [done|right].
    by apply (Z.log2_lt_pow2 z 8); [lia|].
  - intros [H0 [-> | H1]]; [done|].
    split; [done|]. by apply (Z.log2_lt_pow2 z 8); [lia|].
Qed.

Lemma is_u8_lor a b : is_u8 a -> is_u8 b -> is_u8 (Z.lor a b).
Proof.
  intros Ha Hb. pose proof Ha as Ha'. pose proof Hb as Hb'.
  unfold is_u8 in Ha', Hb'.
  destruct (decide (a = 0)) as [->|]; [by rewrite Z.lor_0_l|].
  destruct (decide (b = 0)) as [->|]; [by rewrite Z.lor_0_r|].
  apply is_u8_bits. split; [apply Z.lor_nonneg; lia|right].
  rewrite Z.log2_lor by lia.
  apply is_u8_bits in Ha as [_ [?|?]], Hb as [_ [?|?]]; lia.
Qed.

Lemma is_u8_land a b : is_u8 a -> is_u8 b -> is_u8 (Z.land a b).
Proof.
  intros Ha Hb. pose proof Ha as Ha'. pose proof Hb as Hb'.
  unfold is_u8 in Ha', Hb'.
  apply is_u8_bits. split; [apply Z.land_nonneg; lia|].
  destruct (decide (Z.land a b = 0)); [by left|right].
  pose proof (Z.log2_land a b ltac:(lia) ltac:(lia)).
  apply is_u8_bits in Ha as [_ [->|?]]; [by rewrite Z.land_0_l in *|]. lia.
Qed.

Lemma is_u8_lxor a b : is_u8 a -> is_u8 b -> is_u8 (Z.lxor a b).
Proof.
  intros Ha Hb. pose proof Ha as Ha'. pose proof Hb as Hb'.
  unfold is_u8 in Ha', Hb'.
  destruct (decide (a = 0)) as [->|]; [by rewrite Z.lxor_0_l|].
  destruct (decide (b = 0)) as [->|]; [by rewrite Z.lxor_0_r|].
  apply is_u8_bits. split; [apply Z.lxor_nonneg; lia|].
  destruct (decide (Z.lxor a b = 0)); [by left|right].
  pose proof (Z.log2_lxor a b ltac:(lia) ltac:(lia)).
  apply is_u8_bits in Ha as [_ [?|?]], Hb as [_ [?|?]]; lia.
Qed.

Lemma is_u8_shiftr a k : is_u8 a -> 0 <= k -> is_u8 (Z.shiftr a k).
Proof.
  unfold is_u8. intros Ha Hk. rewrite Z.shiftr_div_pow2 by done.
  assert (0 < 2 ^ k) by (apply Z.pow_pos_nonneg; lia).
  split; [apply Z.div_pos; lia|].
  apply Z.le_lt_trans with a; [|lia].
  apply Z.div_le_upper_bound; [lia|]. nia.
Qed.

Lemma opNNN_range op : 0 <= opNNN op < 4096.
Proof.
  unfold opNNN. change 0x0FFF with (Z.ones 12). rewrite Z.land_ones by lia.
  apply Z.mod_pos_bound. lia.
Qed.

(** ** Writes that keep a state well formed *)

Lemma wf_set_pc c p : wf c -> is_u16 p -> wf (set_pc p c).
Proof. intros [] Hp. constructor; done. Qed.

Lemma wf_set_mem c m :
  wf c -> length m = 4096%nat -> Forall is_u8 m -> wf (set_mem m c).
Proof. intros [] Hlen Hm. constructor; done. Qed.

Lemma wf_set_i c a : wf c -> is_u16 a -> wf (set_i a c).
Proof. intros [] Ha. constructor; done. Qed.

Lemma wf_recorded c pc0 op m :
  wf c ->
  wf (set_history
        (<[Z.to_nat (ophistoryIndex c)
           := fmtX 3 pc0 +:+ "-" +:+ fmtX 4 op +:+ " " +:+ m]> (ophistory c))
        (Z.rem (ophistoryIndex c + 1) OpHistoryNum) c).
Proof.
  intros []. constructor; try done; cbn [ophistory ophistoryIndex set_history].
  - by rewrite length_insert.
  - unfold OpHistoryNum. pose proof (Z.rem_bound_pos (ophistoryIndex c + 1) 16).
    lia.
Qed.

Lemma wf_set_v c r :
  wf c -> length r = 16%nat -> Forall is_u8 r -> wf (set_v r c).
Proof. intros [] Hlen Hr. constructor; done. Qed.

Lemma wf_set_dt c t : wf c -> is_u8 t -> wf (set_dt t c).
Proof. intros [] Ht. constructor; done. Qed.

Lemma wf_set_st c t : wf c -> is_u8 t -> wf (set_st t c).
Proof. intros [] Ht. constructor; done. Qed.

Lemma wf_set_disp c d :
  wf c -> length d = 2048%nat -> Forall is_u8 d -> wf (set_disp d c).
Proof. intros [] Hlen Hd. constructor; done. Qed.

Lemma wf_set_stack c s p :
  wf c -> length s = 16%nat -> Forall is_u16 s -> is_u8 p ->
  wf (set_sp p (set_stack s c)).
Proof. intros [] Hlen Hs Hp. constructor; done. Qed.

Lemma wf_skipIf c b : wf c -> wf (skipIf b c).
Proof.
  intros Hwf. unfold skipIf. destruct b; [|done].
  apply wf_set_pc; [done|apply u16_range].
Qed.

Lemma wf_insert_v c x e : wf c -> is_u8 e -> wf (set_v (<[x := e]> (v c)) c).
Proof.
  intros Hwf He. apply wf_set_v; [done|by rewrite length_insert, (wf_v_len c)|].
  apply Forall_insert; [apply Hwf|done].
Qed.

(** ** What the calls of [execOpcode] return *)

Section Post.
Variable c : Chip8.
Hypothesis Hwf : wf c.

Lemma post_getV x (P : Z -> Prop) :
  (forall vx, is_u8 vx -> P vx) -> post P (getV x c).
Proof using Hwf.
  intros HP. unfold getV. apply post_index. intros e He. apply HP.
  eapply Forall_lookup_1; [apply (wf_v c Hwf)|done].
Qed.

Lemma post_setV x e (P : Chip8 -> Prop) :
  is_u8 e -> (forall c1, wf c1 -> c1 = set_v (v c1) c -> P c1) ->
  post P (setV x e c).
Proof using Hwf.
  intros He HP. unfold setV. apply post_bind, post_store. simpl.
  apply HP; [by apply wf_insert_v|done].
Qed.

Lemma post_updateCarryFlag b (P : Chip8 -> Prop) :
  (forall c1, wf c1 -> c1 = set_v (v c1) c -> P c1) ->
  post P (updateCarryFlag b c).
Proof using Hwf.
  intros HP. unfold updateCarryFlag. apply post_bind, post_store. simpl.
  apply HP; [|done]. apply wf_insert_v; [done|]. unfold is_u8. destruct b; lia.
Qed.

Lemma post_pushStack a (P : Chip8 -> Prop) :
  is_u16 a ->
  (forall c1, wf c1 -> c1 = set_sp (sp c1) (set_stack (stack c1) c) -> P c1) ->
  post P (pushStack a c).
Proof using Hwf.
  intros Ha HP. unfold pushStack. apply post_bind, post_store. simpl.
  apply HP; [|done]. apply wf_set_stack; [done| | |apply u8_range].
  - by rewrite length_insert, (wf_stack_len c).
  - apply Forall_insert; [apply Hwf|done].
Qed.

Lemma post_popStack (P : Z * Chip8 -> Prop) :
  (forall a c1, is_u16 a -> wf c1 -> c1 = set_sp (sp c1) c -> P (a, c1)) ->
  post P (popStack c).
Proof using Hwf.
  intros HP. unfold popStack. cbv zeta. apply post_bind, post_index.
  intros a Ha. simpl. apply HP; [| |done].
  - eapply Forall_lookup_1; [apply (wf_stack c Hwf)|done].
  - destruct Hwf. constructor; try done. apply u8_range.
Qed.

Lemma post_draw x y n (P : bool * Chip8 -> Prop) :
  (forall f c1, wf c1 -> c1 = set_disp (disp c1) c -> P (f, c1)) ->
  post P (draw x y n c).
Proof using Hwf.
  intros HP. unfold draw. apply post_bind, post_slice_from. intros _.
  apply post_bind.
  set (I := fun acc : list Z * bool =>
              length (fst acc) = 2048%nat /\ Forall is_u8 (fst acc)).
  assert (post I (for_each (seqZ 0 n)
            (fun iy => for_each (seqZ 0 8)
               (fun ix => drawPixel (drop (Z.to_nat (i c)) (mem c)) x y iy ix))
            (disp c, false))) as Hloop.
  { apply post_for_each; [|split; apply Hwf].
    intros iy acc Hacc. apply post_for_each; [|done].
    intros ix acc' [Hlen Hall]. unfold drawPixel. cbv zeta.
    case_match; [by split|].
    apply post_bind, post_index. intros s Hs.
    apply post_bind, post_index. intros row Hrow.
    apply post_bind, post_index. intros cur Hcur.
    apply post_bind, post_store. unfold I. simpl. split.
    - by rewrite length_insert.
    - apply Forall_insert; [done|].
      apply is_u8_lxor; [by eapply Forall_lookup_1|].
      apply is_u8_land; [|unfold is_u8; lia].
      apply is_u8_shiftr; [|apply u8_range].
      eapply Forall_lookup_1; [|done].
      apply Forall_drop, Hwf. }
  destruct (for_each _ _ _) as [acc| |]; [|done..].
  destruct Hloop as [Hlen Hall]. simpl. apply HP; [by apply wf_set_disp|done].
Qed.
End Post.

Lemma post_mono {A} (P Q : A -> Prop) (m : result A) :
  (forall a, P a -> Q a) -> post P m -> post Q m.
Proof. intros HPQ. destruct m; simpl; auto. Qed.

Lemma post_recordOp pc0 op m c : wf c -> post wf (recordOp pc0 op m c).
Proof.
  intros Hwf. unfold recordOp. apply post_bind, post_store. simpl.
  destruct Hwf. constructor; try done; cbn [ophistory ophistoryIndex set_history].
  - by rewrite length_insert.
  - unfold OpHistoryNum. pose proof (Z.rem_bound_pos (ophistoryIndex c + 1) 16).
    lia.
Qed.

Lemma is_u8_firstPressed ks k : is_u8 (firstPressed ks k).
Proof.
  revert k. induction ks as [|e ks IH]; intros k; simpl.
  - unfold is_u8. lia.
  - case_match; [apply u8_range|apply IH].
Qed.

Lemma is_u8_bcd vx :
  is_u8 vx -> is_u8 (vx / 100) /\ is_u8 (vx mod 100 / 10) /\ is_u8 (vx mod 10).
Proof.
  unfold is_u8. intros Hvx.
  pose proof (Z.mod_pos_bound vx 100). pose proof (Z.mod_pos_bound vx 10).
  repeat split; try (apply Z.div_pos; lia); try lia.
  - apply Z.div_lt_upper_bound; lia.
  - apply Z.div_lt_upper_bound; lia.
Qed.

Lemma Forall_copy {A} (P : A -> Prop) (dst src : list A) :
  Forall P dst -> Forall P src -> Forall P (copy dst src).
Proof.
  intros Hd Hs. unfold copy.
  apply Forall_app_2; [by apply Forall_take|by apply Forall_drop].
Qed.

Ltac wf_side :=
  solve [ repeat first
    [ assumption
    | apply u8_range | apply u16_range | apply opNN_range
    | apply is_u8_firstPressed
    | apply is_u8_lor | apply is_u8_land | apply is_u8_lxor
    | apply is_u8_shiftr
    | match goal with H : wf ?c |- is_u16 (pc ?c) => apply (wf_pc c H) end
    | match goal with H : wf ?c |- is_u8 (dt ?c) => apply (wf_dt c H) end
    | match goal with |- is_u16 (opNNN ?op) =>
        pose proof (opNNN_range op); unfold is_u16; lia end
    | lia ] ].

Ltac wf_run :=
  repeat first
    [ match goal with
      | |- post _ (if ?b then _ else _) => destruct b eqn:?
      | |- post _ (Ok _) => apply post_Ok; cbn [fst snd]
      | |- post _ (_ ≫= _) => apply post_bind
      | |- post _ (getV _ _) => apply post_getV; [assumption|intros ? ?]
      | |- post _ (setV _ _ _) =>
          apply post_setV; [assumption|wf_side|intros ? ? ?]
      | |- post _ (updateCarryFlag _ _) =>
          apply post_updateCarryFlag; [assumption|intros ? ? ?]
      | |- post _ (pushStack _ _) =>
          apply post_pushStack; [assumption|wf_side|intros ? ? ?]
      | |- post _ (popStack _) =>
          apply post_popStack; [assumption|intros ? ? ? ? ?; cbn beta iota]
      | |- post _ (draw _ _ _ _) =>
          apply post_draw; [assumption|intros ? ? ? ?; cbn beta iota]
      | |- post _ (index _ _) => apply post_index; intros ? ?
      | |- wf (skipIf _ _) => apply wf_skipIf
      | |- wf (set_pc _ _) => apply wf_set_pc; [|wf_side]
      | |- wf (set_i _ _) => apply wf_set_i; [|wf_side]
      | |- wf (set_dt _ _) => apply wf_set_dt; [|wf_side]
      | |- wf (set_st _ _) => apply wf_set_st; [|wf_side]
      end
    | assumption ].

(** [wf] is an invariant of the engine: the initial state has it and every
    instruction that returns keeps it. *)
Lemma execOpcode_wf rnd op c : wf c -> post wf (execOpcode rnd op c).
Proof.
  intros Hwf. unfold execOpcode. cbv zeta.
  apply post_bind.
  apply (post_mono (fun r => wf (fst r))); [intros r Hr; by apply post_recordOp|].
  wf_run; try done.
  - (* 00E0 *)
    apply wf_set_disp; [done|by rewrite length_fmap, (wf_disp_len c)|].
    apply Forall_fmap, Forall_true. intros z. unfold is_u8. simpl. lia.
  - (* FX33 *)
    match goal with
    | H : is_u8 ?vx |- context [?vx / 100] =>
        destruct (is_u8_bcd vx H) as (Hh & Ht & Ho)
    end.
    repeat (apply post_store; try apply post_bind). apply post_Ok. cbn [fst].
    apply wf_set_mem; [done|by rewrite !length_insert, (wf_mem_len c)|].
    repeat apply Forall_insert; try done. apply Hwf.
  - (* FX55 *)
    apply post_slice_to. intros _. apply post_bind. unfold copy_at.
    apply post_bind, post_slice_from. intros Hi. apply post_Ok, post_Ok.
    cbn [fst]. apply wf_set_mem; [done| |].
    + rewrite length_app, length_copy, length_take, length_drop,
        (wf_mem_len c Hwf) in *. lia.
    + apply Forall_app_2; [apply Forall_take, Hwf|].
      apply Forall_copy; [apply Forall_drop, Hwf|apply Forall_take, Hwf].
  - (* FX65 *)
    apply post_slice_from. intros _. apply post_bind. unfold copy_upto.
    apply post_bind, post_slice_to. intros Hk. apply post_Ok, post_Ok.
    cbn [fst]. apply wf_set_v; [done| |].
    + rewrite length_app, length_copy, length_take, length_drop,
        (wf_v_len c Hwf) in *. lia.
    + apply Forall_app_2; [|apply Forall_drop, Hwf].
      apply Forall_copy; [apply Forall_take, Hwf|apply Forall_drop, Hwf].
Qed.

Lemma fetchOpcode_wf c :
  wf c -> post (fun r => wf (snd r) /\ is_u16 (fst r)) (fetchOpcode c).
Proof.
  intros Hwf. unfold fetchOpcode.
  apply post_bind, post_index. intros hi Hhi.
  apply post_bind, post_index. intros lo Hlo. simpl.
  split; [apply wf_set_pc; [done|apply u16_range]|].
  assert (is_u8 hi) as H1 by (eapply Forall_lookup_1; [apply (wf_mem c Hwf)|done]).
  assert (is_u8 lo) as H2 by (eapply Forall_lookup_1; [apply (wf_mem c Hwf)|done]).
  unfold is_u8, is_u16 in *.
  rewrite Z.shiftl_mul_pow2 by lia. change (2 ^ 8) with 256.
  rewrite u16_id by (unfold is_u16; lia).
  split; [apply Z.lor_nonneg; lia|].
  destruct (decide (Z.lor (hi * 256) lo = 0)) as [->|Hne]; [lia|].
  apply (Z.log2_lt_pow2 _ 16); [|].
  - pose proof (Z.lor_nonneg (hi * 256) lo). lia.
  - destruct (decide (hi * 256 = 0)) as [E|E];
      destruct (decide (lo = 0)) as [E'|E'].
    + rewrite E, E' in Hne. done.
    + rewrite E, Z.lor_0_l. apply (Z.log2_lt_pow2 lo 16); lia.
    + rewrite E', Z.lor_0_r. apply (Z.log2_lt_pow2 (hi * 256) 16); lia.
    + rewrite Z.log2_lor by lia.
      pose proof (proj1 (Z.log2_lt_pow2 lo 16 ltac:(lia)) ltac:(lia)).
      pose proof (proj1 (Z.log2_lt_pow2 (hi * 256) 16 ltac:(lia)) ltac:(lia)).
      lia.
Qed.

Lemma step_wf rnd c : wf c -> post wf (step rnd c).
Proof.
  intros Hwf. unfold step. apply post_bind.
  apply (post_mono (fun r => wf (snd r) /\ is_u16 (fst r)));
    [|by apply fetchOpcode_wf].
  intros [op c1] [Hwf1 _]. by apply execOpcode_wf.
Qed.

Lemma newChip8_wf b : Forall is_u8 b -> post wf (newChip8 b).
Proof.
  intros Hb. unfold newChip8. cbv zeta.
  change (mem (set_sp 15 (set_pc ProgramOffset zeroChip8)))
    with (replicate 4096 0).
  assert (Forall is_u8 (replicate 4096 0)) as Hz
    by (apply Forall_replicate; unfold is_u8; lia).
  unfold copy_at.
  apply post_bind, post_bind, post_slice_from. intros H1. apply post_Ok.
  apply post_bind, post_bind, post_slice_from. intros H2. apply post_Ok.
  apply post_Ok.
  assert (wf (set_sp 15 (set_pc ProgramOffset zeroChip8))) as Hwf0
    by wf_by_compute.
  apply wf_set_mem; [done| |].
  - rewrite !length_app, !length_copy, !length_take, !length_drop,
      !length_app, !length_copy, !length_take, !length_drop,
      !length_replicate in *.
    unfold CharacterSpritesOffset, ProgramOffset in *. lia.
  - assert (Forall is_u8 characterSprites) as Hs
      by (apply forallb_u8b; vm_compute; reflexivity).
    repeat first [ apply Forall_app_2 | apply Forall_copy | apply Forall_take
                 | apply Forall_drop | assumption ].
Qed.

Lemma steps_wf k c : wf c -> post wf (steps k c).
Proof.
  intros Hwf. unfold steps. induction k as [|k IH]; [done|].
  rewrite Nat.iter_succ. apply post_bind.
  apply (post_mono wf); [intros c1 Hc1; by apply step_wf|done].
Qed.

(** The timers are written by no instruction but FX15 (delay) and FX18
    (sound). *)
Lemma execOpcode_timers rnd op c :
  wf c ->
  post (fun c' =>
          (dt c' = dt c \/ (opH op = 0xF000 /\ opNN op = 0x15))
          /\ (st c' = st c \/ (opH op = 0xF000 /\ opNN op = 0x18)))
       (execOpcode rnd op c).
Proof.
  intros Hwf. unfold execOpcode. cbv zeta.
  apply post_bind.
  apply (post_mono (fun r =>
           (dt (fst r) = dt c \/ (opH op = 0xF000 /\ opNN op = 0x15))
           /\ (st (fst r) = st c \/ (opH op = 0xF000 /\ opNN op = 0x18)))).
  { intros [c1 m] Hc1. unfold recordOp. apply post_bind, post_store. exact Hc1. }
  wf_run; try done.
  all: unfold copy_at, copy_upto;
       repeat match goal with
         | |- post _ (_ ≫= _) => apply post_bind
         | |- post _ (store _ _ _) => apply post_store
         | |- post _ (slice_to _ _) => apply post_slice_to; intros _
         | |- post _ (slice_from _ _) => apply post_slice_from; intros _
         | |- post _ (Ok _) => apply post_Ok
         end.
  all: unfold skipIf; repeat case_match;
       repeat (cbn [fst dt st set_mem set_pc set_v set_i set_dt set_st set_sp
                      set_stack set_keys set_disp set_history];
               match goal with
               | H : ?c1 = _ |- context [dt ?c1] => rewrite H; clear H
               | H : ?c1 = _ |- context [st ?c1] => rewrite H; clear H
               end);
       cbn [fst dt st set_mem set_pc set_v set_i set_dt set_st set_sp
              set_stack set_keys set_disp set_history].
  all: split;
       first [ left; reflexivity
             | right; split; apply Z.eqb_eq; assumption ].
Qed.

(** * Arithmetic instructions and the flag register *)

Section AddRegisters.
Variables (rnd op : Z) (c : Chip8).
Hypothesis Hwf : wf c.
Hypothesis Hfamily : opH op = 0x8000.
Hypothesis Hsub : Z.land (opNNN op) 0xf = 4.

(** The state 8XY4 leaves: the sum goes to [VX], then the flag to [VF]. *)
Lemma execOpcode_8XY4 :
  execOpcode rnd op c
  = recordOp (u16 (pc c - 2)) op
      ("ADD  V" +:+ fmtX 0 (opX op) +:+ ",V" +:+ fmtX 0 (opY op))
      (set_v (<[15%nat := if reg c (opX op) + reg c (opY op) >? 255
                          then 1 else 0]>
                (<[Z.to_nat (opX op)
                   := (reg c (opX op) + reg c (opY op)) mod 256]> (v c))) c).
Proof using Hwf Hfamily Hsub.
  pose proof (opX_range op). pose proof (opY_range op).
  pose proof (reg_range c (opX op) Hwf) as Hx.
  pose proof (reg_range c (opY op) Hwf) as Hy.
  pose proof (wf_v_len c Hwf) as Hlen.
  unfold execOpcode. cbv zeta. rewrite Hfamily, Hsub. dispatch.
  rewrite !getV_Ok, !bind_Ok by done.
  rewrite setV_Ok, bind_Ok by done.
  rewrite updateCarryFlag_Ok, !bind_Ok by (simpl; by rewrite length_insert).
  cbn [fst snd].
  rewrite (u16_id (reg c (opX op))), (u16_id (reg c (opY op))),
    (u16_id (reg c (opX op) + reg c (opY op)))
    by (unfold is_u8, is_u16 in *; lia).
  reflexivity.
Qed.
End AddRegisters.

(** C2 (amended): add-registers (8XY4) always leaves the carry of
    old VX + old VY in VF, computed from the operands before either register
    is written; VX receives (old VX + old VY) mod 256 for every selector X
    other than 0xF.  For X = 0xF the flag is written last and is what VF
    holds. *)
Theorem add_registers_carry rnd op c :
  wf c -> opH op = 0x8000 -> Z.land (opNNN op) 0xf = 4 ->
  exists c',
    execOpcode rnd op c = Ok c'
    /\ reg c' 0xf = (if reg c (opX op) + reg c (opY op) >? 255 then 1 else 0)
    /\ (opX op <> 0xf ->
        reg c' (opX op) = (reg c (opX op) + reg c (opY op)) mod 256).
Proof.
  intros Hwf Hh Hsub. pose proof (opX_range op) as HX.
  rewrite execOpcode_8XY4 by done.
  rewrite recordOp_Ok by apply Hwf.
  eexists; split; [reflexivity|].
  pose proof (wf_v_len c Hwf) as Hlen.
  unfold reg; cbn [v set_history set_v]. split.
  - change (Z.to_nat 15) with 15%nat.
    rewrite list_lookup_insert_eq by (rewrite length_insert; lia). done.
  - intros Hne.
    rewrite list_lookup_insert_ne by lia.
    rewrite list_lookup_insert_eq by lia. done.
Qed.

Lemma add_registers_carry_witness :
  wf sample_add /\ opH 0x8AB4 = 0x8000 /\ Z.land (opNNN 0x8AB4) 0xf = 4
  /\ exists c',
      execOpcode 0 0x8AB4 sample_add = Ok c'
      /\ reg c' 0xf = 1 /\ reg c' 0xa = 44.
Proof.
  assert (wf sample_add) as Hwf by wf_by_compute.
  split; [exact Hwf|]. split; [reflexivity|]. split; [reflexivity|].
  destruct (add_registers_carry 0 0x8AB4 sample_add Hwf eq_refl eq_refl)
    as (c' & Hexec & Hvf & Hvx).
  exists c'. split; [exact Hexec|]. split; [exact Hvf|].
  apply Hvx. vm_compute. discriminate.
Defined.

Lemma add_registers_vf_counterexample :
  wf sample_add_vf /\ opH 0x8F14 = 0x8000 /\ Z.land (opNNN 0x8F14) 0xf = 4
  /\ opX 0x8F14 = 0xf /\ opY 0x8F14 = 1
  /\ reg sample_add_vf 0xf = 3 /\ reg sample_add_vf 1 = 4
  /\ exists c',
      execOpcode 0 0x8F14 sample_add_vf = Ok c'
      /\ reg c' 0xf = 0
      /\ reg c' (opX 0x8F14)
         <> (reg sample_add_vf (opX 0x8F14) + reg sample_add_vf (opY 0x8F14))
            mod 256.
Proof.
  split; [wf_by_compute|]. do 6 (split; [reflexivity|]).
  eexists. split; [vm_compute; reflexivity|].
  split; [reflexivity|]. vm_compute. discriminate.
Qed.

Lemma land_1_bit z : (if Z.land z 0x01 =? 1 then 1 else 0) = Z.land z 1.
Proof.
  assert (Z.land z 1 = z mod 2) as -> by (apply (Z.land_ones z 1); lia).
  pose proof (Z.mod_pos_bound z 2). destruct (z mod 2 =? 1) eqn:E; lia.
Qed.

Section ShiftRight.
Variables (rnd op : Z) (c : Chip8).
Hypothesis Hwf : wf c.
Hypothesis Hfamily : opH op = 0x8000.
Hypothesis Hsub : Z.land (opNNN op) 0xf = 6.

(** 8XY6 writes the flag first and shifts what [VX] holds afterwards. *)
Lemma execOpcode_8XY6 :
  let c1 := set_v (<[15%nat := Z.land (reg c (opX op)) 1]> (v c)) c in
  execOpcode rnd op c
  = recordOp (u16 (pc c - 2)) op ("SHR  V" +:+ fmtX 0 (opX op))
      (set_v (<[Z.to_nat (opX op) := Z.shiftr (reg c1 (opX op)) 1]> (v c1))
             c1).
Proof using Hwf Hfamily Hsub.
  pose proof (opX_range op). pose proof (wf_v_len c Hwf) as Hlen.
  unfold execOpcode. cbv zeta. rewrite Hfamily, Hsub. dispatch.
  rewrite getV_Ok, bind_Ok by done.
  rewrite updateCarryFlag_Ok, bind_Ok by done.
  rewrite getV_Ok, bind_Ok by (simpl; by rewrite ?length_insert).
  rewrite setV_Ok, !bind_Ok by (simpl; by rewrite ?length_insert).
  cbn [fst snd]. by rewrite land_1_bit.
Qed.
End ShiftRight.

(** C3 (amended): for every register selector X other than 0xF, shift-right
    (8XY6) leaves the least-significant bit of the old VX in VF and the old
    VX shifted right by one in VX; the flag is taken from VX before the
    shift. *)
Theorem shift_right_flag rnd op c :
  wf c -> opH op = 0x8000 -> Z.land (opNNN op) 0xf = 6 -> opX op <> 0xf ->
  exists c',
    execOpcode rnd op c = Ok c'
    /\ reg c' 0xf = Z.land (reg c (opX op)) 1
    /\ reg c' (opX op) = Z.shiftr (reg c (opX op)) 1.
Proof.
  intros Hwf Hh Hsub Hne. pose proof (opX_range op) as HX.
  pose proof (wf_v_len c Hwf) as Hlen.
  rewrite execOpcode_8XY6 by done. cbv zeta.
  rewrite recordOp_Ok by apply Hwf.
  eexists; split; [reflexivity|].
  unfold reg; cbn [v set_history set_v].
  change (Z.to_nat 15) with 15%nat. split.
  - rewrite list_lookup_insert_ne by lia.
    rewrite list_lookup_insert_eq by lia. done.
  - rewrite list_lookup_insert_eq by (rewrite length_insert; lia).
    rewrite list_lookup_insert_ne by lia. done.
Qed.

Lemma shift_right_flag_witness :
  wf sample_shr /\ opH 0x8CD6 = 0x8000 /\ Z.land (opNNN 0x8CD6) 0xf = 6
  /\ opX 0x8CD6 <> 0xf
  /\ exists c',
      execOpcode 0 0x8CD6 sample_shr = Ok c'
      /\ reg c' 0xf = 1 /\ reg c' 0xc = 1.
Proof.
  assert (wf sample_shr) as Hwf by wf_by_compute.
  assert (opX 0x8CD6 <> 0xf) as Hne by (vm_compute; discriminate).
  split; [exact Hwf|]. split; [reflexivity|]. split; [reflexivity|].
  split; [exact Hne|].
  exact (shift_right_flag 0 0x8CD6 sample_shr Hwf eq_refl eq_refl Hne).
Defined.

Lemma shift_right_vf_counterexample :
  wf sample_shr_vf /\ opH 0x8F06 = 0x8000 /\ Z.land (opNNN 0x8F06) 0xf = 6
  /\ opX 0x8F06 = 0xf /\ reg sample_shr_vf 0xf = 3
  /\ exists c',
      execOpcode 0 0x8F06 sample_shr_vf = Ok c'
      /\ reg c' 0xf = 0
      /\ reg c' 0xf <> Z.land (reg sample_shr_vf (opX 0x8F06)) 1
      /\ reg c' (opX 0x8F06) <> Z.shiftr (reg sample_shr_vf (opX 0x8F06)) 1.
Proof.
  split; [wf_by_compute|]. do 4 (split; [reflexivity|]).
  eexists. split; [vm_compute; reflexivity|].
  split; [reflexivity|]. split; vm_compute; discriminate.
Qed.

Section AddImmediate.
Variables (rnd op : Z) (c : Chip8).
Hypothesis Hwf : wf c.
Hypothesis Hfamily : opH op = 0x7000.

Lemma execOpcode_7XNN :
  execOpcode rnd op c
  = recordOp (u16 (pc c - 2)) op
      ("ADD  V" +:+ fmtX 0 (opX op) +:+ ",#" +:+ fmtX 2 (opNN op))
      (set_v (<[Z.to_nat (opX op) := (reg c (opX op) + opNN op) mod 256]>
                (v c)) c).
Proof using Hwf Hfamily.
  pose proof (opX_range op). pose proof (wf_v_len c Hwf) as Hlen.
  unfold execOpcode. cbv zeta. rewrite Hfamily. dispatch.
  rewrite getV_Ok, bind_Ok by done.
  rewrite setV_Ok, !bind_Ok by done.
  reflexivity.
Qed.
End AddImmediate.

(** C4 (amended): add-immediate (7XNN) sets VX to (old VX + NN) mod 256 and
    leaves every other register as it was; it writes no carry, so VF is
    unaffected whenever X is not 0xF. *)
Theorem add_immediate_no_flag rnd op c :
  wf c -> opH op = 0x7000 ->
  exists c',
    execOpcode rnd op c = Ok c'
    /\ reg c' (opX op) = (reg c (opX op) + opNN op) mod 256
    /\ (forall k, 0 <= k -> k <> opX op -> reg c' k = reg c k)
    /\ (opX op <> 0xf -> reg c' 0xf = reg c 0xf).
Proof.
  intros Hwf Hh. pose proof (opX_range op) as HX.
  pose proof (wf_v_len c Hwf) as Hlen.
  rewrite execOpcode_7XNN by done.
  rewrite recordOp_Ok by apply Hwf.
  eexists; split; [reflexivity|].
  unfold reg; cbn [v set_history set_v].
  split; [|split].
  - rewrite list_lookup_insert_eq by lia. done.
  - intros k Hk Hne. rewrite list_lookup_insert_ne by lia. done.
  - intros Hne. rewrite list_lookup_insert_ne by lia. done.
Qed.

Lemma add_immediate_no_flag_witness :
  wf sample_addi /\ opH 0x78F0 = 0x7000
  /\ exists c',
      execOpcode 0 0x78F0 sample_addi = Ok c'
      /\ reg c' 8 = 0xff /\ reg c' 0xf = reg sample_addi 0xf.
Proof.
  assert (wf sample_addi) as Hwf by wf_by_compute.
  split; [exact Hwf|]. split; [reflexivity|].
  destruct (add_immediate_no_flag 0 0x78F0 sample_addi Hwf eq_refl)
    as (c' & Hexec & Hvx & _ & Hvf).
  exists c'. split; [exact Hexec|]. split; [exact Hvx|].
  apply Hvf. vm_compute. discriminate.
Defined.

Lemma add_immediate_vf_counterexample :
  wf sample_addi_vf /\ opH 0x7F01 = 0x7000 /\ opX 0x7F01 = 0xf
  /\ opNN 0x7F01 = 1 /\ reg sample_addi_vf 0xf = 0
  /\ exists c',
      execOpcode 0 0x7F01 sample_addi_vf = Ok c'
      /\ reg c' 0xf = 1 /\ reg c' 0xf <> reg sample_addi_vf 0xf.
Proof.
  split; [wf_by_compute|]. do 4 (split; [reflexivity|]).
  eexists. split; [vm_compute; reflexivity|].
  split; [reflexivity|]. vm_compute. discriminate.
Qed.

(** * Outcomes of [step] *)

Create HintDb nofatal.

Lemma nf_Ok {A} (a : A) : no_fatal (Ok a).
Proof. exact I. Qed.

Lemma nf_Panic {A} : no_fatal (@Panic A).
Proof. exact I. Qed.

Lemma nf_bind {A B} (m : result A) (f : A -> result B) :
  no_fatal m -> (forall a, no_fatal (f a)) -> no_fatal (m ≫= f).
Proof. destruct m; simpl; auto. Qed.

Lemma nf_index {A} (a : list A) k : no_fatal (index a k).
Proof. unfold index. repeat case_match; exact I. Qed.

Lemma nf_store {A} (a : list A) k e : no_fatal (store a k e).
Proof. unfold store. case_match; exact I. Qed.

Lemma nf_slice_from {A} (a : list A) k : no_fatal (slice_from a k).
Proof. unfold slice_from. case_match; exact I. Qed.

Lemma nf_slice_to {A} (a : list A) k : no_fatal (slice_to a k).
Proof. unfold slice_to. case_match; exact I. Qed.

#[local] Hint Resolve nf_Ok nf_Panic nf_index nf_store nf_slice_from
  nf_slice_to : nofatal.

Ltac nofatal :=
  repeat first
    [ solve [auto with nofatal]
    | progress intros
    | match goal with
      | |- no_fatal (if ?b then _ else _) => destruct b
      | |- no_fatal (let '(_, _) := ?p in _) => destruct p
      | |- no_fatal (_ ≫= _) => apply nf_bind
      end ].

Lemma nf_copy_at {A} (a : list A) k src : no_fatal (copy_at a k src).
Proof. unfold copy_at. nofatal. Qed.

Lemma nf_copy_upto {A} (a : list A) k src : no_fatal (copy_upto a k src).
Proof. unfold copy_upto. nofatal. Qed.

Lemma nf_for_each {S} ks (body : Z -> S -> result S) s :
  (forall k s', no_fatal (body k s')) -> no_fatal (for_each ks body s).
Proof.
  intros Hbody. revert s.
  induction ks as [|k ks IH]; intros s; simpl; [exact I|].
  apply nf_bind; auto.
Qed.

Lemma nf_drawPixel sm x y iy ix acc : no_fatal (drawPixel sm x y iy ix acc).
Proof. unfold drawPixel. nofatal. Qed.

Lemma nf_draw x y n c : no_fatal (draw x y n c).
Proof.
  unfold draw. nofatal.
  apply nf_for_each. intros. apply nf_for_each. intros. apply nf_drawPixel.
Qed.

Lemma nf_getV x c : no_fatal (getV x c).
Proof. unfold getV. nofatal. Qed.

Lemma nf_setV x e c : no_fatal (setV x e c).
Proof. unfold setV. nofatal. Qed.

Lemma nf_updateCarryFlag b c : no_fatal (updateCarryFlag b c).
Proof. unfold updateCarryFlag. nofatal. Qed.

Lemma nf_pushStack a c : no_fatal (pushStack a c).
Proof. unfold pushStack. nofatal. Qed.

Lemma nf_popStack c : no_fatal (popStack c).
Proof. unfold popStack. nofatal. Qed.

Lemma nf_recordOp pc0 op m c : no_fatal (recordOp pc0 op m c).
Proof. unfold recordOp. nofatal. Qed.

Lemma nf_fetchOpcode c : no_fatal (fetchOpcode c).
Proof. unfold fetchOpcode. nofatal. Qed.

#[local] Hint Resolve nf_copy_at nf_copy_upto nf_draw nf_getV nf_setV
  nf_updateCarryFlag nf_pushStack nf_popStack nf_recordOp nf_fetchOpcode
  : nofatal.

(** Outside family 0x0 nothing in [execOpcode] calls [log.Fatalf]. *)
Lemma execOpcode_no_fatal rnd op c :
  opH op <> 0x0000 -> no_fatal (execOpcode rnd op c).
Proof.
  intros Hh. unfold execOpcode. cbv zeta.
  destruct (opH op =? 0x0000) eqn:E0; [lia|].
  nofatal.
Qed.

Lemma execOpcode_cls_ret_no_fatal rnd op c :
  op = 0x00E0 \/ op = 0x00EE -> no_fatal (execOpcode rnd op c).
Proof.
  intros [-> | ->]; unfold execOpcode; cbv zeta;
    change (opH 0x00E0) with 0; change (opH 0x00EE) with 0; dispatch; nofatal.
Qed.

Lemma execOpcode_0NNN rnd op c :
  opH op = 0x0000 -> op <> 0x00E0 -> op <> 0x00EE ->
  execOpcode rnd op c
  = Fatal ("Not Implemented 0NNN " +:+ fmtX 4 op +:+ newline).
Proof.
  intros Hh HE0 HEE. unfold execOpcode. cbv zeta. rewrite Hh. dispatch.
  destruct (op =? 0x00E0) eqn:E1; [lia|].
  destruct (op =? 0x00EE) eqn:E2; [lia|]. reflexivity.
Qed.

Lemma execOpcode_unlisted rnd op c :
  unlisted op = true ->
  execOpcode rnd op c = recordOp (u16 (pc c - 2)) op "" c.
Proof.
  unfold unlisted, subops8, subopsE, subopsF. cbn [existsb].
  rewrite !orb_true_iff, !andb_true_iff, !negb_true_iff, !orb_false_iff.
  rewrite !Z.eqb_eq.
  intros H. unfold execOpcode. cbv zeta.
  destruct H as [[[Hh H] | [Hh H]] | [Hh H]]; destruct_and!;
    rewrite Hh; dispatch; reflexivity.
Qed.

Lemma fetchOpcode_inv c op c1 :
  fetchOpcode c = Ok (op, c1) -> c1 = set_pc (u16 (pc c + 2)) c.
Proof.
  unfold fetchOpcode. intros H.
  apply bind_inv in H as (hi & _ & H). apply bind_inv in H as (lo & _ & H).
  by injection H as _ <-.
Qed.

Lemma step_fetched rnd c op c1 :
  fetchOpcode c = Ok (op, c1) -> step rnd c = execOpcode rnd op c1.
Proof. intros H. unfold step. by rewrite H. Qed.

(** C1 (amended): when [step] fetches a family-0x0 opcode other than 0x00E0
    and 0x00EE it ends in the fatal unimplemented-instruction error, and it
    ends in that error for no other opcode.  An opcode of family 0x8, 0xE or
    0xF whose sub-operation bits match no listed operation is executed as an
    instruction without effect: the state after the fetch is kept and only
    the trace record is written.  Every other outcome of [step] is an
    executed instruction or a run-time panic. *)
Theorem step_unimplemented rnd c op c1 :
  wf c -> fetchOpcode c = Ok (op, c1) ->
  (opH op = 0x0000 -> op <> 0x00E0 -> op <> 0x00EE ->
   step rnd c = Fatal ("Not Implemented 0NNN " +:+ fmtX 4 op +:+ newline))
  /\ (unlisted op = true ->
      exists h k, step rnd c = Ok (set_history h k c1))
  /\ (forall msg, step rnd c = Fatal msg ->
      opH op = 0x0000 /\ op <> 0x00E0 /\ op <> 0x00EE).
Proof.
  intros Hwf Hfetch. rewrite (step_fetched rnd c op c1 Hfetch).
  assert (wf c1) as Hwf1.
  { rewrite (fetchOpcode_inv c op c1 Hfetch).
    apply wf_set_pc; [done|apply u16_range]. }
  split; [|split].
  - apply execOpcode_0NNN.
  - intros Hun. rewrite execOpcode_unlisted by done.
    rewrite recordOp_Ok by apply Hwf1. eauto.
  - intros msg Hmsg.
    destruct (decide (opH op = 0x0000)) as [Hh|Hh].
    + split; [done|].
      split; intros ->;
        [pose proof (execOpcode_cls_ret_no_fatal rnd 0x00E0 c1 (or_introl eq_refl)) as Hnf
        |pose proof (execOpcode_cls_ret_no_fatal rnd 0x00EE c1 (or_intror eq_refl)) as Hnf];
        by rewrite Hmsg in Hnf.
    + pose proof (execOpcode_no_fatal rnd op c1 Hh) as Hnf.
      by rewrite Hmsg in Hnf.
Qed.

Lemma step_unimplemented_witness :
  wf sample_sys
  /\ fetchOpcode sample_sys = Ok (0x0123, set_pc 0x202 sample_sys)
  /\ step 0 sample_sys = Fatal ("Not Implemented 0NNN 0123" +:+ newline).
Proof.
  assert (wf sample_sys) as Hwf by wf_by_compute.
  assert (fetchOpcode sample_sys = Ok (0x0123, set_pc 0x202 sample_sys))
    as Hfetch by (vm_compute; reflexivity).
  split; [exact Hwf|]. split; [exact Hfetch|].
  apply (step_unimplemented 0 sample_sys 0x0123 _ Hwf Hfetch);
    [reflexivity|lia|lia].
Defined.

Lemma step_unlisted_counterexample :
  unlisted 0x8008 = true
  /\ fetchOpcode sample_unlisted = Ok (0x8008, set_pc 0x202 sample_unlisted)
  /\ step 0 sample_unlisted
     = Ok (set_history (<[0%nat := "200-8008 "]> (replicate 16 EmptyString)) 1
             (set_pc 0x202 sample_unlisted))
  /\ steps 2 sample_skp_rom = Panic.
Proof.
  repeat split; vm_compute; reflexivity.
Qed.

(** * The keypad *)

Lemma firstPressed_none ks k0 :
  (forall j, ks !! j <> Some 1) -> firstPressed ks k0 = 0xff.
Proof.
  revert k0. induction ks as [|e ks IH]; intros k0 Hno; simpl; [done|].
  destruct (e =? 1) eqn:E.
  - apply Z.eqb_eq in E as ->. by destruct (Hno 0%nat).
  - apply IH. intros j. apply (Hno (S j)).
Qed.

Lemma firstPressed_lowest ks k0 j :
  ks !! j = Some 1 -> (forall j', (j' < j)%nat -> ks !! j' <> Some 1) ->
  firstPressed ks k0 = u8 (k0 + Z.of_nat j).
Proof.
  revert k0 j. induction ks as [|e ks IH]; intros k0 j Hj Hlow; [done|].
  simpl. destruct j as [|j].
  - injection Hj as ->. simpl. by rewrite Z.add_0_r.
  - destruct (e =? 1) eqn:E.
    + apply Z.eqb_eq in E as ->. destruct (Hlow 0%nat); [lia|done].
    + rewrite (IH (k0 + 1) j); [f_equal; lia|done|].
      intros j' Hj'. apply (Hlow (S j')). lia.
Qed.

Lemma u16_add_sub_2 p : is_u16 p -> u16 (u16 (p + 2) - 2) = p.
Proof.
  unfold u16, is_u16. intros Hp. rewrite Zminus_mod_idemp_l.
  replace (p + 2 - 2) with p by lia. by apply Z.mod_small.
Qed.

Section BlockForKey.
Variables (rnd op : Z) (c : Chip8).
Hypothesis Hwf : wf c.
Hypothesis Hfamily : opH op = 0xF000.
Hypothesis Hsub : opNN op = 0x0A.

Lemma execOpcode_FX0A_wait :
  (forall k, ~ pressed c k) ->
  execOpcode rnd op c
  = recordOp (u16 (pc c - 2)) op ("LD   V" +:+ fmtX 0 (opX op) +:+ ",K")
      (set_pc (u16 (pc c - 2)) c).
Proof using Hfamily Hsub.
  intros Hno. unfold execOpcode. cbv zeta. rewrite Hfamily, Hsub. dispatch.
  unfold pressedAnyKey. rewrite firstPressed_none.
  - reflexivity.
  - intros j Hj. apply (Hno (Z.of_nat j)). unfold pressed.
    by rewrite Nat2Z.id.
Qed.

Lemma execOpcode_FX0A_key k :
  0 <= k -> pressed c k -> (forall j, 0 <= j < k -> ~ pressed c j) ->
  execOpcode rnd op c
  = recordOp (u16 (pc c - 2)) op ("LD   V" +:+ fmtX 0 (opX op) +:+ ",K")
      (set_v (<[Z.to_nat (opX op) := k]> (v c)) c).
Proof using Hwf Hfamily Hsub.
  intros Hk Hdown Hlow. pose proof (opX_range op).
  pose proof (wf_v_len c Hwf) as Hlen.
  assert (k < 16) as Hk16.
  { apply lookup_lt_Some in Hdown. rewrite (wf_keys_len c Hwf) in Hdown. lia. }
  unfold execOpcode. cbv zeta. rewrite Hfamily, Hsub. dispatch.
  unfold pressedAnyKey.
  rewrite (firstPressed_lowest (keys c) 0 (Z.to_nat k)); [|done|].
  - rewrite Z.add_0_l, Z2Nat.id, u8_id by (unfold is_u8; lia).
    destruct (k =? 0xff) eqn:E; [lia|].
    rewrite setV_Ok, !bind_Ok by done. reflexivity.
  - intros j' Hj' Hp. apply (Hlow (Z.of_nat j')); [lia|].
    unfold pressed. by rewrite Nat2Z.id.
Qed.
End BlockForKey.

Lemma fetchOpcode_same c c' op :
  wf c -> mem c' = mem c -> pc c' = pc c ->
  fetchOpcode c = Ok (op, set_pc (u16 (pc c + 2)) c) ->
  fetchOpcode c' = Ok (op, set_pc (u16 (pc c + 2)) c').
Proof.
  intros Hwf Hmem Hpc. unfold fetchOpcode. rewrite Hmem, Hpc.
  destruct (index (mem c) (pc c)) as [hi| |]; [|done..].
  destruct (index (mem c) (u16 (pc c + 1))) as [lo| |]; [|done..].
  simpl. by intros [= ->].
Qed.

(** C6: block-for-key (FX0A).  With no keypad flag set, the program counter
    advanced by the fetch is decremented by 2, so it is back at the
    instruction, which the next [step] fetches again, and no register
    changes.  With at least one flag set, the lowest set key index is stored
    into VX and the program counter stays where the fetch left it. *)
Theorem block_for_key rnd c op c1 :
  wf c -> fetchOpcode c = Ok (op, c1) ->
  opH op = 0xF000 -> opNN op = 0x0A ->
  ((forall k, ~ pressed c k) ->
   exists c',
     step rnd c = Ok c'
     /\ pc c' = u16 (pc c1 - 2) /\ pc c' = pc c
     /\ v c' = v c /\ i c' = i c
     /\ fetchOpcode c' = Ok (op, set_pc (pc c1) c'))
  /\ (forall k,
      0 <= k -> pressed c k -> (forall j, 0 <= j < k -> ~ pressed c j) ->
      exists c',
        step rnd c = Ok c' /\ reg c' (opX op) = k /\ pc c' = pc c1).
Proof.
  intros Hwf Hfetch Hh Hnn. rewrite (step_fetched rnd c op c1 Hfetch).
  pose proof (fetchOpcode_inv c op c1 Hfetch) as Hc1.
  assert (wf c1) as Hwf1.
  { rewrite Hc1. apply wf_set_pc; [done|apply u16_range]. }
  pose proof (opX_range op) as HX.
  split.
  - intros Hno. rewrite execOpcode_FX0A_wait; [|done..|by subst c1].
    rewrite recordOp_Ok by apply Hwf1.
    eexists; split; [reflexivity|]. cbn [pc v i set_history set_pc].
    assert (u16 (pc c1 - 2) = pc c) as Hback.
    { subst c1. cbn [pc set_pc]. apply u16_add_sub_2, Hwf. }
    repeat split; [done|by subst c1..|].
    subst c1. cbn [pc set_pc] in *.
    apply (fetchOpcode_same c); [done|done|cbn [pc set_history set_pc]; done|done].
  - intros k Hk Hdown Hlow.
    rewrite (execOpcode_FX0A_key rnd op c1 Hwf1 Hh Hnn k); [|done|by subst c1..].
    rewrite recordOp_Ok by apply Hwf1.
    eexists; split; [reflexivity|]. split; [|done].
    unfold reg; cbn [v set_history set_v].
    rewrite list_lookup_insert_eq; [done|].
    rewrite (wf_v_len c1 Hwf1). lia.
Qed.

Lemma block_for_key_witness :
  wf sample_key
  /\ fetchOpcode sample_key = Ok (0xF20A, set_pc 0x202 sample_key)
  /\ opH 0xF20A = 0xF000 /\ opNN 0xF20A = 0x0A
  /\ exists c',
      step 0 sample_key = Ok c' /\ reg c' 2 = 3 /\ pc c' = 0x202.
Proof.
  assert (wf sample_key) as Hwf by wf_by_compute.
  assert (fetchOpcode sample_key = Ok (0xF20A, set_pc 0x202 sample_key))
    as Hfetch by (vm_compute; reflexivity).
  split; [exact Hwf|]. split; [exact Hfetch|].
  split; [reflexivity|]. split; [reflexivity|].
  destruct (block_for_key 0 sample_key 0xF20A _ Hwf Hfetch eq_refl eq_refl)
    as [_ Hkey].
  apply (Hkey 3); [lia|reflexivity|].
  intros j Hj. assert (j = 0 \/ j = 1 \/ j = 2) as [-> | [-> | ->]] by lia;
    vm_compute; discriminate.
Defined.

(** * Timers *)

Lemma decrementTimer_eq c :
  is_u8 (dt c) -> is_u8 (st c) ->
  decrementTimer c
  = set_st (if st c =? 0 then 0 else st c - 1)
      (set_dt (if dt c =? 0 then 0 else dt c - 1) c).
Proof.
  unfold is_u8, decrementTimer. intros Hdt Hst.
  destruct (dt c >? 0) eqn:Ed, (dt c =? 0) eqn:Ed'; try lia;
    cbn [st set_dt];
    destruct (st c >? 0) eqn:Es, (st c =? 0) eqn:Es'; try lia;
    rewrite ?u8_id by (unfold is_u8; lia);
    destruct c; unfold set_st, set_dt; cbn in *; f_equal; lia.
Qed.

Lemma decrementTimer_iter c n :
  is_u8 (dt c) -> is_u8 (st c) ->
  dt (Nat.iter n decrementTimer c) = Z.max 0 (dt c - Z.of_nat n)
  /\ st (Nat.iter n decrementTimer c) = Z.max 0 (st c - Z.of_nat n).
Proof.
  intros Hdt Hst. induction n as [|n [IHd IHs]]; [unfold is_u8 in *; simpl; lia|].
  rewrite Nat.iter_succ, decrementTimer_eq;
    [|rewrite ?IHd, ?IHs; unfold is_u8 in *; lia..].
  cbn [dt st set_st set_dt]. rewrite IHd, IHs.
  split; case_match; lia.
Qed.

(** C8: one tick takes exactly 1 off the delay timer if it was nonzero and
    leaves it at 0 otherwise, does the same for the sound timer on its own,
    and changes no other component of the state.  The engine never reloads
    a timer: after [n] ticks each timer holds max(0, old - n), so a timer
    that has reached 0 stays there, and no instruction writes the delay
    timer but FX15 and none the sound timer but FX18. *)
Theorem tick_decrements_timers c :
  wf c ->
  decrementTimer c
  = set_st (if st c =? 0 then 0 else st c - 1)
      (set_dt (if dt c =? 0 then 0 else dt c - 1) c)
  /\ (forall n,
        dt (Nat.iter n decrementTimer c) = Z.max 0 (dt c - Z.of_nat n)
        /\ st (Nat.iter n decrementTimer c) = Z.max 0 (st c - Z.of_nat n))
  /\ (forall rnd op c',
        execOpcode rnd op c = Ok c' ->
        (dt c' = dt c \/ (opH op = 0xF000 /\ opNN op = 0x15))
        /\ (st c' = st c \/ (opH op = 0xF000 /\ opNN op = 0x18))).
Proof.
  intros Hwf. pose proof (wf_dt c Hwf) as Hdt. pose proof (wf_st c Hwf) as Hst.
  split; [by apply decrementTimer_eq|]. split.
  - intros n. by apply decrementTimer_iter.
  - intros rnd op c' Hexec.
    pose proof (execOpcode_timers rnd op c Hwf) as Hframe.
    by rewrite Hexec in Hframe.
Qed.

Lemma tick_decrements_timers_witness :
  wf sample_timers
  /\ decrementTimer sample_timers = set_st 0 (set_dt 4 sample_timers)
  /\ dt (Nat.iter 7 decrementTimer sample_timers) = 0.
Proof.
  assert (wf sample_timers) as Hwf by wf_by_compute.
  split; [exact Hwf|].
  destruct (tick_decrements_timers sample_timers Hwf) as (Hone & Hmany & _).
  split; [exact Hone|]. exact (proj1 (Hmany 7%nat)).
Defined.

(** * Keypad indexing *)

Section KeySkip.
Variables (rnd op : Z) (c : Chip8).
Hypothesis Hwf : wf c.
Hypothesis Hfamily : opH op = 0xE000.
Hypothesis Hsub : opNN op = 0x9E \/ opNN op = 0xA1.

Lemma execOpcode_EX_oob :
  15 < reg c (opX op) -> execOpcode rnd op c = Panic.
Proof using Hwf Hfamily Hsub.
  intros Hbig. pose proof (opX_range op).
  pose proof (wf_v_len c Hwf) as Hlen.
  unfold execOpcode. cbv zeta. rewrite Hfamily.
  destruct Hsub as [-> | ->]; dispatch;
    rewrite getV_Ok, bind_Ok by done;
    rewrite index_Panic; [done| |done|];
    rewrite (wf_keys_len c Hwf); lia.
Qed.

Lemma execOpcode_EX_inb :
  reg c (opX op) <= 15 -> exists c', execOpcode rnd op c = Ok c'.
Proof using Hwf Hfamily Hsub.
  intros Hsmall. pose proof (opX_range op).
  pose proof (wf_v_len c Hwf) as Hlen.
  pose proof (reg_range c (opX op) Hwf) as Hr. unfold is_u8 in Hr.
  destruct (lookup_lt_is_Some_2 (keys c) (Z.to_nat (reg c (opX op))))
    as [e He]; [rewrite (wf_keys_len c Hwf); lia|].
  unfold execOpcode. cbv zeta. rewrite Hfamily.
  destruct Hsub as [-> | ->]; dispatch;
    rewrite getV_Ok, bind_Ok by done;
    rewrite (index_Ok _ _ e), !bind_Ok by (done || lia);
    cbn [fst snd]; rewrite recordOp_Ok by (by apply wf_skipIf);
    eauto.
Qed.
End KeySkip.

(** C10: skip-if-key-pressed (EX9E) and skip-if-key-not-pressed (EXA1) index
    the 16-entry keypad array with the whole 8-bit value of VX.  With VX
    above 15 the access is out of bounds and the instruction panics; with
    VX at most 15 it executes.  The host, for its part, only ever writes the
    keypad at indices 0..15, and that write never fails. *)
Theorem key_skip_index_bounds rnd op c :
  wf c -> opH op = 0xE000 -> opNN op = 0x9E \/ opNN op = 0xA1 ->
  (15 < reg c (opX op) -> execOpcode rnd op c = Panic)
  /\ (reg c (opX op) <= 15 -> exists c', execOpcode rnd op c = Ok c')
  /\ (forall s k, scanCode2Key s = Some k -> 0 <= k <= 15)
  /\ (forall s down, exists c', setKey s down c = Ok c').
Proof.
  intros Hwf Hh Hnn. split; [|split; [|split]].
  - by apply execOpcode_EX_oob.
  - by apply execOpcode_EX_inb.
  - intros s k Hk. destruct s; simplify_eq/=; lia.
  - intros s down. unfold setKey.
    destruct (scanCode2Key s) as [k|] eqn:Hk; [|eauto].
    assert (0 <= k <= 15) by (destruct s; simplify_eq/=; lia).
    rewrite store_Ok by (rewrite (wf_keys_len c Hwf); lia). eauto.
Qed.

Lemma key_skip_index_bounds_witness :
  wf sample_skp /\ opH 0xE09E = 0xE000
  /\ (opNN 0xE09E = 0x9E \/ opNN 0xE09E = 0xA1)
  /\ 15 < reg sample_skp (opX 0xE09E)
  /\ execOpcode 0 0xE09E sample_skp = Panic.
Proof.
  assert (wf sample_skp) as Hwf by wf_by_compute.
  assert (15 < reg sample_skp (opX 0xE09E)) as Hbig by (vm_compute; reflexivity).
  split; [exact Hwf|]. split; [reflexivity|].
  split; [left; reflexivity|]. split; [exact Hbig|].
  apply (key_skip_index_bounds 0 0xE09E sample_skp Hwf eq_refl
           (or_introl eq_refl)).
  exact Hbig.
Defined.

(** * Initial state *)

(** A [copy] whose source fits in the slice replaces exactly that window. *)
Lemma copy_at_fits {A} (a : list A) k src :
  0 <= k -> k + Z.of_nat (length src) <= Z.of_nat (length a) ->
  copy_at a k src
  = Ok (take (Z.to_nat k) a ++ src ++ drop (Z.to_nat k + length src) a).
Proof.
  intros Hk Hfit. unfold copy_at. rewrite slice_from_Ok, bind_Ok by lia.
  unfold copy. rewrite (take_ge src) by (rewrite length_drop; lia).
  by rewrite drop_drop.
Qed.

(** C7: for a program of at most 3584 bytes the initializer returns the
    state whose program counter is 0x200 and stack pointer 15, whose memory
    is zero up to 0x100, holds the 80 bytes of the character-sprite table at
    0x100..0x14F, zero up to 0x200, the program bytes from 0x200 on and zero
    after them, and in which every other component (registers, I, timers,
    stack, keypad, framebuffer, trace) is zero. *)
Theorem newChip8_initial_state (b : list Z) :
  (length b <= 3584)%nat ->
  length characterSprites = 80%nat
  /\ newChip8 b
     = Ok (mkChip8
             (replicate (Z.to_nat 0x100) 0 ++ characterSprites
              ++ replicate (Z.to_nat (0x200 - 0x150)) 0
              ++ b ++ replicate (3584 - length b) 0)
             0x200 (replicate 16 0) 0 0 0 15 (replicate 16 0)
             (replicate 16 0) (replicate 2048 0)
             (replicate 16 EmptyString) 0).
Proof.
  intros Hlen. split; [reflexivity|].
  unfold newChip8. cbv zeta.
  change (mem (set_sp 15 (set_pc ProgramOffset zeroChip8)))
    with (replicate 4096 0).
  rewrite copy_at_fits, bind_Ok
    by (rewrite ?length_replicate; unfold ProgramOffset; lia).
  change (Z.to_nat ProgramOffset) with 512%nat.
  rewrite take_replicate, drop_replicate.
  replace (512 `min` 4096)%nat with 512%nat by lia.
  replace (4096 - (512 + length b))%nat with (3584 - length b)%nat by lia.
  rewrite copy_at_fits, bind_Ok
    by (rewrite ?length_app, ?length_replicate; unfold CharacterSpritesOffset;
        change (length characterSprites) with 80%nat; lia).
  change (Z.to_nat CharacterSpritesOffset) with 256%nat.
  change (length characterSprites) with 80%nat.
  rewrite take_app_le, drop_app_le by (rewrite length_replicate; lia).
  rewrite take_replicate, drop_replicate.
  replace (256 `min` 512)%nat with 256%nat by lia.
  change (Z.to_nat 0x100) with 256%nat.
  change (Z.to_nat (0x200 - 0x150)) with (512 - (256 + 80))%nat.
  reflexivity.
Qed.

Lemma newChip8_initial_state_witness :
  (length sample_rom <= 3584)%nat
  /\ newChip8 sample_rom
     = Ok (mkChip8
             (replicate 256 0 ++ characterSprites ++ replicate 176 0
              ++ sample_rom ++ replicate 3578 0)
             0x200 (replicate 16 0) 0 0 0 15 (replicate 16 0)
             (replicate 16 0) (replicate 2048 0)
             (replicate 16 EmptyString) 0).
Proof.
  assert (length sample_rom <= 3584)%nat as Hlen by (simpl; lia).
  split; [exact Hlen|].
  apply (newChip8_initial_state sample_rom Hlen).
Defined.

(** * Register dump and load *)

(** Two windows of memory that agree byte by byte are the same slice. *)
Lemma window_eq (m : list Z) (a b n : nat) :
  (a + n <= length m)%nat -> (b + n <= length m)%nat ->
  (forall k, (k < n)%nat ->
             default 0 (m !! (a + k)%nat) = default 0 (m !! (b + k)%nat)) ->
  take n (drop a m) = take n (drop b m).
Proof.
  intros Ha Hb Heq. apply list_eq. intros j.
  destruct (decide (j < n)%nat) as [Hj|Hj].
  - rewrite !lookup_take_lt, !lookup_drop by done.
    specialize (Heq j Hj).
    destruct (lookup_lt_is_Some_2 m (a + j)) as [ea Hea]; [lia|].
    destruct (lookup_lt_is_Some_2 m (b + j)) as [eb Heb]; [lia|].
    rewrite Hea, Heb in *. simpl in Heq. by subst.
  - by rewrite !lookup_take_ge by lia.
Qed.

Section DumpLoad.
Variables (rnd op : Z) (c : Chip8).
Hypothesis Hwf : wf c.
Hypothesis Hfamily : opH op = 0xF000.
Hypothesis Hfits : i c + opX op <= 4095.

Lemma u8_succ_X : Z.to_nat (u8 (opX op + 1)) = S (Z.to_nat (opX op)).
Proof.
  pose proof (opX_range op). rewrite u8_id by (unfold is_u8; lia). lia.
Qed.

(** FX55 overwrites the window [I .. I+X] of memory with [V0 .. VX]. *)
Lemma execOpcode_FX55 :
  opNN op = 0x55 ->
  execOpcode rnd op c
  = recordOp (u16 (pc c - 2)) op ("LD   [I],V" +:+ fmtX 0 (opX op))
      (set_mem (take (Z.to_nat (i c)) (mem c)
                ++ take (S (Z.to_nat (opX op))) (v c)
                ++ drop (Z.to_nat (i c) + S (Z.to_nat (opX op))) (mem c)) c).
Proof using Hwf Hfamily Hfits.
  intros Hsub. pose proof (opX_range op) as HX.
  pose proof (wf_v_len c Hwf) as Hlen. pose proof (wf_mem_len c Hwf) as Hmem.
  pose proof (wf_i c Hwf) as Hi. unfold is_u16 in Hi.
  unfold execOpcode. cbv zeta. rewrite Hfamily, Hsub. dispatch.
  rewrite slice_to_Ok, bind_Ok
    by (rewrite u8_id by (unfold is_u8; lia); lia).
  rewrite u8_succ_X.
  rewrite copy_at_fits, !bind_Ok by (rewrite ?length_take; lia).
  cbn [fst snd]. rewrite length_take.
  replace (S (Z.to_nat (opX op)) `min` length (v c))%nat
    with (S (Z.to_nat (opX op))) by lia.
  reflexivity.
Qed.

(** FX65 overwrites [V0 .. VX] with the window [I .. I+X] of memory. *)
Lemma execOpcode_FX65 :
  opNN op = 0x65 ->
  execOpcode rnd op c
  = recordOp (u16 (pc c - 2)) op ("LD   V" +:+ fmtX 0 (opX op) +:+ ",[I]")
      (set_v (take (S (Z.to_nat (opX op))) (drop (Z.to_nat (i c)) (mem c))
              ++ drop (S (Z.to_nat (opX op))) (v c)) c).
Proof using Hwf Hfamily Hfits.
  intros Hsub. pose proof (opX_range op) as HX.
  pose proof (wf_v_len c Hwf) as Hlen. pose proof (wf_mem_len c Hwf) as Hmem.
  pose proof (wf_i c Hwf) as Hi. unfold is_u16 in Hi.
  unfold execOpcode. cbv zeta. rewrite Hfamily, Hsub. dispatch.
  rewrite slice_from_Ok, bind_Ok by lia.
  unfold copy_upto.
  rewrite slice_to_Ok, !bind_Ok
    by (rewrite u8_id by (unfold is_u8; lia); lia).
  rewrite u8_succ_X. cbn [fst snd]. unfold copy.
  rewrite length_take, length_drop.
  replace (S (Z.to_nat (opX op)) `min` length (v c))%nat
    with (S (Z.to_nat (opX op))) by lia.
  rewrite (drop_ge (take (S (Z.to_nat (opX op))) (v c)))
    by (rewrite length_take; lia).
  by rewrite app_nil_r.
Qed.
End DumpLoad.

(** What a register load reads back, when the window it reads holds the
    first [n] registers of [r]. *)
Lemma load_restores (r m : list Z) (a n : nat) :
  take n (drop a m) = take n r -> take n (drop a m) ++ drop n r = r.
Proof. intros ->. apply take_drop. Qed.

(** C9: with I + X <= 4095, register-dump (FX55) writes V0..VX to memory at
    I and changes neither the registers nor I; register-load (FX65) run
    after it, at the same I or at any other in-bounds I' whose X+1 bytes
    equal those at I, leaves every register as it was before the dump. *)
Theorem dump_load_roundtrip rnd rnd' opd opl c :
  wf c ->
  opH opd = 0xF000 -> opNN opd = 0x55 ->
  opH opl = 0xF000 -> opNN opl = 0x65 -> opX opl = opX opd ->
  i c + opX opd <= 4095 ->
  exists c1,
    execOpcode rnd opd c = Ok c1
    /\ v c1 = v c /\ i c1 = i c
    /\ (forall k, 0 <= k <= opX opd -> byte c1 (i c + k) = reg c k)
    /\ (exists c2, execOpcode rnd' opl c1 = Ok c2 /\ v c2 = v c)
    /\ (forall I',
        0 <= I' -> I' + opX opd <= 4095 ->
        (forall k, 0 <= k <= opX opd ->
                   byte c1 (I' + k) = byte c1 (i c + k)) ->
        exists c2, execOpcode rnd' opl (set_i I' c1) = Ok c2 /\ v c2 = v c).
Proof.
  intros Hwf Hhd Hnd Hhl Hnl HX Hfits.
  pose proof (opX_range opd) as HXr.
  pose proof (wf_v_len c Hwf) as Hlen. pose proof (wf_mem_len c Hwf) as Hmem.
  pose proof (wf_i c Hwf) as Hi. unfold is_u16 in Hi.
  set (n := S (Z.to_nat (opX opd))).
  set (m1 := take (Z.to_nat (i c)) (mem c) ++ take n (v c)
             ++ drop (Z.to_nat (i c) + n) (mem c)).
  assert (length m1 = 4096%nat) as Hm1len.
  { unfold m1. rewrite !length_app, !length_take, length_drop. lia. }
  assert (take n (drop (Z.to_nat (i c)) m1) = take n (v c)) as Hwin.
  { unfold m1. rewrite drop_app_length' by (rewrite length_take; lia).
    rewrite take_app_length' by (rewrite length_take; lia). done. }
  rewrite execOpcode_FX55 by done. fold n m1.
  rewrite recordOp_Ok by apply Hwf.
  eexists; split; [reflexivity|].
  match goal with |- context [set_history ?h ?k (set_mem m1 c)] =>
    set (c1 := set_history h k (set_mem m1 c)) end.
  assert (wf c1) as Hwf1.
  { apply (wf_recorded (set_mem m1 c)). apply wf_set_mem; [done..|].
    unfold m1. repeat apply Forall_app_2;
      auto using Forall_take, Forall_drop, wf_mem, wf_v. }
  split; [done|]. split; [done|]. split; [|split].
  - intros k Hk. unfold byte, reg. change (mem c1) with m1.
    assert (take n (drop (Z.to_nat (i c)) m1) !! Z.to_nat k
            = take n (v c) !! Z.to_nat k) as Hk' by (by rewrite Hwin).
    rewrite !lookup_take_lt, lookup_drop in Hk' by (unfold n; lia).
    rewrite <- Hk'. do 2 f_equal. lia.
  - rewrite execOpcode_FX65; [|done|done|by rewrite HX|done].
    rewrite recordOp_Ok by apply Hwf1.
    eexists; split; [reflexivity|]. cbn [v set_history set_v].
    rewrite HX. change (i c1) with (i c). change (mem c1) with m1.
    change (v c1) with (v c). by apply load_restores.
  - intros I' HI' HfitsI Hsame.
    assert (wf (set_i I' c1)) as Hwf2
      by (apply wf_set_i; [done|unfold is_u16; lia]).
    rewrite execOpcode_FX65; [|done|done|cbn [i set_i]; by rewrite HX|done].
    rewrite recordOp_Ok by apply Hwf2.
    eexists; split; [reflexivity|]. cbn [v set_history set_v].
    rewrite HX. change (i (set_i I' c1)) with I'.
    change (mem (set_i I' c1)) with m1. change (v (set_i I' c1)) with (v c).
    apply load_restores. fold n. rewrite <- Hwin.
    apply window_eq; [lia..|].
    intros k Hk. specialize (Hsame (Z.of_nat k)).
    unfold byte in Hsame. change (mem c1) with m1 in Hsame.
    rewrite !Z2Nat.inj_add, !Nat2Z.id in Hsame by lia.
    apply Hsame. unfold n in Hk. lia.
Qed.

Lemma dump_load_roundtrip_witness :
  wf sample_dump
  /\ opH 0xF755 = 0xF000 /\ opNN 0xF755 = 0x55
  /\ opH 0xF765 = 0xF000 /\ opNN 0xF765 = 0x65 /\ opX 0xF765 = opX 0xF755
  /\ i sample_dump + opX 0xF755 <= 4095
  /\ exists c1 c2,
      execOpcode 0 0xF755 sample_dump = Ok c1
      /\ execOpcode 0 0xF765 c1 = Ok c2
      /\ v c2 = v sample_dump.
Proof.
  assert (wf sample_dump) as Hwf by wf_by_compute.
  assert (i sample_dump + opX 0xF755 <= 4095) as Hfits
    by (vm_compute; discriminate).
  split; [exact Hwf|]. do 5 (split; [reflexivity|]). split; [exact Hfits|].
  destruct (dump_load_roundtrip 0 0 0xF755 0xF765 sample_dump Hwf
              eq_refl eq_refl eq_refl eq_refl eq_refl Hfits)
    as (c1 & Hdump & _ & _ & _ & (c2 & Hload & Hregs) & _).
  exists c1, c2. split; [exact Hdump|]. split; [exact Hload|exact Hregs].
Defined.

(** * The draw routine *)

Lemma geb_false a b : (a >=? b) = false -> a < b.
Proof. rewrite Z.geb_leb. apply Z.leb_gt. Qed.

Lemma drawPixel_step sm d0 x y k m acc :
  0 <= x -> 0 <= y -> 0 <= k -> 0 <= m < 8 -> is_Some (sm !! Z.to_nat k) ->
  draw_inv sm d0 x y k m acc ->
  exists acc',
    drawPixel sm x y k m acc = Ok acc' /\ draw_inv sm d0 x y k (m + 1) acc'.
Proof.
  intros Hx Hy Hk Hm [row Hrow] (Hlen & Hcells & Hflag).
  unfold drawPixel. cbv zeta. unfold Chip8DisplayW, Chip8DisplayH.
  destruct ((x + m >=? 64) || (y + k >=? 32)) eqn:Eoff.
  - exists acc. split; [done|].
    apply orb_true_iff in Eoff. rewrite !Z.geb_le in Eoff.
    split; [done|]. split.
    + intros cx cy Hcx Hcy. destruct (Hcells cx cy Hcx Hcy) as [H1 H2].
      split; intros Hd; [apply H1|apply H2]; unfold drawn in *; lia.
    + rewrite Hflag.
      split; intros (cx & cy & Hcx & Hcy & Hd & Hone); exists cx, cy;
        (split; [done|]); (split; [done|]); (split; [|done]);
        unfold drawn in *; lia.
  - apply orb_false_iff in Eoff as [E1%geb_false E2%geb_false].
    set (idx := (y + k) * 64 + (x + m)).
    assert (0 <= idx < 2048) as Hidx by (unfold idx; lia).
    destruct (lookup_lt_is_Some_2 (fst acc) (Z.to_nat idx)) as [s Hs]; [lia|].
    rewrite !(index_Ok (fst acc) idx s), !bind_Ok by (done || lia).
    rewrite (index_Ok sm k row), !bind_Ok by done.
    rewrite store_Ok, bind_Ok by lia.
    eexists; split; [reflexivity|].
    rewrite u8_id by (unfold is_u8; lia).
    assert (s = cellAt d0 (x + m) (y + k)) as Hs0.
    { destruct (Hcells (x + m) (y + k)) as [_ H2]; [lia..|].
      rewrite <- H2 by (unfold drawn; lia).
      unfold cellAt, Chip8DisplayW. fold idx. by rewrite Hs. }
    assert (rowBit sm k m = Z.land (Z.shiftr row (7 - m)) 1) as Hbit.
    { unfold rowBit. by rewrite Hrow. }
    rewrite <- Hbit.
    assert (forall cx cy, 0 <= cx < 64 -> 0 <= cy < 32 ->
              (cx = x + m /\ cy = y + k) \/
              Z.to_nat idx <> Z.to_nat (cy * 64 + cx)) as Hsplit.
    { intros cx cy Hcx Hcy. unfold idx. lia. }
    split; [|split]; cbn [fst snd].
    + by rewrite length_insert.
    + intros cx cy Hcx Hcy. destruct (Hcells cx cy Hcx Hcy) as [H1 H2].
      destruct (Hsplit cx cy Hcx Hcy) as [[-> ->] | Hne].
      * split; [|unfold drawn; lia]. intros _.
        unfold cellAt at 1. unfold Chip8DisplayW. fold idx.
        rewrite list_lookup_insert_eq by lia. simpl.
        rewrite Hs0. do 2 f_equal; lia.
      * unfold cellAt at 1 3. unfold Chip8DisplayW.
        rewrite list_lookup_insert_ne by done.
        fold Chip8DisplayW. fold (cellAt (fst acc) cx cy).
        assert (~ (cx = x + m /\ cy = y + k)) as Hother by (unfold idx in Hne; lia).
        split; intros Hd; [apply H1|apply H2]; unfold drawn in *; lia.
    + split.
      * destruct ((s =? 1) && (rowBit sm k m =? 1)) eqn:Ehit.
        -- intros _. apply andb_true_iff in Ehit as [Es%Z.eqb_eq Eb%Z.eqb_eq].
           exists (x + m), (y + k). unfold drawn.
           replace (y + k - y) with k by lia. replace (x + m - x) with m by lia.
           rewrite <- Hs0. repeat split; try done; lia.
        -- intros Hold. apply Hflag in Hold as (cx & cy & Hcx & Hcy & Hd & Hone).
           exists cx, cy. repeat split; try apply Hone; try lia;
             unfold drawn in *; lia.
      * intros (cx & cy & Hcx & Hcy & Hd & Hone0 & Hone1).
        destruct (decide (cx = x + m /\ cy = y + k)) as [[-> ->] | Hother].
        -- replace (y + k - y) with k in Hone1 by lia.
           replace (x + m - x) with m in Hone1 by lia.
           by rewrite Hs0, Hone0, Hone1.
        -- case_match; [done|]. apply Hflag. exists cx, cy.
           repeat split; try done; try lia; unfold drawn in *; lia.
Qed.

Lemma for_each_app {S} ks1 ks2 (body : Z -> S -> result S) s :
  for_each (ks1 ++ ks2) body s
  = for_each ks1 body s ≫= for_each ks2 body.
Proof.
  revert s. induction ks1 as [|k ks1 IH]; intros s; simpl; [done|].
  destruct (body k s) as [s'| |]; simpl; [apply IH|done..].
Qed.

Lemma for_each_one {S} k (body : Z -> S -> result S) s :
  for_each [k] body s = body k s.
Proof. simpl. by destruct (body k s). Qed.

Lemma draw_inv_ext sm d0 x y k m k' m' acc :
  (forall cx cy, drawn x y k m cx cy <-> drawn x y k' m' cx cy) ->
  draw_inv sm d0 x y k m acc -> draw_inv sm d0 x y k' m' acc.
Proof.
  intros Hext (Hlen & Hcells & Hflag). split; [done|]. split.
  - intros cx cy Hcx Hcy. rewrite <- Hext. by apply Hcells.
  - rewrite Hflag. by setoid_rewrite Hext.
Qed.

Lemma drawRow_inv sm d0 x y k acc (m : nat) :
  0 <= x -> 0 <= y -> 0 <= k -> (m <= 8)%nat -> is_Some (sm !! Z.to_nat k) ->
  draw_inv sm d0 x y k 0 acc ->
  exists acc',
    for_each (seqZ 0 (Z.of_nat m)) (drawPixel sm x y k) acc = Ok acc'
    /\ draw_inv sm d0 x y k (Z.of_nat m) acc'.
Proof.
  intros Hx Hy Hk Hm Hrow Hinv. induction m as [|m IH].
  - exists acc. done.
  - destruct IH as (acc1 & Hrun & Hinv1); [lia|].
    destruct (drawPixel_step sm d0 x y k (Z.of_nat m) acc1)
      as (acc2 & Hpx & Hinv2); [lia..|done|done|].
    exists acc2. split.
    + by rewrite seqZ_S, for_each_app, Hrun, bind_Ok, for_each_one, Z.add_0_l.
    + by rewrite Nat2Z.inj_succ.
Qed.

Lemma draw_loop_inv sm d0 x y (n : nat) :
  0 <= x -> 0 <= y -> (n <= length sm)%nat -> length d0 = 2048%nat ->
  exists acc',
    for_each (seqZ 0 (Z.of_nat n))
      (fun iy => for_each (seqZ 0 8) (fun ix => drawPixel sm x y iy ix))
      (d0, false) = Ok acc'
    /\ draw_inv sm d0 x y (Z.of_nat n) 0 acc'.
Proof.
  intros Hx Hy Hn Hlen. induction n as [|n IH].
  - exists (d0, false). split; [done|]. split; [done|]. split.
    + intros cx cy _ _. split; [|done]. unfold drawn. lia.
    + split; [done|]. intros (cx & cy & _ & _ & Hd & _). unfold drawn in Hd. lia.
  - destruct IH as (acc1 & Hrun & Hinv1); [lia|].
    destruct (drawRow_inv sm d0 x y (Z.of_nat n) acc1 8)
      as (acc2 & Hrow & Hinv2); [lia..|apply lookup_lt_is_Some_2; lia|done|].
    exists acc2. split.
    + rewrite seqZ_S, for_each_app, Hrun, bind_Ok, for_each_one, Z.add_0_l.
      exact Hrow.
    + apply (draw_inv_ext sm d0 x y (Z.of_nat n) (Z.of_nat 8)); [|done].
      intros cx cy. unfold drawn. lia.
Qed.

Lemma draw_Ok x y n c :
  wf c -> 0 <= x -> 0 <= y -> 0 <= n -> i c + n <= 4096 ->
  exists acc',
    draw x y n c = Ok (snd acc', set_disp (fst acc') c)
    /\ draw_inv (drop (Z.to_nat (i c)) (mem c)) (disp c) x y n 0 acc'.
Proof.
  intros Hwf Hx Hy Hn Hfits.
  pose proof (wf_mem_len c Hwf) as Hmem. pose proof (wf_i c Hwf) as Hi.
  unfold is_u16 in Hi. unfold draw.
  rewrite slice_from_Ok, bind_Ok by lia.
  destruct (draw_loop_inv (drop (Z.to_nat (i c)) (mem c)) (disp c) x y
              (Z.to_nat n)) as (acc' & Hrun & Hinv);
    [done|done|rewrite length_drop; lia|apply Hwf|].
  rewrite Z2Nat.id in Hrun, Hinv by done.
  exists acc'. by rewrite Hrun, bind_Ok.
Qed.

Lemma rowBit_spriteBit c r col :
  0 <= i c -> 0 <= r ->
  rowBit (drop (Z.to_nat (i c)) (mem c)) r col = spriteBit c r col.
Proof.
  intros Hi Hr. unfold rowBit, spriteBit, byte. rewrite lookup_drop.
  by rewrite Z2Nat.inj_add.
Qed.

Lemma lxor_one_zero b : Z.lxor 1 b = 0 <-> b = 1.
Proof.
  split; [|by intros ->].
  intros H. apply Z.lxor_eq in H. done.
Qed.

Section Draw.
Variables (rnd op : Z) (c : Chip8).
Hypothesis Hwf : wf c.
Hypothesis Hfamily : opH op = 0xD000.
Hypothesis Hfits : i c + opN op <= 4096.

Lemma execOpcode_DXYN :
exists acc',
  draw_inv (drop (Z.to_nat (i c)) (mem c)) (disp c)
    (reg c (opX op)) (reg c (opY op)) (opN op) 0 acc'
  /\ execOpcode rnd op c
     = recordOp (u16 (pc c - 2)) op
         ("DRW  V" +:+ fmtX 0 (opX op) +:+ ",V" +:+ fmtX 0 (opY op)
          +:+ "," +:+ fmtD (opN op))
         (set_v (<[15%nat := if snd acc' then 1 else 0]> (v c))
                (set_disp (fst acc') c)).
Proof using Hwf Hfamily Hfits.
pose proof (opX_range op). pose proof (opY_range op).
pose proof (opN_range op).
pose proof (reg_range c (opX op) Hwf) as Hx.
pose proof (reg_range c (opY op) Hwf) as Hy.
pose proof (wf_v_len c Hwf) as Hlen.
unfold is_u8 in Hx, Hy.
destruct (draw_Ok (reg c (opX op)) (reg c (opY op)) (opN op) c)
  as (acc' & Hdraw & Hinv); [done|lia..|].
exists acc'. split; [done|].
unfold execOpcode. cbv zeta. rewrite Hfamily. dispatch.
rewrite !getV_Ok, !bind_Ok by done.
rewrite Hdraw, bind_Ok.
rewrite updateCarryFlag_Ok, !bind_Ok by done.
reflexivity.
Qed.
End Draw.

(** C5: when the N sprite rows at I lie within memory, draw (DXYN) executes
    and XORs bit [cx - VX] of sprite row [cy - VY] into every framebuffer
    cell [(cx, cy)] of the 64x32 grid that lies in the 8-by-N rectangle at
    (VX, VY); every other cell of the grid keeps its value, so sprite pixels
    that fall off the grid are dropped and nothing wraps around, and the
    framebuffer keeps its 2048 cells.  VF is 1 if one of the written cells
    went from 1 to 0, and 0 otherwise. *)
Theorem draw_sprite rnd op c :
  wf c -> opH op = 0xD000 -> i c + opN op <= 4096 ->
  let x := reg c (opX op) in
  let y := reg c (opY op) in
  let n := opN op in
  exists c',
    execOpcode rnd op c = Ok c'
    /\ length (disp c') = 2048%nat
    /\ (forall cx cy, 0 <= cx < 64 -> 0 <= cy < 32 ->
          (in_sprite x y n cx cy ->
           pixel c' cx cy
           = Z.lxor (pixel c cx cy) (spriteBit c (cy - y) (cx - x)))
          /\ (~ in_sprite x y n cx cy -> pixel c' cx cy = pixel c cx cy))
    /\ ((exists cx cy, 0 <= cx < 64 /\ 0 <= cy < 32 /\ in_sprite x y n cx cy
                       /\ pixel c cx cy = 1 /\ pixel c' cx cy = 0) ->
        reg c' 0xf = 1)
    /\ (~ (exists cx cy, 0 <= cx < 64 /\ 0 <= cy < 32 /\ in_sprite x y n cx cy
                         /\ pixel c cx cy = 1 /\ pixel c' cx cy = 0) ->
        reg c' 0xf = 0).
Proof.
  intros Hwf Hh Hfits x y n.
  pose proof (wf_i c Hwf) as Hi. unfold is_u16 in Hi.
  pose proof (wf_v_len c Hwf) as Hlen.
  destruct (execOpcode_DXYN rnd op c Hwf Hh Hfits)
    as (acc' & (Hdlen & Hcells & Hflag) & ->).
  fold x y n in Hcells, Hflag.
  rewrite recordOp_Ok by apply Hwf.
  eexists; split; [reflexivity|].
  assert (forall cx cy, drawn x y n 0 cx cy <-> in_sprite x y n cx cy) as Hin
    by (intros cx cy; unfold drawn, in_sprite; lia).
  assert (forall cx cy, 0 <= cx < 64 -> 0 <= cy < 32 ->
            (in_sprite x y n cx cy ->
             cellAt (fst acc') cx cy
             = Z.lxor (pixel c cx cy) (spriteBit c (cy - y) (cx - x)))
            /\ (~ in_sprite x y n cx cy ->
                cellAt (fst acc') cx cy = pixel c cx cy)) as Hpix.
  { intros cx cy Hcx Hcy. destruct (Hcells cx cy Hcx Hcy) as [H1 H2]. split.
    - intros Hs. rewrite H1 by (by apply Hin).
      by rewrite rowBit_spriteBit by (unfold in_sprite in Hs; lia).
    - intros Hs. apply H2. by rewrite Hin. }
  assert (snd acc' = true <->
          exists cx cy, 0 <= cx < 64 /\ 0 <= cy < 32 /\ in_sprite x y n cx cy
                        /\ pixel c cx cy = 1 /\ cellAt (fst acc') cx cy = 0)
    as Hcollide.
  { rewrite Hflag. split; intros (cx & cy & Hcx & Hcy & Hd & Hone & Hbit);
      exists cx, cy; (split; [done|]); (split; [done|]).
    - apply Hin in Hd. split; [done|]. split; [done|].
      destruct (Hpix cx cy Hcx Hcy) as [Hx _]. rewrite Hx by done.
      change (pixel c cx cy) with (cellAt (disp c) cx cy). rewrite Hone.
      apply lxor_one_zero.
      by rewrite <- rowBit_spriteBit by (unfold in_sprite in Hd; lia).
    - split; [by apply Hin|]. split; [done|].
      destruct (Hpix cx cy Hcx Hcy) as [Hx _]. rewrite Hx, Hone in Hbit by done.
      apply lxor_one_zero in Hbit.
      by rewrite rowBit_spriteBit by (unfold in_sprite in Hd; lia). }
  cbn [disp set_history set_v set_disp].
  unfold pixel at 1 3. cbn [disp set_history set_v set_disp].
  split; [done|]. split; [exact Hpix|].
  split.
  - intros Hex. unfold pixel in Hex at 2.
    cbn [disp set_history set_v set_disp] in Hex.
    apply Hcollide in Hex. unfold reg. cbn [v set_history set_v].
    change (Z.to_nat 15) with 15%nat.
    rewrite list_lookup_insert_eq by lia. by rewrite Hex.
  - intros Hnex. unfold pixel in Hnex at 2.
    cbn [disp set_history set_v set_disp] in Hnex.
    unfold reg. cbn [v set_history set_v].
    change (Z.to_nat 15) with 15%nat.
    rewrite list_lookup_insert_eq by lia.
    destruct (snd acc'); [|done]. destruct Hnex. by apply Hcollide.
Qed.

Lemma draw_sprite_witness :
  wf sample_draw /\ opH 0xD125 = 0xD000 /\ i sample_draw + opN 0xD125 <= 4096
  /\ exists c',
      execOpcode 0 0xD125 sample_draw = Ok c'
      /\ length (disp c') = 2048%nat
      /\ pixel c' 60 30 = 1 /\ pixel c' 0 30 = 0 /\ pixel c' 0 31 = 0.
Proof.
  assert (wf sample_draw) as Hwf by wf_by_compute.
  assert (i sample_draw + opN 0xD125 <= 4096) as Hfits
    by (vm_compute; discriminate).
  split; [exact Hwf|]. split; [reflexivity|]. split; [exact Hfits|].
  destruct (draw_sprite 0 0xD125 sample_draw Hwf eq_refl Hfits)
    as (c' & Hexec & Hlen & Hpix & _).
  exists c'. split; [exact Hexec|]. split; [exact Hlen|].
  split; [|split].
  - destruct (Hpix 60 30) as [Hin _]; [lia..|].
    rewrite Hin; [reflexivity|]. vm_compute. intuition discriminate.
  - destruct (Hpix 0 30) as [_ Hout]; [lia..|].
    rewrite Hout; [reflexivity|]. vm_compute. intuition discriminate.
  - destruct (Hpix 0 31) as [_ Hout]; [lia..|].
    rewrite Hout; [reflexivity|]. vm_compute. intuition discriminate.
Defined.

(** * The table of [opcodes_test.go]

    The cases of the repository's test table that exercise the instructions
    studied above, run on the embedding: the assertions of each case hold. *)

Ltac run_test := eexists; split; [vm_compute; reflexivity|]; vm_compute; auto.

(* ret *)
Example test_00EE :
  exists c', runTest 0x00EE (fun c => set_sp 0xe (set_stack (<[15%nat := 0x300]> (stack c)) c)) = Ok c'
             /\ sp c' = 0xf /\ pc c' = 0x300.
Proof. run_test. Qed.

(* call 0x0NNN *)
Example test_2208 :
  exists c', runTest 0x2208 id = Ok c'
             /\ pc c' = 0x208 /\ sp c' = 0xe /\ stack c' !! 15%nat = Some 0x202.
Proof. run_test. Qed.

(* 7XNN Vx += NN (Carry flag is not changed) *)
Example test_78F0 :
  exists c', runTest 0x78f0 (fun c => set_v (<[8%nat := 0xf]> (v c)) c) = Ok c'
             /\ reg c' 8 = 0xff /\ reg c' 0xf = 0.
Proof. run_test. Qed.

(* 8XY4 Vx += Vy (carry) *)
Example test_8894_carry :
  exists c', runTest 0x8894
               (fun c => set_v (<[9%nat := 0xcd]> (<[8%nat := 0xab]> (v c))) c)
             = Ok c'
             /\ reg c' 8 = Z.land 0xff (0xab + 0xcd) /\ reg c' 0xf = 1.
Proof. run_test. Qed.

(* 8XY6 Vx>>=1 (bit0 is 1) *)
Example test_8CD6 :
  exists c', runTest 0x8cd6 (fun c => set_v (<[12%nat := 0x3]> (v c)) c) = Ok c'
             /\ reg c' 0xc = 1 /\ reg c' 0xf = 1.
Proof. run_test. Qed.

(* 8XY7 Vx=Vy-Vx (not borrow), with Y = 0xF *)
Example test_8EF7 :
  exists c', runTest 0x8ef7
               (fun c => set_v (<[15%nat := 0x67]> (<[14%nat := 0x45]> (v c))) c)
             = Ok c'
             /\ reg c' 0xe = 0x22 /\ reg c' 0xf = 1.
Proof. run_test. Qed.

(* DXYN draw(Vx,Vy,N) (not flip) *)
Example test_D128 :
  exists c', runTest 0xD128
               (fun c => set_mem (replicate 32 0xff ++ drop 32 (mem c))
                           (set_v (<[2%nat := 8]> (<[1%nat := 8]> (v c))) c))
             = Ok c'
             /\ forallb (fun y => forallb (fun x => pixel c' (x + 8) (y + 8) =? 1)
                                    (seqZ 0 8)) (seqZ 0 8) = true
             /\ reg c' 0xf = 0.
Proof. run_test. Qed.

(* DXYN draw(Vx,Vy,N) (flip) *)
Example test_D128_flip :
  exists c', runTest 0xD128
               (fun c => set_disp (replicate 2048 1)
                           (set_mem (replicate 32 0xff ++ drop 32 (mem c))
                              (set_v (<[2%nat := 8]> (<[1%nat := 8]> (v c))) c)))
             = Ok c'
             /\ forallb (fun y => forallb (fun x => pixel c' (x + 8) (y + 8) =? 0)
                                    (seqZ 0 8)) (seqZ 0 8) = true
             /\ reg c' 0xf = 1.
Proof. run_test. Qed.

(* EX9E if(key()==Vx) (true) *)
Example test_E09E :
  exists c', runTest 0xE09E
               (fun c => set_keys (<[7%nat := 1]> (keys c))
                           (set_v (<[0%nat := 7]> (v c)) c))
             = Ok c'
             /\ pc c' = 0x204.
Proof. run_test. Qed.

(* FX0A Vx = get_key() (any key pressed) *)
Example test_F20A_pressed :
  exists c', runTest 0xF20A (fun c => set_keys (<[1%nat := 1]> (keys c)) c) = Ok c'
             /\ reg c' 2 = 1 /\ pc c' = 0x202.
Proof. run_test. Qed.

(* FX0A Vx = get_key() (key not pressed) *)
Example test_F20A_waiting :
  exists c', runTest 0xF20A id = Ok c' /\ reg c' 2 = 0 /\ pc c' = 0x200.
Proof. run_test. Qed.

(* FX33 set_BCD(Vx); Vx = 123 *)
Example test_F633 :
  exists c', runTest 0xF633 (fun c => set_v (<[6%nat := 123]> (v c)) c) = Ok c'
             /\ take 3 (mem c') = [1; 2; 3].
Proof. run_test. Qed.

(* FX55 reg_dump(Vx,&I) *)
Example test_F755 :
  exists c', runTest 0xF755
               (fun c => set_i 12
                           (set_v (<[7%nat := 4]> (Z.succ <$> seqZ 0 16)) c))
             = Ok c'
             /\ take 5 (drop 12 (mem c')) = take 5 (v c').
Proof. run_test. Qed.

(* FX65 reg_load(Vx,&I) *)
Example test_F865 :
  exists c', runTest 0xF865
               (fun c => set_i 0
                           (set_v (<[8%nat := 5]> (v c))
                              (set_mem ((Z.succ <$> seqZ 0 16) ++ drop 16 (mem c)) c)))
             = Ok c'
             /\ take 6 (v c') = take 6 (mem c').
Proof. run_test. Qed.

(** * Further properties of the engine *)

Lemma wf_decrementTimer c : wf c -> wf (decrementTimer c).
Proof.
  intros Hwf. rewrite decrementTimer_eq by apply Hwf.
  pose proof (wf_dt c Hwf) as Hdt. pose proof (wf_st c Hwf) as Hst.
  unfold is_u8 in *.
  apply wf_set_st; [apply wf_set_dt; [done|]|]; unfold is_u8; case_match; lia.
Qed.

Lemma wf_setKey s down c c' : wf c -> setKey s down c = Ok c' -> wf c'.
Proof.
  intros Hwf. unfold setKey. destruct (scanCode2Key s) as [k|]; [|by intros [= <-]].
  unfold store. case_match; [|done]. simpl. intros [= <-].
  destruct Hwf. constructor; try done; cbn [keys set_keys].
  - by rewrite length_insert.
  - apply Forall_insert; [done|]. unfold is_u8. destruct down; lia.
Qed.

(** X1: every operation the host can invoke on the machine keeps the
    state well formed: an instruction that returns, a timer tick, and a
    key event. *)
Theorem engine_keeps_wf rnd c :
  wf c ->
  (forall c', step rnd c = Ok c' -> wf c')
  /\ wf (decrementTimer c)
  /\ (forall s down c', setKey s down c = Ok c' -> wf c').
Proof.
  intros Hwf. split; [|split].
  - intros c' Hstep. pose proof (step_wf rnd c Hwf) as H. by rewrite Hstep in H.
  - by apply wf_decrementTimer.
  - intros s down c'. by apply wf_setKey.
Qed.

Lemma engine_keeps_wf_witness :
  wf sample_key
  /\ (forall c', step 0 sample_key = Ok c' -> wf c')
  /\ wf (decrementTimer sample_key).
Proof.
  assert (wf sample_key) as Hwf by wf_by_compute.
  split; [exact Hwf|].
  destruct (engine_keeps_wf 0 sample_key Hwf) as (Hstep & Htick & _).
  split; [exact Hstep|exact Htick].
Defined.

(** * The initializer on any program *)

Lemma copy_at_Ok {A} (a : list A) k src :
  0 <= k <= Z.of_nat (length a) ->
  copy_at a k src = Ok (take (Z.to_nat k) a ++ copy (drop (Z.to_nat k) a) src).
Proof. intros Hk. unfold copy_at. by rewrite slice_from_Ok. Qed.

(** X2: the initializer never fails, whatever the program.  At most 3584
    bytes of it are loaded at 0x200 and the rest is dropped without notice;
    the sprite table and every other component are as for a short program,
    and the state is well formed as soon as the program consists of
    bytes. *)
Theorem newChip8_any_program (b : list Z) :
  exists c,
    newChip8 b = Ok c
    /\ mem c = replicate 256 0 ++ characterSprites ++ replicate 176 0
               ++ take 3584 b ++ replicate (3584 - length b) 0
    /\ set_mem [] c
       = mkChip8 [] 0x200 (replicate 16 0) 0 0 0 15 (replicate 16 0)
           (replicate 16 0) (replicate 2048 0) (replicate 16 EmptyString) 0
    /\ (Forall is_u8 b -> wf c).
Proof.
  unfold newChip8. cbv zeta.
  change (mem (set_sp 15 (set_pc ProgramOffset zeroChip8)))
    with (replicate 4096 0).
  rewrite copy_at_Ok, bind_Ok
    by (rewrite length_replicate; unfold ProgramOffset; lia).
  change (Z.to_nat ProgramOffset) with 512%nat.
  unfold copy. rewrite take_replicate, !drop_replicate, length_replicate.
  replace (512 `min` 4096)%nat with 512%nat by lia.
  replace (4096 - 512)%nat with 3584%nat by lia.
  rewrite copy_at_fits, bind_Ok
    by (rewrite ?length_app, ?length_replicate, ?length_take;
        unfold CharacterSpritesOffset;
        change (length characterSprites) with 80%nat; lia).
  change (Z.to_nat CharacterSpritesOffset) with 256%nat.
  change (length characterSprites) with 80%nat.
  rewrite take_app_le, drop_app_le by (rewrite length_replicate; lia).
  rewrite take_replicate, drop_replicate.
  replace (256 `min` 512)%nat with 256%nat by lia.
  replace (512 - (256 + 80))%nat with 176%nat by lia.
  eexists. split; [reflexivity|]. split; [reflexivity|]. split; [reflexivity|].
  intros Hb. pose proof (newChip8_wf b Hb) as Hwf.
  unfold newChip8 in Hwf. cbv zeta in Hwf.
  change (mem (set_sp 15 (set_pc ProgramOffset zeroChip8)))
    with (replicate 4096 0) in Hwf.
  assert (wf (set_sp 15 (set_pc ProgramOffset zeroChip8))) as Hwf0
    by wf_by_compute.
  apply wf_set_mem; [done| |].
  - rewrite !length_app, !length_replicate, length_take.
    change (length characterSprites) with 80%nat. lia.
  - assert (Forall is_u8 characterSprites) as Hs
      by (apply forallb_u8b; vm_compute; reflexivity).
    repeat first [ apply Forall_app_2 | apply Forall_take | assumption
                 | apply Forall_replicate; unfold is_u8; lia ].
Qed.

(** * Fetching an instruction *)

Lemma bytesOk_all :
  forallb (fun hi => forallb (bytesOk hi) (seqZ 0 256)) (seqZ 0 256) = true.
Proof. vm_compute. reflexivity. Qed.

Lemma byte_lookup c a e : mem c !! Z.to_nat a = Some e -> byte c a = e.
Proof. unfold byte. by intros ->. Qed.

Lemma fetchOpcode_end c : wf c -> 4095 <= pc c -> fetchOpcode c = Panic.
Proof.
  intros Hwf Hout. pose proof (wf_pc c Hwf) as Hpc. unfold is_u16 in Hpc.
  pose proof (wf_mem_len c Hwf) as Hlen. unfold fetchOpcode.
  destruct (decide (pc c = 4095)) as [Hlast|Hlast].
  - destruct (lookup_lt_is_Some_2 (mem c) (Z.to_nat (pc c))) as [h Hh]; [lia|].
    rewrite (u16_id (pc c + 1)) by (unfold is_u16; lia).
    rewrite (index_Ok _ (pc c) h), bind_Ok by (done || lia).
    rewrite index_Panic; [done|lia].
  - rewrite (index_Panic (mem c) (pc c)); [done|lia].
Qed.

(** X3: fetch reads the instruction big-endian and moves the program
    counter past it: with pc <= 4094 it returns 256 * mem[pc] + mem[pc+1],
    whose family is the high nibble of the first byte, whose X selector is
    its low nibble and whose NN operand is the second byte; with pc >= 4095
    one of the two bytes lies outside memory and fetch panics. *)
Theorem fetch_big_endian c :
  wf c ->
  (pc c <= 4094 ->
   let hi := byte c (pc c) in
   let lo := byte c (pc c + 1) in
   fetchOpcode c = Ok (256 * hi + lo, set_pc (pc c + 2) c)
   /\ opH (256 * hi + lo) = 0x1000 * (hi / 16)
   /\ opX (256 * hi + lo) = hi mod 16
   /\ opY (256 * hi + lo) = lo / 16
   /\ opN (256 * hi + lo) = lo mod 16
   /\ opNN (256 * hi + lo) = lo)
  /\ (4095 <= pc c -> fetchOpcode c = Panic).
Proof.
  intros Hwf. pose proof (wf_pc c Hwf) as Hpc. unfold is_u16 in Hpc.
  pose proof (wf_mem_len c Hwf) as Hlen. split.
  - intros Hin. cbv zeta.
    destruct (lookup_lt_is_Some_2 (mem c) (Z.to_nat (pc c))) as [h Hh]; [lia|].
    destruct (lookup_lt_is_Some_2 (mem c) (Z.to_nat (pc c + 1))) as [l Hl];
      [lia|].
    rewrite (byte_lookup c (pc c) h), (byte_lookup c (pc c + 1) l) by done.
    assert (is_u8 h) as H1
      by (eapply Forall_lookup_1; [apply (wf_mem c Hwf)|done]).
    assert (is_u8 l) as H2
      by (eapply Forall_lookup_1; [apply (wf_mem c Hwf)|done]).
    unfold is_u8 in H1, H2.
    pose proof bytesOk_all as Hall.
    rewrite forallb_forall in Hall.
    specialize (Hall h ltac:(apply list_elem_of_In, elem_of_seqZ; lia)).
    rewrite forallb_forall in Hall.
    specialize (Hall l ltac:(apply list_elem_of_In, elem_of_seqZ; lia)).
    unfold bytesOk in Hall. cbv zeta in Hall.
    repeat (apply andb_prop in Hall as [Hall ?]).
    repeat match goal with E : (_ =? _) = true |- _ => apply Z.eqb_eq in E end.
    unfold fetchOpcode.
    rewrite (u16_id (pc c + 1)) by (unfold is_u16; lia).
    rewrite (index_Ok _ (pc c) h), bind_Ok by (done || lia).
    rewrite (index_Ok _ (pc c + 1) l), bind_Ok by (done || lia).
    rewrite (u16_id (pc c + 2)) by (unfold is_u16; lia).
    rewrite Hall in *. by repeat split.
  - by apply fetchOpcode_end.
Qed.

Lemma fetch_big_endian_witness :
  wf (booted [0x8F; 0x14])
  /\ pc (booted [0x8F; 0x14]) <= 4094
  /\ fetchOpcode (booted [0x8F; 0x14])
     = Ok (0x8F14, set_pc 0x202 (booted [0x8F; 0x14])).
Proof.
  assert (wf (booted [0x8F; 0x14])) as Hwf by wf_by_compute.
  assert (pc (booted [0x8F; 0x14]) <= 4094) as Hpc by (vm_compute; discriminate).
  split; [exact Hwf|]. split; [exact Hpc|].
  apply (fetch_big_endian (booted [0x8F; 0x14]) Hwf). exact Hpc.
Defined.

(** * The call stack *)

Lemma execOpcode_2NNN rnd op c :
  wf c -> opH op = 0x2000 -> sp c <= 15 ->
  execOpcode rnd op c
  = recordOp (u16 (pc c - 2)) op ("CALL " +:+ fmtX 3 (opNNN op))
      (set_pc (opNNN op)
         (set_sp (u8 (sp c - 1))
            (set_stack (<[Z.to_nat (sp c) := pc c]> (stack c)) c))).
Proof.
  intros Hwf Hh Hsp. pose proof (wf_sp c Hwf) as Hs. unfold is_u8 in Hs.
  unfold execOpcode. cbv zeta. rewrite Hh. dispatch.
  unfold pushStack. rewrite store_Ok, !bind_Ok by (rewrite (wf_stack_len c Hwf); lia).
  reflexivity.
Qed.

Lemma execOpcode_2NNN_overflow rnd op c :
  wf c -> opH op = 0x2000 -> 15 < sp c -> execOpcode rnd op c = Panic.
Proof.
  intros Hwf Hh Hsp.
  unfold execOpcode. cbv zeta. rewrite Hh. dispatch.
  unfold pushStack, store.
  rewrite (wf_stack_len c Hwf).
  destruct (sp c <? Z.of_nat 16) eqn:E; [apply Z.ltb_lt in E; lia|].
  by rewrite andb_false_r.
Qed.

Lemma execOpcode_00EE rnd c a :
  wf c -> stack c !! Z.to_nat (u8 (sp c + 1)) = Some a ->
  execOpcode rnd 0x00EE c
  = recordOp (u16 (pc c - 2)) 0x00EE "RET  "
      (set_pc a (set_sp (u8 (sp c + 1)) c)).
Proof.
  intros Hwf Ha. unfold execOpcode. cbv zeta.
  change (opH 0x00EE) with 0. dispatch.
  unfold popStack. cbv zeta. cbn [stack sp set_sp].
  rewrite (index_Ok _ _ a), !bind_Ok by (done || apply u8_range).
  reflexivity.
Qed.

Lemma execOpcode_00EE_underflow rnd c :
  wf c -> 15 <= sp c < 255 -> execOpcode rnd 0x00EE c = Panic.
Proof.
  intros Hwf Hsp. unfold execOpcode. cbv zeta.
  change (opH 0x00EE) with 0. dispatch.
  unfold popStack. cbv zeta. cbn [stack sp set_sp].
  rewrite u8_id by (unfold is_u8; lia).
  rewrite index_Panic; [done|]. rewrite (wf_stack_len c Hwf). lia.
Qed.

(** X4: a call (2NNN) with the stack pointer inside the stack stores the
    return address at the stack pointer, moves the pointer down by one
    (from 0 it wraps to 255) and jumps to NNN; the return (00EE) that
    follows puts the program counter back after the call and the stack
    pointer where it was.  A call with the stack pointer above 15, which is
    where the seventeenth nested call finds it, panics. *)
Theorem call_return rnd rnd' op c :
  wf c -> opH op = 0x2000 ->
  (sp c <= 15 ->
   exists c1 c2,
     execOpcode rnd op c = Ok c1
     /\ pc c1 = opNNN op /\ sp c1 = (sp c - 1) mod 256
     /\ stack c1 !! Z.to_nat (sp c) = Some (pc c)
     /\ execOpcode rnd' 0x00EE c1 = Ok c2
     /\ pc c2 = pc c /\ sp c2 = sp c /\ stack c2 = stack c1)
  /\ (15 < sp c -> execOpcode rnd op c = Panic).
Proof.
  intros Hwf Hh. pose proof (wf_sp c Hwf) as Hs. unfold is_u8 in Hs.
  pose proof (wf_stack_len c Hwf) as Hlen.
  split; [|by apply execOpcode_2NNN_overflow].
  intros Hsp. rewrite execOpcode_2NNN by done.
  rewrite recordOp_Ok by apply Hwf.
  eexists. 
  match goal with |- exists c2, Ok ?s = Ok _ /\ _ => set (c1 := s) end.
  assert (wf c1) as Hwf1.
  { pose proof (execOpcode_wf rnd op c Hwf) as H.
    rewrite execOpcode_2NNN, recordOp_Ok in H by (done || apply Hwf). exact H. }
  assert (u8 (sp c1 + 1) = sp c) as Hback.
  { subst c1. cbn [sp set_history set_pc set_sp]. unfold u8.
    rewrite Zplus_mod_idemp_l. replace (sp c - 1 + 1) with (sp c) by lia.
    apply Z.mod_small. lia. }
  assert (stack c1 !! Z.to_nat (sp c) = Some (pc c)) as Htop.
  { subst c1. cbn [stack set_history set_pc set_sp set_stack].
    apply list_lookup_insert_eq. lia. }
  rewrite (execOpcode_00EE rnd' c1 (pc c)) by (done || by rewrite Hback).
  rewrite recordOp_Ok by apply Hwf1.
  eexists. split; [reflexivity|].
  cbn [pc sp stack set_history set_pc set_sp].
  repeat split; try done.
Qed.

Lemma call_return_witness :
  wf (set_pc 0x202 (booted [0x22; 0x08])) /\ opH 0x2208 = 0x2000
  /\ sp (set_pc 0x202 (booted [0x22; 0x08])) <= 15
  /\ exists c1 c2,
      execOpcode 0 0x2208 (set_pc 0x202 (booted [0x22; 0x08])) = Ok c1
      /\ pc c1 = 0x208 /\ sp c1 = 14
      /\ execOpcode 0 0x00EE c1 = Ok c2
      /\ pc c2 = 0x202 /\ sp c2 = 15.
Proof.
  assert (wf (set_pc 0x202 (booted [0x22; 0x08]))) as Hwf by wf_by_compute.
  assert (sp (set_pc 0x202 (booted [0x22; 0x08])) <= 15) as Hsp
    by (vm_compute; discriminate).
  split; [exact Hwf|]. split; [reflexivity|]. split; [exact Hsp|].
  destruct (call_return 0 0 0x2208 _ Hwf eq_refl) as [Hcall _].
  destruct (Hcall Hsp) as (c1 & c2 & H1 & H2 & H3 & _ & H4 & H5 & H6 & _).
  exists c1, c2. repeat split; assumption.
Defined.

(** X5: a return (00EE) moves the stack pointer up by one, from 255
    round to 0, and jumps to whatever the slot it then points at holds,
    whether or not a call stored it; the stack itself is not written.  With
    nothing on the stack the return panics: from 15, where the initializer
    puts the pointer, or anywhere up to 254, the incremented pointer is
    outside the 16 slots. *)
Theorem return_underflow rnd c :
  wf c ->
  let s := (sp c + 1) mod 256 in
  (s <= 15 ->
   exists c',
     execOpcode rnd 0x00EE c = Ok c'
     /\ sp c' = s /\ stack c !! Z.to_nat s = Some (pc c')
     /\ stack c' = stack c)
  /\ (15 < s -> execOpcode rnd 0x00EE c = Panic).
Proof.
  intros Hwf s. pose proof (wf_sp c Hwf) as Hs. unfold is_u8 in Hs.
  pose proof (wf_stack_len c Hwf) as Hlen.
  pose proof (Z.mod_pos_bound (sp c + 1) 256 ltac:(lia)) as Hb. fold s in Hb.
  split.
  - intros Hin.
    destruct (lookup_lt_is_Some_2 (stack c) (Z.to_nat s)) as [a Ha]; [lia|].
    rewrite (execOpcode_00EE rnd c a), recordOp_Ok by (done || apply Hwf).
    eexists. split; [reflexivity|]. by repeat split.
  - intros Hout. apply execOpcode_00EE_underflow; [done|].
    destruct (decide (sp c = 255)) as [Hmax|Hmax].
    + unfold s in Hout. rewrite Hmax in Hout. vm_compute in Hout. done.
    + unfold s in Hout. rewrite Z.mod_small in Hout by lia. lia.
Qed.

Lemma return_underflow_witness :
  wf (set_pc 0x202 (booted [0x00; 0xEE]))
  /\ 15 < (sp (set_pc 0x202 (booted [0x00; 0xEE])) + 1) mod 256
  /\ execOpcode 0 0x00EE (set_pc 0x202 (booted [0x00; 0xEE])) = Panic.
Proof.
  assert (wf (set_pc 0x202 (booted [0x00; 0xEE]))) as Hwf by wf_by_compute.
  assert (15 < (sp (set_pc 0x202 (booted [0x00; 0xEE])) + 1) mod 256) as Hsp
    by (vm_compute; reflexivity).
  split; [exact Hwf|]. split; [exact Hsp|].
  destruct (return_underflow 0 _ Hwf) as [_ Hout]. exact (Hout Hsp).
Defined.

(** * Conditional skips *)

Lemma pc_skipIf b c : pc (skipIf b c) = if b then u16 (pc c + 2) else pc c.
Proof. by destruct b. Qed.

Section Skips.
Variables (rnd op : Z) (c : Chip8).
Hypothesis Hwf : wf c.

Lemma execOpcode_3XNN :
  opH op = 0x3000 ->
  execOpcode rnd op c
  = recordOp (u16 (pc c - 2)) op
      ("SE   V" +:+ fmtX 0 (opX op) +:+ ",#" +:+ fmtX 2 (opNN op))
      (skipIf (reg c (opX op) =? opNN op) c).
Proof using Hwf.
  intros Hh. pose proof (opX_range op). pose proof (wf_v_len c Hwf).
  unfold execOpcode. cbv zeta. rewrite Hh. dispatch.
  by rewrite getV_Ok, !bind_Ok by done.
Qed.

Lemma execOpcode_4XNN :
  opH op = 0x4000 ->
  execOpcode rnd op c
  = recordOp (u16 (pc c - 2)) op
      ("SNE  V" +:+ fmtX 0 (opX op) +:+ ",#" +:+ fmtX 2 (opNN op))
      (skipIf (negb (reg c (opX op) =? opNN op)) c).
Proof using Hwf.
  intros Hh. pose proof (opX_range op). pose proof (wf_v_len c Hwf).
  unfold execOpcode. cbv zeta. rewrite Hh. dispatch.
  by rewrite getV_Ok, !bind_Ok by done.
Qed.

Lemma execOpcode_5XY0 :
  opH op = 0x5000 ->
  execOpcode rnd op c
  = recordOp (u16 (pc c - 2)) op
      ("SE   V" +:+ fmtX 0 (opX op) +:+ ",V" +:+ fmtX 0 (opY op))
      (skipIf (reg c (opX op) =? reg c (opY op)) c).
Proof using Hwf.
  intros Hh. pose proof (opX_range op). pose proof (opY_range op).
  pose proof (wf_v_len c Hwf).
  unfold execOpcode. cbv zeta. rewrite Hh. dispatch.
  by rewrite !getV_Ok, !bind_Ok by done.
Qed.

Lemma execOpcode_9XY0 :
  opH op = 0x9000 ->
  execOpcode rnd op c
  = recordOp (u16 (pc c - 2)) op
      ("SNE  V" +:+ fmtX 0 (opX op) +:+ ",V" +:+ fmtX 0 (opY op))
      (skipIf (negb (reg c (opX op) =? reg c (opY op))) c).
Proof using Hwf.
  intros Hh. pose proof (opX_range op). pose proof (opY_range op).
  pose proof (wf_v_len c Hwf).
  unfold execOpcode. cbv zeta. rewrite Hh. dispatch.
  by rewrite !getV_Ok, !bind_Ok by done.
Qed.
End Skips.

(** X6: the four conditional skips always execute and change nothing but
    the program counter (and the trace): skip-if-equal adds 2 to it, modulo
    2^16, exactly when the operands are equal, skip-if-not-equal exactly
    when they differ.  The register forms do not look at the low nibble of
    the opcode, so 5XY1..5XYF and 9XY1..9XYF behave as 5XY0 and 9XY0. *)
Theorem conditional_skips rnd op c :
  wf c ->
  opH op = 0x3000 \/ opH op = 0x4000 \/ opH op = 0x5000 \/ opH op = 0x9000 ->
  let taken :=
    if opH op =? 0x3000 then reg c (opX op) =? opNN op
    else if opH op =? 0x4000 then negb (reg c (opX op) =? opNN op)
    else if opH op =? 0x5000 then reg c (opX op) =? reg c (opY op)
    else negb (reg c (opX op) =? reg c (opY op)) in
  exists h k,
    execOpcode rnd op c
    = Ok (set_history h k
            (set_pc (if taken then (pc c + 2) mod 65536 else pc c) c)).
Proof.
  intros Hwf Hfam. cbv zeta.
  destruct Hfam as [Hh | [Hh | [Hh | Hh]]]; rewrite Hh; dispatch;
    [ rewrite execOpcode_3XNN by done | rewrite execOpcode_4XNN by done
    | rewrite execOpcode_5XY0 by done | rewrite execOpcode_9XY0 by done ];
    rewrite recordOp_Ok by (by apply wf_skipIf);
    eexists _, _; f_equal; unfold skipIf; case_match; try reflexivity;
    destruct c; reflexivity.
Qed.

Lemma conditional_skips_witness :
  wf (fetched [0x30; 0x12] (<[0%nat := 0x12]> noRegs))
  /\ opH 0x3012 = 0x3000
  /\ exists h k,
      execOpcode 0 0x3012 (fetched [0x30; 0x12] (<[0%nat := 0x12]> noRegs))
      = Ok (set_history h k
              (set_pc 0x204 (fetched [0x30; 0x12] (<[0%nat := 0x12]> noRegs)))).
Proof.
  assert (wf (fetched [0x30; 0x12] (<[0%nat := 0x12]> noRegs))) as Hwf
    by wf_by_compute.
  split; [exact Hwf|]. split; [reflexivity|].
  exact (conditional_skips 0 0x3012 _ Hwf (or_introl eq_refl)).
Defined.

(** * Subtraction and shift left *)

Lemma execOpcode_Ok_wf rnd op c c' :
  wf c -> execOpcode rnd op c = Ok c' -> wf c'.
Proof.
  intros Hwf Hexec. pose proof (execOpcode_wf rnd op c Hwf) as H.
  by rewrite Hexec in H.
Qed.

Lemma reg_set_v c r x : reg (set_v r c) x = default 0 (r !! Z.to_nat x).
Proof. reflexivity. Qed.

Lemma reg_set_history c h k x : reg (set_history h k c) x = reg c x.
Proof. reflexivity. Qed.

(** The register file after a result and a flag have been written. *)
Lemma reg_result_flag (r : list Z) x e f k :
  length r = 16%nat -> 0 <= x < 15 -> 0 <= k < 16 ->
  default 0 (<[15%nat := f]> (<[Z.to_nat x := e]> r) !! Z.to_nat k)
  = if k =? 15 then f else if k =? x then e else default 0 (r !! Z.to_nat k).
Proof.
  intros Hlen Hx Hk.
  destruct (k =? 15) eqn:E15; [apply Z.eqb_eq in E15 as ->|apply Z.eqb_neq in E15].
  - change (Z.to_nat 15) with 15%nat.
    by rewrite list_lookup_insert_eq by (rewrite length_insert; lia).
  - rewrite list_lookup_insert_ne by lia.
    destruct (k =? x) eqn:Ex; [apply Z.eqb_eq in Ex as ->|apply Z.eqb_neq in Ex].
    + by rewrite list_lookup_insert_eq by lia.
    + by rewrite list_lookup_insert_ne by lia.
Qed.

Section Subtract.
Variables (rnd op : Z) (c : Chip8).
Hypothesis Hwf : wf c.
Hypothesis Hfamily : opH op = 0x8000.

Lemma execOpcode_8XY5 :
  Z.land (opNNN op) 0xf = 5 ->
  execOpcode rnd op c
  = recordOp (u16 (pc c - 2)) op
      ("SUB  V" +:+ fmtX 0 (opX op) +:+ ",V" +:+ fmtX 0 (opY op))
      (set_v (<[15%nat := if reg c (opX op) <? reg c (opY op) then 0 else 1]>
                (<[Z.to_nat (opX op)
                   := (reg c (opX op) - reg c (opY op)) mod 256]> (v c))) c).
Proof using Hwf Hfamily.
  intros Hsub. pose proof (opX_range op). pose proof (opY_range op).
  pose proof (wf_v_len c Hwf) as Hlen.
  unfold execOpcode. cbv zeta. rewrite Hfamily, Hsub. dispatch.
  rewrite !getV_Ok, !bind_Ok by done.
  rewrite setV_Ok, bind_Ok by done.
  rewrite updateCarryFlag_Ok, !bind_Ok by (simpl; by rewrite length_insert).
  cbn [fst snd]. by destruct (reg c (opX op) <? reg c (opY op)).
Qed.

Lemma execOpcode_8XY7 :
  Z.land (opNNN op) 0xf = 7 ->
  execOpcode rnd op c
  = recordOp (u16 (pc c - 2)) op
      ("SUBN V" +:+ fmtX 0 (opX op) +:+ ",V" +:+ fmtX 0 (opY op))
      (set_v (<[15%nat := if reg c (opY op) <? reg c (opX op) then 0 else 1]>
                (<[Z.to_nat (opX op)
                   := (reg c (opY op) - reg c (opX op)) mod 256]> (v c))) c).
Proof using Hwf Hfamily.
  intros Hsub. pose proof (opX_range op). pose proof (opY_range op).
  pose proof (wf_v_len c Hwf) as Hlen.
  unfold execOpcode. cbv zeta. rewrite Hfamily, Hsub. dispatch.
  rewrite !getV_Ok, !bind_Ok by done.
  rewrite setV_Ok, bind_Ok by done.
  rewrite updateCarryFlag_Ok, !bind_Ok by (simpl; by rewrite length_insert).
  cbn [fst snd]. by destruct (reg c (opY op) <? reg c (opX op)).
Qed.

Lemma execOpcode_8XYE :
  Z.land (opNNN op) 0xf = 0xE -> opX op <> 0xf ->
  execOpcode rnd op c
  = recordOp (u16 (pc c - 2)) op ("SHL  V" +:+ fmtX 0 (opX op))
      (set_v (<[Z.to_nat (opX op) := (2 * reg c (opX op)) mod 256]>
                (<[15%nat := reg c (opX op) / 128]> (v c))) c).
Proof using Hwf Hfamily.
  intros Hsub Hne. pose proof (opX_range op).
  pose proof (wf_v_len c Hwf) as Hlen.
  pose proof (reg_range c (opX op) Hwf) as Hr. unfold is_u8 in Hr.
  unfold execOpcode. cbv zeta. rewrite Hfamily, Hsub. dispatch.
  rewrite getV_Ok, bind_Ok by done.
  rewrite updateCarryFlag_Ok, bind_Ok by done.
  rewrite getV_Ok, bind_Ok by (simpl; by rewrite ?length_insert).
  rewrite setV_Ok, !bind_Ok by (simpl; by rewrite ?length_insert).
  cbn [fst snd v set_v]. rewrite reg_set_v.
  rewrite list_lookup_insert_ne by lia. fold (reg c (opX op)).
  rewrite Z.shiftr_div_pow2, Z.shiftl_mul_pow2 by lia.
  change (2 ^ 7) with 128. change (2 ^ 1) with 2.
  assert ((if reg c (opX op) / 128 =? 1 then 1 else 0) = reg c (opX op) / 128)
    as ->.
  { assert (0 <= reg c (opX op) / 128 < 2)
      by (split; [apply Z.div_pos; lia|apply Z.div_lt_upper_bound; lia]).
    case_match; lia. }
  unfold u8. by rewrite (Z.mul_comm (reg c (opX op)) 2).
Qed.
End Subtract.

(** X7: the two subtractions (8XY5: VX - VY, 8XY7: VY - VX) leave the
    difference mod 256 in VX for X other than 0xF, and in VF 1 when the
    minuend is at least the subtrahend and 0 when a borrow occurs; the flag
    is worked out from the operands before either register is written and
    is written last.  No other register changes. *)
Theorem subtract_borrow rnd op c :
  wf c -> opH op = 0x8000 ->
  Z.land (opNNN op) 0xf = 5 \/ Z.land (opNNN op) 0xf = 7 ->
  let a := if Z.land (opNNN op) 0xf =? 5 then reg c (opX op) else reg c (opY op) in
  let b := if Z.land (opNNN op) 0xf =? 5 then reg c (opY op) else reg c (opX op) in
  exists c',
    execOpcode rnd op c = Ok c'
    /\ reg c' 0xf = (if b <=? a then 1 else 0)
    /\ (opX op <> 0xf -> reg c' (opX op) = (a - b) mod 256)
    /\ (forall k, 0 <= k < 15 -> k <> opX op -> reg c' k = reg c k).
Proof.
  intros Hwf Hh Hsub. cbv zeta. pose proof (opX_range op) as HX.
  pose proof (wf_v_len c Hwf) as Hlen.
  destruct Hsub as [Hsub | Hsub]; rewrite Hsub; dispatch;
    [rewrite execOpcode_8XY5 by done|rewrite execOpcode_8XY7 by done];
    rewrite recordOp_Ok by apply Hwf;
    (eexists; split; [reflexivity|]);
    unfold reg; cbn [v set_history set_v]; change (Z.to_nat 15) with 15%nat;
    (split; [|split]).
  all: try (rewrite list_lookup_insert_eq by (rewrite length_insert; lia);
            simpl; repeat case_match; lia).
  all: try (intros Hne; rewrite list_lookup_insert_ne by lia;
            by rewrite list_lookup_insert_eq by lia).
  all: intros k Hk Hne; by rewrite !list_lookup_insert_ne by lia.
Qed.

Lemma subtract_borrow_witness :
  wf (fetched [0x8A; 0xB5] (<[10%nat := 0x45]> (<[11%nat := 0x56]> noRegs)))
  /\ opH 0x8AB5 = 0x8000
  /\ (Z.land (opNNN 0x8AB5) 0xf = 5 \/ Z.land (opNNN 0x8AB5) 0xf = 7)
  /\ exists c',
      execOpcode 0 0x8AB5
        (fetched [0x8A; 0xB5] (<[10%nat := 0x45]> (<[11%nat := 0x56]> noRegs)))
      = Ok c'
      /\ reg c' 0xf = 0 /\ reg c' 0xa = 0xEF.
Proof.
  assert (wf (fetched [0x8A; 0xB5]
                (<[10%nat := 0x45]> (<[11%nat := 0x56]> noRegs)))) as Hwf
    by wf_by_compute.
  split; [exact Hwf|]. split; [reflexivity|]. split; [left; reflexivity|].
  destruct (subtract_borrow 0 0x8AB5 _ Hwf eq_refl (or_introl eq_refl))
    as (c' & Hexec & Hvf & Hvx & _).
  exists c'. split; [exact Hexec|]. split; [exact Hvf|].
  apply Hvx. vm_compute. discriminate.
Defined.

(** X8: for X other than 0xF, shift-left (8XYE) leaves in VF the bit it
    shifts out of VX and in VX the rest, so that 256 * VF + VX is twice the
    old VX: nothing is lost.  VY plays no part. *)
Theorem shift_left_flag rnd op c :
  wf c -> opH op = 0x8000 -> Z.land (opNNN op) 0xf = 0xE -> opX op <> 0xf ->
  exists c',
    execOpcode rnd op c = Ok c'
    /\ reg c' 0xf = reg c (opX op) / 128
    /\ reg c' (opX op) = (2 * reg c (opX op)) mod 256
    /\ 256 * reg c' 0xf + reg c' (opX op) = 2 * reg c (opX op).
Proof.
  intros Hwf Hh Hsub Hne. pose proof (opX_range op) as HX.
  pose proof (wf_v_len c Hwf) as Hlen.
  pose proof (reg_range c (opX op) Hwf) as Hr. unfold is_u8 in Hr.
  rewrite execOpcode_8XYE by done. rewrite recordOp_Ok by apply Hwf.
  eexists; split; [reflexivity|].
  assert (forall r, reg (set_history r
            (Z.rem (ophistoryIndex c + 1) OpHistoryNum)
            (set_v (<[Z.to_nat (opX op) := (2 * reg c (opX op)) mod 256]>
                      (<[15%nat := reg c (opX op) / 128]> (v c))) c)) 0xf
          = reg c (opX op) / 128) as Hvf.
  { intros r. unfold reg at 1. cbn [v set_history set_v].
    change (Z.to_nat 15) with 15%nat.
    rewrite list_lookup_insert_ne by lia.
    by rewrite list_lookup_insert_eq by lia. }
  assert (forall r, reg (set_history r
            (Z.rem (ophistoryIndex c + 1) OpHistoryNum)
            (set_v (<[Z.to_nat (opX op) := (2 * reg c (opX op)) mod 256]>
                      (<[15%nat := reg c (opX op) / 128]> (v c))) c)) (opX op)
          = (2 * reg c (opX op)) mod 256) as Hvx.
  { intros r. unfold reg at 1. cbn [v set_history set_v].
    by rewrite list_lookup_insert_eq by (rewrite length_insert; lia). }
  rewrite Hvf, Hvx. repeat split.
  pose proof (Z.div_mod (2 * reg c (opX op)) 256 ltac:(lia)) as Hdm.
  replace (2 * reg c (opX op) / 256) with (reg c (opX op) / 128) in Hdm; [lia|].
  replace 256 with (2 * 128) by lia. by rewrite Z.div_mul_cancel_l by lia.
Qed.

Lemma shift_left_flag_witness :
  wf (fetched [0x80; 0x1E] (<[0%nat := 0x88]> noRegs))
  /\ opH 0x801E = 0x8000 /\ Z.land (opNNN 0x801E) 0xf = 0xE
  /\ opX 0x801E <> 0xf
  /\ exists c',
      execOpcode 0 0x801E (fetched [0x80; 0x1E] (<[0%nat := 0x88]> noRegs))
      = Ok c'
      /\ reg c' 0xf = 1 /\ reg c' 0 = 0x10.
Proof.
  assert (wf (fetched [0x80; 0x1E] (<[0%nat := 0x88]> noRegs))) as Hwf
    by wf_by_compute.
  assert (opX 0x801E <> 0xf) as Hne by (vm_compute; discriminate).
  split; [exact Hwf|]. split; [reflexivity|]. split; [reflexivity|].
  split; [exact Hne|].
  destruct (shift_left_flag 0 0x801E _ Hwf eq_refl eq_refl Hne)
    as (c' & Hexec & Hvf & Hvx & _).
  exists c'. split; [exact Hexec|]. split; [exact Hvf|exact Hvx].
Defined.

(** X9: subtraction undoes addition.  For distinct selectors X and Y, both
    other than 0xF, ADD VX,VY (8XY4) followed by SUB VX,VY (8XY5) leaves
    every register but VF as it was, and the flag of the subtraction is the
    complement of the carry of the addition: the subtraction borrows
    exactly when the addition carried. *)
Theorem add_then_subtract rnd rnd' opa ops c :
  wf c ->
  opH opa = 0x8000 -> Z.land (opNNN opa) 0xf = 4 ->
  opH ops = 0x8000 -> Z.land (opNNN ops) 0xf = 5 ->
  opX ops = opX opa -> opY ops = opY opa ->
  opX opa <> opY opa -> opX opa <> 0xf -> opY opa <> 0xf ->
  exists c1 c2,
    execOpcode rnd opa c = Ok c1
    /\ execOpcode rnd' ops c1 = Ok c2
    /\ (forall k, 0 <= k < 15 -> reg c2 k = reg c k)
    /\ reg c2 0xf = 1 - reg c1 0xf.
Proof.
  intros Hwf Hha Hsa Hhs Hss HX HY Hxy HxF HyF.
  pose proof (opX_range opa) as HXr. pose proof (opY_range opa) as HYr.
  pose proof (wf_v_len c Hwf) as Hlen.
  pose proof (reg_range c (opX opa) Hwf) as Ha. unfold is_u8 in Ha.
  pose proof (reg_range c (opY opa) Hwf) as Hb. unfold is_u8 in Hb.
  set (a := reg c (opX opa)) in *. set (b := reg c (opY opa)) in *.
  assert (exists c1, execOpcode rnd opa c = Ok c1
            /\ v c1 = <[15%nat := if a + b >? 255 then 1 else 0]>
                        (<[Z.to_nat (opX opa) := (a + b) mod 256]> (v c)))
    as (c1 & Hadd & Hv1).
  { rewrite execOpcode_8XY4, recordOp_Ok by (done || apply Hwf).
    eexists. split; reflexivity. }
  assert (wf c1) as Hwf1 by exact (execOpcode_Ok_wf rnd opa c c1 Hwf Hadd).
  assert (forall k, 0 <= k < 16 ->
            reg c1 k = if k =? 15 then (if a + b >? 255 then 1 else 0)
                       else if k =? opX opa then (a + b) mod 256
                       else reg c k) as Hreg1.
  { intros k Hk. unfold reg at 1. rewrite Hv1.
    by apply reg_result_flag; [|lia|]. }
  exists c1.
  rewrite (execOpcode_8XY5 rnd' ops c1 Hwf1 Hhs Hss), recordOp_Ok by apply Hwf1.
  eexists. split; [exact Hadd|]. split; [reflexivity|].
  rewrite HX, HY.
  assert (reg c1 (opX opa) = (a + b) mod 256) as Hx1.
  { rewrite Hreg1 by lia. rewrite (proj2 (Z.eqb_neq _ _)), Z.eqb_refl by lia. done. }
  assert (reg c1 (opY opa) = b) as Hy1.
  { rewrite Hreg1 by lia. by rewrite !(proj2 (Z.eqb_neq _ _)) by lia. }
  assert (reg c1 0xf = if a + b >? 255 then 1 else 0) as Hf1
    by (by rewrite Hreg1 by lia).
  rewrite Hx1, Hy1, Hf1.
  assert (((a + b) mod 256 - b) mod 256 = a) as Hback.
  { rewrite Zminus_mod_idemp_l. replace (a + b - b) with a by lia.
    apply Z.mod_small. lia. }
  split.
  - intros k Hk. rewrite reg_set_history, reg_set_v.
    rewrite reg_result_flag by (rewrite ?(wf_v_len c1 Hwf1); lia).
    rewrite (proj2 (Z.eqb_neq k 15)) by lia.
    destruct (k =? opX opa) eqn:E.
    + apply Z.eqb_eq in E as ->. exact Hback.
    + fold (reg c1 k). rewrite Hreg1 by lia.
      rewrite E. by rewrite (proj2 (Z.eqb_neq k 15)) by lia.
  - rewrite reg_set_history, reg_set_v.
    rewrite reg_result_flag by (rewrite ?(wf_v_len c1 Hwf1); lia).
    change (15 =? 15) with true. cbv iota.
    destruct (a + b >? 255) eqn:Ec.
    + assert ((a + b) mod 256 = a + b - 256) as ->.
      { symmetry. apply (Z.mod_unique (a + b) 256 1); lia. }
      destruct (a + b - 256 <? b) eqn:E; lia.
    + rewrite Z.mod_small by lia. destruct (a + b <? b) eqn:E; lia.
Qed.

Lemma add_then_subtract_witness :
  wf sample_add
  /\ opX 0x8AB4 <> opY 0x8AB4 /\ opX 0x8AB4 <> 0xf /\ opY 0x8AB4 <> 0xf
  /\ exists c1 c2,
      execOpcode 0 0x8AB4 sample_add = Ok c1
      /\ execOpcode 0 0x8AB5 c1 = Ok c2
      /\ reg c2 0xa = 200 /\ reg c1 0xf = 1 /\ reg c2 0xf = 0.
Proof.
  assert (wf sample_add) as Hwf by wf_by_compute.
  assert (opX 0x8AB4 <> opY 0x8AB4) as H1 by (vm_compute; discriminate).
  assert (opX 0x8AB4 <> 0xf) as H2 by (vm_compute; discriminate).
  assert (opY 0x8AB4 <> 0xf) as H3 by (vm_compute; discriminate).
  split; [exact Hwf|]. split; [exact H1|]. split; [exact H2|].
  split; [exact H3|].
  destruct (add_then_subtract 0 0 0x8AB4 0x8AB5 sample_add Hwf
              eq_refl eq_refl eq_refl eq_refl eq_refl eq_refl H1 H2 H3)
    as (c1 & c2 & Hadd & Hsub & Hregs & Hflag).
  exists c1, c2. split; [exact Hadd|]. split; [exact Hsub|].
  assert (reg c1 0xf = 1) as Hc.
  { revert Hadd. vm_compute. intros [= <-]. reflexivity. }
  split; [apply (Hregs 10); lia|]. split; [exact Hc|].
  rewrite Hflag, Hc. reflexivity.
Defined.

(** * Decimal digits, glyph addresses, random numbers *)

Lemma byte_set_history c h k a : byte (set_history h k c) a = byte c a.
Proof. reflexivity. Qed.

Lemma byte_set_mem c m a : byte (set_mem m c) a = default 0 (m !! Z.to_nat a).
Proof. reflexivity. Qed.

Lemma land_le_r a b : 0 <= b -> 0 <= Z.land a b <= b.
Proof.
  intros Hb. split; [apply Z.land_nonneg; by right|].
  assert (Z.ldiff (Z.land a b) b = 0) as Hd.
  { apply Z.bits_inj'. intros n Hn.
    rewrite Z.ldiff_spec, Z.land_spec, Z.bits_0.
    by destruct (Z.testbit a n), (Z.testbit b n). }
  pose proof (Z.sub_nocarry_ldiff b (Z.land a b) Hd) as Hs.
  assert (0 <= Z.ldiff b (Z.land a b)) by (apply Z.ldiff_nonneg; lia).
  lia.
Qed.

Lemma store_Panic {A} (a : list A) k e :
  Z.of_nat (length a) <= k -> store a k e = Panic.
Proof.
  intros Hk. unfold store.
  destruct (0 <=? k) eqn:E1, (k <? Z.of_nat (length a)) eqn:E2; simpl; done || lia.
Qed.

Section Fx.
Variables (rnd op : Z) (c : Chip8).
Hypothesis Hwf : wf c.

Lemma execOpcode_FX33 :
  opH op = 0xF000 -> opNN op = 0x33 -> i c + 2 <= 4095 ->
  execOpcode rnd op c
  = recordOp (u16 (pc c - 2)) op ("LD   B,V" +:+ fmtX 0 (opX op))
      (set_mem (<[Z.to_nat (i c + 2) := reg c (opX op) mod 10]>
                 (<[Z.to_nat (i c + 1) := reg c (opX op) mod 100 / 10]>
                    (<[Z.to_nat (i c) := reg c (opX op) / 100]> (mem c)))) c).
Proof using Hwf.
  intros Hfamily Hsub Hfit. pose proof (opX_range op) as HX.
  pose proof (wf_v_len c Hwf) as Hlen. pose proof (wf_mem_len c Hwf) as Hmem.
  pose proof (wf_i c Hwf) as Hi. unfold is_u16 in Hi.
  unfold execOpcode. cbv zeta. rewrite Hfamily, Hsub. dispatch.
  rewrite getV_Ok, bind_Ok by done.
  rewrite Z.add_0_r, (u16_id (i c)), (u16_id (i c + 1)), (u16_id (i c + 2))
    by (unfold is_u16; lia).
  rewrite (store_Ok (mem c)), bind_Ok by lia.
  rewrite store_Ok, bind_Ok by (rewrite length_insert; lia).
  rewrite store_Ok, bind_Ok by (rewrite !length_insert; lia).
  reflexivity.
Qed.

Lemma execOpcode_FX33_oob :
  opH op = 0xF000 -> opNN op = 0x33 -> 4095 < i c + 2 ->
  execOpcode rnd op c = Panic.
Proof using Hwf.
  intros Hfamily Hsub Hfit. pose proof (opX_range op) as HX.
  pose proof (wf_v_len c Hwf) as Hlen. pose proof (wf_mem_len c Hwf) as Hmem.
  pose proof (wf_i c Hwf) as Hi. unfold is_u16 in Hi.
  unfold execOpcode. cbv zeta. rewrite Hfamily, Hsub. dispatch.
  rewrite getV_Ok, bind_Ok by done. rewrite Z.add_0_r, (u16_id (i c)) by done.
  destruct (decide (4096 <= i c)) as [Hbig|Hsmall].
  { by rewrite (store_Panic (mem c)) by lia. }
  rewrite (store_Ok (mem c)), bind_Ok by lia.
  rewrite (u16_id (i c + 1)) by (unfold is_u16; lia).
  destruct (decide (i c = 4095)) as [Hlast|Hprev].
  { by rewrite store_Panic by (rewrite length_insert; lia). }
  rewrite store_Ok, bind_Ok by (rewrite length_insert; lia).
  rewrite (u16_id (i c + 2)) by (unfold is_u16; lia).
  by rewrite store_Panic by (rewrite !length_insert; lia).
Qed.


Lemma execOpcode_CXNN :
  opH op = 0xC000 ->
  execOpcode rnd op c
  = recordOp (u16 (pc c - 2)) op
      ("RND  V" +:+ fmtX 0 (opX op) +:+ ",#" +:+ fmtX 2 (opNN op))
      (set_v (<[Z.to_nat (opX op) := Z.land rnd (opNN op)]> (v c)) c).
Proof using Hwf.
  intros Hfamily. pose proof (opX_range op) as HX.
  pose proof (opNN_range op) as HNN.
  pose proof (wf_v_len c Hwf) as Hlen.
  pose proof (land_le_r rnd (opNN op) ltac:(unfold is_u8 in HNN; lia)) as Hl.
  unfold execOpcode. cbv zeta. rewrite Hfamily. dispatch.
  rewrite (u8_id (Z.land rnd (opNN op))) by (unfold is_u8 in *; lia).
  by rewrite setV_Ok, bind_Ok by done.
Qed.

Lemma execOpcode_FX15 :
  opH op = 0xF000 -> opNN op = 0x15 ->
  execOpcode rnd op c
  = recordOp (u16 (pc c - 2)) op ("LD   DT,V" +:+ fmtX 0 (opX op))
      (set_dt (reg c (opX op)) c).
Proof using Hwf.
  intros Hfamily Hsub. pose proof (opX_range op) as HX.
  pose proof (wf_v_len c Hwf) as Hlen.
  unfold execOpcode. cbv zeta. rewrite Hfamily, Hsub. dispatch.
  by rewrite getV_Ok, bind_Ok by done.
Qed.

Lemma execOpcode_FX18 :
  opH op = 0xF000 -> opNN op = 0x18 ->
  execOpcode rnd op c
  = recordOp (u16 (pc c - 2)) op ("LD   ST,V" +:+ fmtX 0 (opX op))
      (set_st (reg c (opX op)) c).
Proof using Hwf.
  intros Hfamily Hsub. pose proof (opX_range op) as HX.
  pose proof (wf_v_len c Hwf) as Hlen.
  unfold execOpcode. cbv zeta. rewrite Hfamily, Hsub. dispatch.
  by rewrite getV_Ok, bind_Ok by done.
Qed.

Lemma execOpcode_FX07 :
  opH op = 0xF000 -> opNN op = 0x07 ->
  execOpcode rnd op c
  = recordOp (u16 (pc c - 2)) op ("LD   V" +:+ fmtX 0 (opX op) +:+ ",DT")
      (set_v (<[Z.to_nat (opX op) := dt c]> (v c)) c).
Proof using Hwf.
  intros Hfamily Hsub. pose proof (opX_range op) as HX.
  pose proof (wf_v_len c Hwf) as Hlen.
  unfold execOpcode. cbv zeta. rewrite Hfamily, Hsub. dispatch.
  by rewrite setV_Ok, bind_Ok by done.
Qed.
End Fx.

(** X10: FX33 stores the three decimal digits of VX, most significant
    first, at I, I+1 and I+2: each stored byte is a digit, the hundreds
    digit is at most 2, and the digits put together give VX back.  No other
    memory byte changes, nor does a register or I.  When I + 2 lies beyond
    the last byte of memory the instruction panics. *)
Theorem bcd_digits rnd op c :
  wf c -> opH op = 0xF000 -> opNN op = 0x33 ->
  (i c + 2 <= 4095 ->
   exists c',
     execOpcode rnd op c = Ok c'
     /\ 0 <= byte c' (i c) <= 2
     /\ 0 <= byte c' (i c + 1) <= 9
     /\ 0 <= byte c' (i c + 2) <= 9
     /\ 100 * byte c' (i c) + 10 * byte c' (i c + 1) + byte c' (i c + 2)
        = reg c (opX op)
     /\ (forall a, 0 <= a -> a < i c \/ i c + 2 < a -> byte c' a = byte c a)
     /\ v c' = v c /\ i c' = i c)
  /\ (4095 < i c + 2 -> execOpcode rnd op c = Panic).
Proof.
  intros Hwf Hfamily Hsub. split; [|by apply execOpcode_FX33_oob].
  intros Hfit. pose proof (wf_mem_len c Hwf) as Hmem.
  pose proof (wf_i c Hwf) as Hi. unfold is_u16 in Hi.
  pose proof (reg_range c (opX op) Hwf) as Hr. unfold is_u8 in Hr.
  rewrite execOpcode_FX33, recordOp_Ok by (done || apply Hwf).
  eexists. split; [reflexivity|].
  rewrite !byte_set_history, !byte_set_mem.
  rewrite list_lookup_insert_eq by (rewrite !length_insert; lia).
  rewrite (list_lookup_insert_ne _ _ (Z.to_nat (i c + 1))) by lia.
  rewrite list_lookup_insert_eq by (rewrite !length_insert; lia).
  rewrite (list_lookup_insert_ne _ _ (Z.to_nat (i c))) by lia.
  rewrite (list_lookup_insert_ne _ _ (Z.to_nat (i c))) by lia.
  rewrite list_lookup_insert_eq by lia.
  cbn [default from_option]. unfold id.
  set (r := reg c (opX op)) in *.
  pose proof (Z.div_mod r 100 ltac:(lia)) as H100.
  pose proof (Z.mod_pos_bound r 100 ltac:(lia)) as Hm100.
  pose proof (Z.div_mod (r mod 100) 10 ltac:(lia)) as H10.
  pose proof (Z.mod_pos_bound (r mod 100) 10 ltac:(lia)) as Hm10.
  assert (r mod 100 mod 10 = r mod 10) as Hmm.
  { apply (Z.mod_unique r 10 (10 * (r / 100) + r mod 100 / 10)); lia. }
  assert (0 <= r / 100 <= 2)
    by (split; [apply Z.div_pos; lia|apply Z.lt_succ_r, Z.div_lt_upper_bound; lia]).
  assert (0 <= r mod 100 / 10 <= 9)
    by (split; [apply Z.div_pos; lia|apply Z.lt_succ_r, Z.div_lt_upper_bound; lia]).
  repeat split; try lia; try reflexivity.
  intros a Ha Hout. rewrite byte_set_history, byte_set_mem.
  by rewrite !list_lookup_insert_ne by lia.
Qed.

Lemma bcd_digits_witness :
  wf (set_i 0x300 (fetched [0xF4; 0x33] (<[4%nat := 254]> noRegs)))
  /\ exists c',
      execOpcode 0 0xF433
        (set_i 0x300 (fetched [0xF4; 0x33] (<[4%nat := 254]> noRegs))) = Ok c'
      /\ byte c' 0x300 = 2 /\ byte c' 0x301 = 5 /\ byte c' 0x302 = 4.
Proof.
  assert (wf (set_i 0x300 (fetched [0xF4; 0x33] (<[4%nat := 254]> noRegs))))
    as Hwf by wf_by_compute.
  split; [exact Hwf|].
  destruct (bcd_digits 0 0xF433 _ Hwf eq_refl eq_refl) as [Hin _].
  destruct Hin as (c' & Hexec & _); [vm_compute; discriminate|].
  exists c'. split; [exact Hexec|].
  revert Hexec. vm_compute. intros [= <-]. repeat split; reflexivity.
Defined.



(** X12: CXNN leaves in VX the random number masked by NN: every bit that
    is clear in NN is clear in VX, so VX is at most NN, and the low byte of
    the random number decides the rest.  No other register changes. *)
Theorem random_mask rnd op c :
  wf c -> opH op = 0xC000 -> 0 <= rnd < 2 ^ 32 ->
  exists c',
    execOpcode rnd op c = Ok c'
    /\ reg c' (opX op) = Z.land rnd (opNN op)
    /\ reg c' (opX op) = Z.land (rnd mod 256) (opNN op)
    /\ 0 <= reg c' (opX op) <= opNN op
    /\ (forall b, Z.testbit (opNN op) b = false ->
                  Z.testbit (reg c' (opX op)) b = false)
    /\ (forall k, k <> opX op -> 0 <= k -> reg c' k = reg c k).
Proof.
  intros Hwf Hfamily Hrnd. pose proof (opX_range op) as HX.
  pose proof (opNN_range op) as HNN. unfold is_u8 in HNN.
  pose proof (wf_v_len c Hwf) as Hlen.
  rewrite execOpcode_CXNN, recordOp_Ok by (done || apply Hwf).
  eexists. split; [reflexivity|].
  rewrite !reg_set_history, !reg_set_v.
  rewrite list_lookup_insert_eq by lia. cbn [default from_option]. unfold id.
  split; [done|]. split; [|split; [|split]].
  - apply Z.bits_inj'. intros n Hn. rewrite !Z.land_spec.
    destruct (decide (n < 8)) as [Hlt|Hge].
    + change 256 with (2 ^ 8). by rewrite Z.mod_pow2_bits_low by lia.
    + assert (Z.testbit (opNN op) n = false) as ->; [|by rewrite !andb_false_r].
      destruct (decide (opNN op = 0)) as [->|Hnz]; [apply Z.bits_0|].
      apply Z.bits_above_log2; [lia|].
      assert (Z.log2 (opNN op) < 8); [|lia].
      apply Z.log2_lt_pow2; [lia|]. change (2 ^ 8) with 256. lia.
  - apply land_le_r. lia.
  - intros b Hb. by rewrite Z.land_spec, Hb, andb_false_r.
  - intros k Hne Hk. rewrite reg_set_history, reg_set_v.
    by rewrite list_lookup_insert_ne by lia.
Qed.

Lemma random_mask_witness :
  wf (fetched [0xC5; 0x0F] noRegs)
  /\ 0 <= 0xDEADBEEF < 2 ^ 32
  /\ exists c',
      execOpcode 0xDEADBEEF 0xC50F (fetched [0xC5; 0x0F] noRegs) = Ok c'
      /\ reg c' 5 = 0xF.
Proof.
  assert (wf (fetched [0xC5; 0x0F] noRegs)) as Hwf by wf_by_compute.
  assert (0 <= 0xDEADBEEF < 2 ^ 32) as Hrnd by (vm_compute; split; discriminate || reflexivity).
  split; [exact Hwf|]. split; [exact Hrnd|].
  destruct (random_mask 0xDEADBEEF 0xC50F _ Hwf eq_refl Hrnd)
    as (c' & Hexec & Hreg & _).
  exists c'. split; [exact Hexec|]. exact Hreg.
Defined.

(** X13: the delay timer as a program sees it.  FX15 loads the timer from
    VX; after [n] ticks FY07 reads back VX - n, or 0 once the timer has run
    out; the ticks in between touch nothing but the two timers. *)
Theorem delay_timer_readback rnd rnd' op op' n c :
  wf c ->
  opH op = 0xF000 -> opNN op = 0x15 ->
  opH op' = 0xF000 -> opNN op' = 0x07 ->
  exists c1 c2,
    execOpcode rnd op c = Ok c1
    /\ dt c1 = reg c (opX op)
    /\ set_st 0 (set_dt 0 (Nat.iter n decrementTimer c1)) = set_st 0 (set_dt 0 c1)
    /\ execOpcode rnd' op' (Nat.iter n decrementTimer c1) = Ok c2
    /\ reg c2 (opX op') = Z.max 0 (reg c (opX op) - Z.of_nat n).
Proof.
  intros Hwf Hf Hs Hf' Hs'. pose proof (opX_range op') as HX'.
  pose proof (reg_range c (opX op) Hwf) as Hr.
  assert (exists c1, execOpcode rnd op c = Ok c1 /\ dt c1 = reg c (opX op))
    as (c1 & Hexec & Hdt).
  { rewrite execOpcode_FX15, recordOp_Ok by (done || apply Hwf).
    eexists. split; reflexivity. }
  assert (wf c1) as Hwf1 by exact (execOpcode_Ok_wf rnd op c c1 Hwf Hexec).
  assert (wf (Nat.iter n decrementTimer c1)) as Hwfn.
  { induction n as [|n IH]; [done|]. rewrite Nat.iter_succ.
    by apply wf_decrementTimer. }
  destruct (decrementTimer_iter c1 n) as [Hdtn _]; [apply Hwf1..|].
  exists c1. eexists. split; [exact Hexec|]. split; [exact Hdt|]. split.
  - clear Hwfn Hdtn. induction n as [|n IH]; [done|].
    rewrite Nat.iter_succ. rewrite <- IH. unfold decrementTimer.
    by repeat case_match.
  - rewrite (execOpcode_FX07 rnd' op' _ Hwfn Hf' Hs'), recordOp_Ok by apply Hwfn.
    split; [reflexivity|].
    rewrite reg_set_history, reg_set_v.
    rewrite list_lookup_insert_eq by (rewrite (wf_v_len _ Hwfn); lia).
    cbn [default from_option]. unfold id. by rewrite Hdtn, Hdt.
Qed.

Lemma delay_timer_readback_witness :
  wf (fetched [0xF1; 0x15] (<[1%nat := 3]> noRegs))
  /\ exists c1 c2,
      execOpcode 0 0xF115 (fetched [0xF1; 0x15] (<[1%nat := 3]> noRegs)) = Ok c1
      /\ execOpcode 0 0xF207 (Nat.iter 2 decrementTimer c1) = Ok c2
      /\ reg c2 2 = 1.
Proof.
  assert (wf (fetched [0xF1; 0x15] (<[1%nat := 3]> noRegs)))
    as Hwf by wf_by_compute.
  split; [exact Hwf|].
  destruct (delay_timer_readback 0 0 0xF115 0xF207 2 _ Hwf
              eq_refl eq_refl eq_refl eq_refl)
    as (c1 & c2 & Hset & _ & _ & Hget & Hreg).
  exists c1, c2. split; [exact Hset|]. split; [exact Hget|]. exact Hreg.
Defined.

(** * What an instruction leaves alone *)

Ltac post_run :=
  wf_run; try done;
  unfold copy_at, copy_upto;
  repeat match goal with
    | |- post _ (_ ≫= _) => apply post_bind
    | |- post _ (store _ _ _) => apply post_store
    | |- post _ (slice_to _ _) => apply post_slice_to; intros _
    | |- post _ (slice_from _ _) => apply post_slice_from; intros _
    | |- post _ (Ok _) => apply post_Ok
    end.

Ltac project :=
  cbn [fst snd mem pc v i dt st sp stack keys disp ophistory ophistoryIndex
       set_mem set_pc set_v set_i set_dt set_st set_sp set_stack set_keys
       set_disp set_history].

(** Replaces the intermediate states by what they are in terms of the
    state at entry, as far as the other components are concerned. *)
Ltac unframe :=
  unfold skipIf; repeat case_match;
  repeat (project;
          match goal with
          | H : ?c1 = _ |- context [?c1] => rewrite H; clear H
          end);
  project.

Ltac frame_side :=
  first [ reflexivity
        | apply Z.eqb_eq; assumption
        | split; frame_side
        | left; frame_side
        | right; frame_side ].

(** X14: the parts of the state each instruction can write.  The keypad
    is written by none; memory only by FX33 and FX55; the framebuffer only
    by 00E0 and DXYN; the stack and its pointer only by 2NNN and 00EE; I
    only by ANNN, FX1E and FX29; the registers by no jump, call, return,
    skip, or timer, index or memory store. *)
Theorem execOpcode_frame rnd op c c' :
  wf c -> execOpcode rnd op c = Ok c' ->
  keys c' = keys c
  /\ (mem c' = mem c \/ (opH op = 0xF000 /\ (opNN op = 0x33 \/ opNN op = 0x55)))
  /\ (disp c' = disp c \/ op = 0x00E0 \/ opH op = 0xD000)
  /\ (stack c' = stack c \/ opH op = 0x2000)
  /\ (sp c' = sp c \/ op = 0x00EE \/ opH op = 0x2000)
  /\ (i c' = i c
      \/ opH op = 0xA000
      \/ (opH op = 0xF000 /\ (opNN op = 0x1E \/ opNN op = 0x29)))
  /\ (v c' = v c
      \/ opH op = 0x6000 \/ opH op = 0x7000 \/ opH op = 0x8000
      \/ opH op = 0xC000 \/ opH op = 0xD000
      \/ (opH op = 0xF000
          /\ (opNN op = 0x07 \/ opNN op = 0x0A \/ opNN op = 0x65))).
Proof.
  intros Hwf Hexec.
  assert (post (fun c' =>
    keys c' = keys c
    /\ (mem c' = mem c \/ (opH op = 0xF000 /\ (opNN op = 0x33 \/ opNN op = 0x55)))
    /\ (disp c' = disp c \/ op = 0x00E0 \/ opH op = 0xD000)
    /\ (stack c' = stack c \/ opH op = 0x2000)
    /\ (sp c' = sp c \/ op = 0x00EE \/ opH op = 0x2000)
    /\ (i c' = i c
        \/ opH op = 0xA000
        \/ (opH op = 0xF000 /\ (opNN op = 0x1E \/ opNN op = 0x29)))
    /\ (v c' = v c
        \/ opH op = 0x6000 \/ opH op = 0x7000 \/ opH op = 0x8000
        \/ opH op = 0xC000 \/ opH op = 0xD000
        \/ (opH op = 0xF000
            /\ (opNN op = 0x07 \/ opNN op = 0x0A \/ opNN op = 0x65))))
    (execOpcode rnd op c)) as Hpost; [|by rewrite Hexec in Hpost].
  clear Hexec. unfold execOpcode. cbv zeta. apply post_bind.
  match goal with
  | |- post (fun a => post ?Q (recordOp _ _ (snd a) (fst a))) _ =>
      apply (post_mono (fun r => Q (fst r)))
  end.
  { intros [c1 m] Hc1. unfold recordOp. apply post_bind, post_store. exact Hc1. }
  post_run.
  all: unframe.
  all: frame_side.
Qed.

Lemma execOpcode_frame_witness :
  wf sample_add
  /\ exists c',
      execOpcode 0 0x8AB4 sample_add = Ok c'
      /\ keys c' = keys sample_add /\ mem c' = mem sample_add
      /\ disp c' = disp sample_add /\ i c' = i sample_add.
Proof.
  assert (wf sample_add) as Hwf by wf_by_compute.
  split; [exact Hwf|].
  assert (exists c', execOpcode 0 0x8AB4 sample_add = Ok c') as [c' Hexec]
    by (eexists; vm_compute; reflexivity).
  exists c'. split; [exact Hexec|].
  destruct (execOpcode_frame 0 0x8AB4 sample_add c' Hwf Hexec)
    as (Hkeys & Hmem & Hdisp & _ & _ & Hi & _).
  split; [exact Hkeys|].
  split; [destruct Hmem as [Hmem|[_ [E|E]]];
          [exact Hmem|vm_compute in E; discriminate..]|].
  split; [destruct Hdisp as [Hdisp|[E|E]];
          [exact Hdisp|vm_compute in E; discriminate..]|].
  destruct Hi as [Hi|[E|[_ [E|E]]]]; [exact Hi|vm_compute in E; discriminate..].
Defined.

(** * The trace of executed instructions *)

(** X15: the trace is a ring of 16 lines.  An instruction that returns
    writes one line, at the write index, made of the address the
    instruction was fetched from, the opcode and a mnemonic; it leaves the
    other 15 lines alone and moves the index on by one, from 15 back to 0. *)
Theorem trace_ring rnd op c c' :
  wf c -> execOpcode rnd op c = Ok c' ->
  ophistoryIndex c' = (ophistoryIndex c + 1) mod 16
  /\ length (ophistory c') = 16%nat
  /\ (exists m,
        ophistory c' !! Z.to_nat (ophistoryIndex c)
        = Some (fmtX 3 (u16 (pc c - 2)) +:+ "-" +:+ fmtX 4 op +:+ " " +:+ m))
  /\ (forall k, k <> Z.to_nat (ophistoryIndex c) ->
                ophistory c' !! k = ophistory c !! k).
Proof.
  intros Hwf Hexec.
  pose proof (wf_hist_len c Hwf) as Hlen. pose proof (wf_hist_idx c Hwf) as Hidx.
  assert (post (fun c' =>
    ophistoryIndex c' = (ophistoryIndex c + 1) mod 16
    /\ length (ophistory c') = 16%nat
    /\ (exists m,
          ophistory c' !! Z.to_nat (ophistoryIndex c)
          = Some (fmtX 3 (u16 (pc c - 2)) +:+ "-" +:+ fmtX 4 op +:+ " " +:+ m))
    /\ (forall k, k <> Z.to_nat (ophistoryIndex c) ->
                  ophistory c' !! k = ophistory c !! k))
    (execOpcode rnd op c)) as Hpost; [|by rewrite Hexec in Hpost].
  clear Hexec. unfold execOpcode. cbv zeta. apply post_bind.
  apply (post_mono (fun r => ophistory (fst r) = ophistory c
                             /\ ophistoryIndex (fst r) = ophistoryIndex c)).
  { intros [c1 m] [Hh Hk]. cbn [fst snd] in *.
    unfold recordOp. apply post_bind, post_store. simpl.
    rewrite Hh, Hk. split; [|split; [|split]].
    - unfold OpHistoryNum. rewrite Z.rem_mod_nonneg by lia. done.
    - by rewrite length_insert.
    - exists m. by rewrite list_lookup_insert_eq by lia.
    - intros k Hne. by rewrite list_lookup_insert_ne by done. }
  post_run.
  all: unframe.
  all: by split.
Qed.

Lemma trace_ring_witness :
  wf sample_add
  /\ exists c',
      execOpcode 0 0x8AB4 sample_add = Ok c'
      /\ ophistoryIndex c' = 1
      /\ ophistory c' !! 0%nat = Some "200-8AB4 ADD  VA,VB".
Proof.
  assert (wf sample_add) as Hwf by wf_by_compute.
  split; [exact Hwf|].
  assert (exists c', execOpcode 0 0x8AB4 sample_add = Ok c') as [c' Hexec]
    by (eexists; vm_compute; reflexivity).
  exists c'. split; [exact Hexec|].
  destruct (trace_ring 0 0x8AB4 sample_add c' Hwf Hexec) as (Hidx & _ & _ & _).
  split; [exact Hidx|].
  revert Hexec. vm_compute. intros [= <-]. reflexivity.
Defined.

Ltac case_step H K c :=
  match goal with
  | |- context [store H K ?l] => rewrite (store_Ok H K l) by lia
  | |- context [store (ophistory c) (ophistoryIndex c) ?l] =>
      rewrite (store_Ok (ophistory c) (ophistoryIndex c) l) by lia
  | |- context [if ?b then _ else _] => destruct b
  | |- context [mbind _ (index ?a ?k)] => destruct (index a k)
  | |- context [mbind _ (store ?a ?k ?e)] => destruct (store a k e)
  | |- context [mbind _ (slice_from ?a ?k)] => destruct (slice_from a k)
  | |- context [mbind _ (slice_to ?a ?k)] => destruct (slice_to a k)
  | |- context [mbind _ (for_each ?ks ?f ?s)] => destruct (for_each ks f s)
  end;
  cbn [mbind result_bind]; project.

(** X16: the trace is written and never read.  Two states that differ
    only in the trace (its lines and its write index) run every instruction
    to the same outcome: the same panic, the same fatal message, or states
    that again differ only in the trace. *)
Theorem trace_not_read rnd op c (H : list string) (K : Z) :
  wf c -> length H = 16%nat -> 0 <= K < 16 ->
  (c1 ← execOpcode rnd op (set_history H K c); Ok (set_history [] 0 c1))
  = (c1 ← execOpcode rnd op c; Ok (set_history [] 0 c1)).
Proof.
  intros Hwf HH HK.
  pose proof (wf_hist_len c Hwf) as Hlen. pose proof (wf_hist_idx c Hwf) as Hidx.
  assert (0 <= K < Z.of_nat (length H)) by (rewrite HH; lia).
  assert (0 <= ophistoryIndex c < Z.of_nat (length (ophistory c)))
    by (rewrite Hlen; lia).
  unfold execOpcode, recordOp, getV, setV, updateCarryFlag, pushStack,
    popStack, draw, pressedAnyKey, skipIf, copy_at, copy_upto.
  cbv zeta. project.
  repeat case_step H K c.
  all: reflexivity.
Qed.

Lemma trace_not_read_witness :
  wf sample_add
  /\ (c1 ← execOpcode 0 0x8AB4 (set_history (replicate 16 "x") 7 sample_add);
      Ok (set_history [] 0 c1))
     = (c1 ← execOpcode 0 0x8AB4 sample_add; Ok (set_history [] 0 c1)).
Proof.
  assert (wf sample_add) as Hwf by wf_by_compute.
  split; [exact Hwf|].
  apply (trace_not_read 0 0x8AB4 sample_add (replicate 16 "x") 7 Hwf);
    [reflexivity|lia].
Defined.

(** * Drawing a sprite twice *)

(** Two framebuffers with the same cells are the same list. *)
Lemma cells_eq (d d' : list Z) :
  length d = 2048%nat -> length d' = 2048%nat ->
  (forall cx cy, 0 <= cx < 64 -> 0 <= cy < 32 -> cellAt d cx cy = cellAt d' cx cy) ->
  d = d'.
Proof.
  intros Hd Hd' Hcells. apply list_eq. intros j.
  destruct (decide (j < 2048)%nat) as [Hj|Hj];
    [|by rewrite !lookup_ge_None_2 by lia].
  specialize (Hcells (Z.of_nat j mod 64) (Z.of_nat j / 64)).
  unfold cellAt, Chip8DisplayW in Hcells.
  rewrite (Z.mul_comm _ 64), <- Z.div_mod, Nat2Z.id in Hcells by lia.
  destruct (lookup_lt_is_Some_2 d j) as [e He]; [lia|].
  destruct (lookup_lt_is_Some_2 d' j) as [e' He']; [lia|].
  rewrite He, He' in *. simpl in Hcells. f_equal. apply Hcells.
  - apply Z.mod_pos_bound. lia.
  - split; [apply Z.div_pos; lia|apply Z.div_lt_upper_bound; lia].
Qed.

Lemma lxor_twice a b : Z.lxor (Z.lxor a b) b = a.
Proof. by rewrite Z.lxor_assoc, Z.lxor_nilpotent, Z.lxor_0_r. Qed.

Lemma lxor_one_one a : Z.lxor a 1 = 1 <-> a = 0.
Proof.
  split; [|by intros ->]. intros H.
  rewrite <- (lxor_twice a 1), H. reflexivity.
Qed.

(** X17: drawing the same sprite twice at the same place restores the
    framebuffer cell for cell, whatever it held.  (The selectors are not
    0xF, so the flag written by the first draw does not move the sprite.)
    The second draw reports a collision exactly when the first one lit a
    cell that was dark. *)
Theorem draw_twice_restores rnd rnd' op c :
  wf c -> opH op = 0xD000 -> i c + opN op <= 4096 ->
  opX op <> 0xf -> opY op <> 0xf ->
  let x := reg c (opX op) in
  let y := reg c (opY op) in
  let n := opN op in
  exists c1 c2,
    execOpcode rnd op c = Ok c1
    /\ execOpcode rnd' op c1 = Ok c2
    /\ disp c2 = disp c
    /\ (reg c2 0xf = 1 <->
        exists cx cy, 0 <= cx < 64 /\ 0 <= cy < 32 /\ in_sprite x y n cx cy
                      /\ pixel c cx cy = 0
                      /\ spriteBit c (cy - y) (cx - x) = 1).
Proof.
  intros Hwf Hh Hfits HX HY x y n.
  pose proof (opX_range op) as HXr. pose proof (opY_range op) as HYr.
  pose proof (wf_i c Hwf) as Hi. unfold is_u16 in Hi.
  pose proof (wf_v_len c Hwf) as Hlen.
  destruct (execOpcode_DXYN rnd op c Hwf Hh Hfits)
    as (acc1 & (Hlen1 & Hcells1 & _) & Hexec1).
  fold x y n in Hcells1.
  rewrite recordOp_Ok in Hexec1 by apply Hwf.
  match type of Hexec1 with _ = Ok ?s => set (c1 := s) in * end.
  assert (wf c1) as Hwf1 by exact (execOpcode_Ok_wf rnd op c c1 Hwf Hexec1).
  assert (reg c1 (opX op) = x) as Hx1.
  { unfold reg, c1. cbn [v set_history set_v set_disp].
    by rewrite list_lookup_insert_ne by lia. }
  assert (reg c1 (opY op) = y) as Hy1.
  { unfold reg, c1. cbn [v set_history set_v set_disp].
    by rewrite list_lookup_insert_ne by lia. }
  destruct (execOpcode_DXYN rnd' op c1 Hwf1 Hh Hfits)
    as (acc2 & (Hlen2 & Hcells2 & Hflag2) & Hexec2).
  rewrite Hx1, Hy1 in Hcells2, Hflag2.
  change (mem c1) with (mem c) in *. change (i c1) with (i c) in *.
  change (disp c1) with (fst acc1) in *.
  fold n in Hcells2, Hflag2.
  rewrite recordOp_Ok in Hexec2 by apply Hwf1.
  exists c1. eexists. split; [exact Hexec1|]. split; [exact Hexec2|].
  assert (forall cx cy, drawn x y n 0 cx cy <-> in_sprite x y n cx cy) as Hin
    by (intros cx cy; unfold drawn, in_sprite; lia).
  split.
  - cbn [disp set_history set_v set_disp].
    apply cells_eq; [done|apply Hwf|].
    intros cx cy Hcx Hcy.
    destruct (Hcells1 cx cy Hcx Hcy) as [Hin1 Hout1].
    destruct (Hcells2 cx cy Hcx Hcy) as [Hin2 Hout2].
    destruct (decide (drawn x y n 0 cx cy)) as [Hd|Hd].
    + by rewrite Hin2, Hin1, lxor_twice.
    + by rewrite Hout2, Hout1.
  - unfold reg at 1. cbn [v set_history set_v].
    change (Z.to_nat 15) with 15%nat.
    rewrite list_lookup_insert_eq by (rewrite (wf_v_len c1 Hwf1); lia).
    cbn [default from_option]. unfold id.
    assert ((if snd acc2 then 1 else 0) = 1 <-> snd acc2 = true) as ->
      by (destruct (snd acc2); split; done).
    rewrite Hflag2.
    split; intros (cx & cy & Hcx & Hcy & Hd & Hone & Hbit);
      exists cx, cy; (split; [done|]); (split; [done|]).
    + apply Hin in Hd. split; [done|].
      destruct (Hcells1 cx cy Hcx Hcy) as [Hin1 _].
      rewrite Hin1, Hbit in Hone by (by apply Hin).
      apply lxor_one_one in Hone.
      split; [done|].
      by rewrite <- rowBit_spriteBit by (unfold in_sprite in Hd; lia).
    + split; [by apply Hin|].
      rewrite <- rowBit_spriteBit in Hbit by (unfold in_sprite in Hd; lia).
      destruct (Hcells1 cx cy Hcx Hcy) as [Hin1 _].
      rewrite Hin1 by (by apply Hin). unfold pixel in Hone.
      rewrite Hone, Hbit. done.
Qed.

Lemma draw_twice_restores_witness :
  wf sample_draw /\ i sample_draw + opN 0xD125 <= 4096
  /\ opX 0xD125 <> 0xf /\ opY 0xD125 <> 0xf
  /\ exists c1 c2,
      execOpcode 0 0xD125 sample_draw = Ok c1
      /\ execOpcode 0 0xD125 c1 = Ok c2
      /\ pixel c1 60 30 = 1
      /\ disp c2 = disp sample_draw.
Proof.
  assert (wf sample_draw) as Hwf by wf_by_compute.
  assert (i sample_draw + opN 0xD125 <= 4096) as Hfits
    by (vm_compute; discriminate).
  assert (opX 0xD125 <> 0xf) as HX by (vm_compute; discriminate).
  assert (opY 0xD125 <> 0xf) as HY by (vm_compute; discriminate).
  split; [exact Hwf|]. split; [exact Hfits|]. split; [exact HX|].
  split; [exact HY|].
  destruct (draw_twice_restores 0 0 0xD125 sample_draw Hwf eq_refl Hfits HX HY)
    as (c1 & c2 & Hexec1 & Hexec2 & Hdisp & _).
  exists c1, c2. split; [exact Hexec1|]. split; [exact Hexec2|].
  split; [|exact Hdisp].
  revert Hexec1. vm_compute. intros [= <-]. reflexivity.
Defined.

(** * The trace panel *)

(** The trace after an instruction that returns. *)
Lemma execOpcode_history rnd op c c' :
  wf c -> execOpcode rnd op c = Ok c' ->
  exists m,
    ophistory c'
    = <[Z.to_nat (ophistoryIndex c)
        := fmtX 3 (u16 (pc c - 2)) +:+ "-" +:+ fmtX 4 op +:+ " " +:+ m]>
        (ophistory c)
    /\ ophistoryIndex c' = (ophistoryIndex c + 1) mod 16.
Proof.
  intros Hwf Hexec.
  pose proof (wf_hist_idx c Hwf) as Hidx.
  assert (post (fun c' => exists m,
    ophistory c'
    = <[Z.to_nat (ophistoryIndex c)
        := fmtX 3 (u16 (pc c - 2)) +:+ "-" +:+ fmtX 4 op +:+ " " +:+ m]>
        (ophistory c)
    /\ ophistoryIndex c' = (ophistoryIndex c + 1) mod 16)
    (execOpcode rnd op c)) as Hpost; [|by rewrite Hexec in Hpost].
  clear Hexec. unfold execOpcode. cbv zeta. apply post_bind.
  apply (post_mono (fun r => ophistory (fst r) = ophistory c
                             /\ ophistoryIndex (fst r) = ophistoryIndex c)).
  { intros [c1 m] [Hh Hk]. cbn [fst snd] in *.
    unfold recordOp. apply post_bind, post_store. simpl.
    rewrite Hh, Hk. exists m. split; [done|].
    unfold OpHistoryNum. by rewrite Z.rem_mod_nonneg by lia. }
  post_run.
  all: unframe.
  all: by split.
Qed.

(** X24: the trace panel scrolls.  [drawDebugInfo] shows the sixteen
    trace lines starting at the write index, that is oldest first.  After
    an instruction the bottom line is that instruction's record and every
    other line has moved up by one. *)
Theorem trace_panel_scrolls rnd op c c' :
  wf c -> execOpcode rnd op c = Ok c' ->
  (exists m,
     historyLine c' 15
     = Ok (fmtX 3 (u16 (pc c - 2)) +:+ "-" +:+ fmtX 4 op +:+ " " +:+ m))
  /\ (forall k, 0 <= k < 15 -> historyLine c' k = historyLine c (k + 1)).
Proof.
  intros Hwf Hexec.
  pose proof (wf_hist_len c Hwf) as Hlen. pose proof (wf_hist_idx c Hwf) as Hidx.
  destruct (execOpcode_history rnd op c c' Hwf Hexec) as (m & Hh & Hk).
  unfold historyLine, OpHistoryNum. rewrite Hh, Hk.
  assert (forall z, 0 <= z -> Z.rem z 16 = z mod 16) as Hrem
    by (intros z Hz; apply Z.rem_mod_nonneg; lia).
  pose proof (Z.mod_pos_bound (ophistoryIndex c + 1) 16 ltac:(lia)) as Hb.
  split.
  - exists m. rewrite Hrem by lia.
    rewrite Zplus_mod_idemp_l.
    replace (ophistoryIndex c + 1 + 15) with (ophistoryIndex c + 1 * 16) by lia.
    rewrite Z.mod_add, Z.mod_small by lia.
    apply index_Ok; [lia|]. by rewrite list_lookup_insert_eq by lia.
  - intros k Hkr. rewrite !Hrem by lia. rewrite Zplus_mod_idemp_l.
    replace (ophistoryIndex c + 1 + k) with (ophistoryIndex c + (k + 1)) by lia.
    pose proof (Z.mod_pos_bound (ophistoryIndex c + (k + 1)) 16 ltac:(lia)) as Hj.
    assert ((ophistoryIndex c + (k + 1)) mod 16 <> ophistoryIndex c) as Hne.
    { intros Heq.
      pose proof (Z.div_mod (ophistoryIndex c + (k + 1)) 16 ltac:(lia)) as Hdm.
      rewrite Heq in Hdm. lia. }
    unfold index. case_match; [done|].
    by rewrite list_lookup_insert_ne by lia.
Qed.

Lemma trace_panel_scrolls_witness :
  wf sample_add
  /\ exists c',
      execOpcode 0 0x8AB4 sample_add = Ok c'
      /\ historyLine c' 15 = Ok "200-8AB4 ADD  VA,VB"
      /\ historyLine c' 14 = historyLine sample_add 15.
Proof.
  assert (wf sample_add) as Hwf by wf_by_compute.
  split; [exact Hwf|].
  assert (exists c', execOpcode 0 0x8AB4 sample_add = Ok c') as [c' Hexec]
    by (eexists; vm_compute; reflexivity).
  exists c'. split; [exact Hexec|].
  destruct (trace_panel_scrolls 0 0x8AB4 sample_add c' Hwf Hexec)
    as [_ Hup].
  split; [|apply (Hup 14); lia].
  revert Hexec. vm_compute. intros [= <-]. reflexivity.
Defined.

(** * Jumps *)

Section Jumps.
Variables (rnd op : Z) (c : Chip8).
Hypothesis Hwf : wf c.

Lemma execOpcode_1NNN :
  opH op = 0x1000 ->
  execOpcode rnd op c
  = recordOp (u16 (pc c - 2)) op ("GOTO " +:+ fmtX 3 (opNNN op))
      (set_pc (opNNN op) c).
Proof using Hwf.
  intros Hfamily. unfold execOpcode. cbv zeta. rewrite Hfamily. by dispatch.
Qed.

Lemma execOpcode_BNNN :
  opH op = 0xB000 ->
  execOpcode rnd op c
  = recordOp (u16 (pc c - 2)) op ("JP   V0,#" +:+ fmtX 4 (opNNN op))
      (set_pc (reg c 0 + opNNN op) c).
Proof using Hwf.
  intros Hfamily. pose proof (opNNN_range op) as HN.
  pose proof (reg_range c 0 Hwf) as Hr. unfold is_u8 in Hr.
  pose proof (wf_v_len c Hwf) as Hlen.
  unfold execOpcode. cbv zeta. rewrite Hfamily. dispatch.
  rewrite getV_Ok, bind_Ok by (done || lia).
  rewrite (u16_id (reg c 0)) by (unfold is_u16; lia).
  by rewrite (u16_id (reg c 0 + opNNN op)) by (unfold is_u16; lia).
Qed.
End Jumps.

(** X25: jumps.  1NNN sets the program counter to NNN and BNNN to
    V0 + NNN, which is at most 0x10FE and never wraps.  No jump is checked
    against the size of memory: the jump returns, and it is the next [step]
    that panics when the target is 0xFFF or beyond, where no two-byte
    instruction fits. *)
Theorem jump_targets rnd rnd' op c :
  wf c -> opH op = 0x1000 \/ opH op = 0xB000 ->
  let target := if opH op =? 0x1000 then opNNN op else reg c 0 + opNNN op in
  exists c',
    execOpcode rnd op c = Ok c'
    /\ pc c' = target
    /\ 0 <= target <= 0x10FE
    /\ (0xFFF <= target -> step rnd' c' = Panic)
    /\ (target < 0xFFF -> exists op' c'', fetchOpcode c' = Ok (op', c'')).
Proof.
  intros Hwf Hfamily. cbv zeta.
  pose proof (opNNN_range op) as HN.
  pose proof (reg_range c 0 Hwf) as Hr. unfold is_u8 in Hr.
  assert (exists c', execOpcode rnd op c = Ok c'
            /\ pc c' = (if opH op =? 0x1000 then opNNN op
                        else reg c 0 + opNNN op)) as (c' & Hexec & Hpc).
  { destruct Hfamily as [Hf|Hf]; rewrite Hf; dispatch;
      [rewrite execOpcode_1NNN by done|rewrite execOpcode_BNNN by done];
      rewrite recordOp_Ok by apply Hwf; eexists; split; reflexivity. }
  assert (wf c') as Hwf' by exact (execOpcode_Ok_wf rnd op c c' Hwf Hexec).
  exists c'. split; [exact Hexec|]. split; [exact Hpc|].
  rewrite <- Hpc. split.
  - rewrite Hpc. case_match; lia.
  - split.
    + intros Hout. unfold step. by rewrite fetchOpcode_end by (done || lia).
    + intros Hin. pose proof (wf_mem_len c' Hwf') as Hlen.
      assert (0 <= pc c') by (rewrite Hpc; case_match; lia).
      destruct (lookup_lt_is_Some_2 (mem c') (Z.to_nat (pc c'))) as [h Hh];
        [lia|].
      destruct (lookup_lt_is_Some_2 (mem c') (Z.to_nat (pc c' + 1))) as [l Hl];
        [lia|].
      unfold fetchOpcode.
      rewrite (u16_id (pc c' + 1)) by (unfold is_u16; lia).
      rewrite (index_Ok _ (pc c') h), bind_Ok by (done || lia).
      rewrite (index_Ok _ (pc c' + 1) l), bind_Ok by (done || lia).
      eauto.
Qed.

Lemma jump_targets_witness :
  wf (fetched [0xBF; 0xFE] (<[0%nat := 0xFF]> noRegs))
  /\ exists c',
      execOpcode 0 0xBFFE (fetched [0xBF; 0xFE] (<[0%nat := 0xFF]> noRegs))
      = Ok c'
      /\ pc c' = 0x10FD /\ step 0 c' = Panic.
Proof.
  assert (wf (fetched [0xBF; 0xFE] (<[0%nat := 0xFF]> noRegs)))
    as Hwf by wf_by_compute.
  split; [exact Hwf|].
  destruct (jump_targets 0 0 0xBFFE _ Hwf ltac:(right; reflexivity))
    as (c' & Hexec & Hpc & _ & Hout & _).
  exists c'. split; [exact Hexec|]. split; [exact Hpc|].
  apply Hout. vm_compute. discriminate.
Defined.

(** * Clearing the screen *)

Lemma cellAt_cleared (d : list Z) cx cy : cellAt (const 0 <$> d) cx cy = 0.
Proof.
  unfold cellAt. rewrite list_lookup_fmap.
  by destruct (d !! Z.to_nat (cy * Chip8DisplayW + cx)).
Qed.

Lemma execOpcode_00E0 rnd c :
  execOpcode rnd 0x00E0 c
  = recordOp (u16 (pc c - 2)) 0x00E0 "CLS  " (set_disp (const 0 <$> disp c) c).
Proof. reflexivity. Qed.

(** X26: 00E0 turns every cell of the framebuffer off and touches
    nothing else but the trace.  A sprite drawn on the cleared screen shows
    as it is stored: inside its rectangle each cell of the grid is the
    sprite's bit, every other cell is off, and no collision is reported. *)
Theorem clear_then_draw rnd rnd' op c :
  wf c -> opH op = 0xD000 -> i c + opN op <= 4096 ->
  let x := reg c (opX op) in
  let y := reg c (opY op) in
  let n := opN op in
  exists c1 c2,
    execOpcode rnd 0x00E0 c = Ok c1
    /\ (forall cx cy, pixel c1 cx cy = 0)
    /\ set_disp [] (set_history [] 0 c1) = set_disp [] (set_history [] 0 c)
    /\ execOpcode rnd' op c1 = Ok c2
    /\ reg c2 0xf = 0
    /\ (forall cx cy, 0 <= cx < 64 -> 0 <= cy < 32 ->
          (in_sprite x y n cx cy ->
           pixel c2 cx cy = spriteBit c (cy - y) (cx - x))
          /\ (~ in_sprite x y n cx cy -> pixel c2 cx cy = 0)).
Proof.
  intros Hwf Hh Hfits x y n.
  pose proof (wf_i c Hwf) as Hi. unfold is_u16 in Hi.
  assert (exists c1, execOpcode rnd 0x00E0 c = Ok c1
            /\ disp c1 = const 0 <$> disp c
            /\ set_disp [] (set_history [] 0 c1)
               = set_disp [] (set_history [] 0 c)) as (c1 & Hexec1 & Hd1 & Hrest).
  { rewrite execOpcode_00E0, recordOp_Ok by apply Hwf.
    eexists. repeat split; reflexivity. }
  assert (wf c1) as Hwf1 by exact (execOpcode_Ok_wf rnd _ c c1 Hwf Hexec1).
  assert (v c1 = v c /\ i c1 = i c /\ mem c1 = mem c) as (Hv & Hi1 & Hm).
  { assert (v (set_disp [] (set_history [] 0 c1)) = v c
            /\ i (set_disp [] (set_history [] 0 c1)) = i c
            /\ mem (set_disp [] (set_history [] 0 c1)) = mem c) as Hall
      by (by rewrite Hrest).
    exact Hall. }
  assert (i c1 + opN op <= 4096) as Hfits1 by (rewrite Hi1; lia).
  destruct (execOpcode_DXYN rnd' op c1 Hwf1 Hh Hfits1)
    as (acc & (Hlen & Hcells & Hflag) & Hexec2).
  unfold reg in Hcells, Hflag. rewrite Hv, Hi1, Hm, Hd1 in Hcells, Hflag.
  fold (reg c (opX op)) (reg c (opY op)) in Hcells, Hflag.
  fold x y n in Hcells, Hflag.
  rewrite recordOp_Ok in Hexec2 by apply Hwf1.
  exists c1. eexists. split; [exact Hexec1|].
  split; [intros cx cy; unfold pixel; rewrite Hd1; apply cellAt_cleared|].
  split; [exact Hrest|]. split; [exact Hexec2|].
  assert (forall cx cy, drawn x y n 0 cx cy <-> in_sprite x y n cx cy) as Hin
    by (intros cx cy; unfold drawn, in_sprite; lia).
  split.
  - unfold reg. cbn [v set_history set_v]. change (Z.to_nat 15) with 15%nat.
    rewrite list_lookup_insert_eq by (rewrite (wf_v_len c1 Hwf1); lia).
    cbn [default from_option]. unfold id.
    destruct (snd acc); [|done].
    destruct (proj1 Hflag eq_refl) as (cx & cy & _ & _ & _ & Hone & _).
    by rewrite cellAt_cleared in Hone.
  - intros cx cy Hcx Hcy. unfold pixel. cbn [disp set_history set_v set_disp].
    destruct (Hcells cx cy Hcx Hcy) as [Hins Hout]. split.
    + intros Hs. rewrite Hins by (by apply Hin).
      rewrite cellAt_cleared, Z.lxor_0_l.
      by rewrite rowBit_spriteBit by (unfold in_sprite in Hs; lia).
    + intros Hs. rewrite Hout by (by rewrite Hin). apply cellAt_cleared.
Qed.

Lemma clear_then_draw_witness :
  wf sample_draw /\ i sample_draw + opN 0xD125 <= 4096
  /\ exists c1 c2,
      execOpcode 0 0x00E0 sample_draw = Ok c1
      /\ execOpcode 0 0xD125 c1 = Ok c2
      /\ reg c2 0xf = 0.
Proof.
  assert (wf sample_draw) as Hwf by wf_by_compute.
  assert (i sample_draw + opN 0xD125 <= 4096) as Hfits
    by (vm_compute; discriminate).
  split; [exact Hwf|]. split; [exact Hfits|].
  destruct (clear_then_draw 0 0 0xD125 sample_draw Hwf eq_refl Hfits)
    as (c1 & c2 & Hexec1 & _ & _ & Hexec2 & Hflag & _).
  exists c1, c2. split; [exact Hexec1|]. split; [exact Hexec2|]. exact Hflag.
Defined.

(** * Nested calls *)

Lemma calls_fit rnd ops : forall c,
  wf c -> Forall (fun op => opH op = 0x2000) ops ->
  0 <= sp c <= 15 -> Z.of_nat (length ops) <= sp c + 1 ->
  exists c', execAll rnd ops c = Ok c'
             /\ sp c' = (sp c - Z.of_nat (length ops)) mod 256.
Proof.
  induction ops as [|op ops IH]; intros c Hwf Hops Hsp Hlen.
  - exists c. split; [done|]. simpl. rewrite Z.sub_0_r, Z.mod_small; lia.
  - apply Forall_cons in Hops as [Hop Hops]. cbn [execAll length] in *.
    rewrite execOpcode_2NNN, recordOp_Ok by (done || lia || apply Hwf).
    cbn [mbind result_bind].
    match goal with |- context [execAll rnd ops ?s] => set (c1 := s) end.
    assert (wf c1) as Hwf1.
    { apply (execOpcode_Ok_wf rnd op c); [done|].
      by rewrite execOpcode_2NNN, recordOp_Ok by (done || lia || apply Hwf). }
    assert (sp c1 = (sp c - 1) mod 256) as Hsp1 by reflexivity.
    destruct ops as [|op' ops'].
    + exists c1. split; [done|]. by rewrite Hsp1.
    + cbn [length] in Hlen.
      rewrite Z.mod_small in Hsp1 by lia.
      destruct (IH c1 Hwf1 Hops) as (c' & Hexec & Hsp');
        [lia|cbn [length]; lia|].
      exists c'. split; [exact Hexec|]. rewrite Hsp', Hsp1. f_equal. lia.
Qed.

Lemma calls_overflow rnd ops : forall c,
  wf c -> Forall (fun op => opH op = 0x2000) ops ->
  0 <= sp c <= 15 -> sp c + 1 < Z.of_nat (length ops) ->
  execAll rnd ops c = Panic.
Proof.
  induction ops as [|op ops IH]; intros c Hwf Hops Hsp Hlen;
    [simpl in Hlen; lia|].
  apply Forall_cons in Hops as [Hop Hops]. cbn [execAll length] in *.
  rewrite execOpcode_2NNN, recordOp_Ok by (done || lia || apply Hwf).
  cbn [mbind result_bind].
  match goal with |- context [execAll rnd ops ?s] => set (c1 := s) end.
  assert (wf c1) as Hwf1.
  { apply (execOpcode_Ok_wf rnd op c); [done|].
    by rewrite execOpcode_2NNN, recordOp_Ok by (done || lia || apply Hwf). }
  assert (sp c1 = (sp c - 1) mod 256) as Hsp1 by reflexivity.
  destruct (decide (sp c = 0)) as [Hz|Hnz].
  - rewrite Hz in Hsp1. change ((0 - 1) mod 256) with 255 in Hsp1.
    destruct ops as [|op' ops']; [simpl in Hlen; lia|].
    apply Forall_cons in Hops as [Hop' _]. cbn [execAll].
    by rewrite execOpcode_2NNN_overflow by (done || lia).
  - rewrite Z.mod_small in Hsp1 by lia. apply IH; [done|done|lia|lia].
Qed.

(** X27: the depth of the call stack.  Starting from the stack pointer
    the initializer sets (15), sixteen nested calls fit; the sixteenth
    leaves the pointer wrapped to 255, and a seventeenth panics. *)
Theorem call_depth rnd ops c :
  wf c -> sp c = 15 -> Forall (fun op => opH op = 0x2000) ops ->
  (length ops <= 16)%nat ->
  (exists c', execAll rnd ops c = Ok c'
              /\ sp c' = (15 - Z.of_nat (length ops)) mod 256)
  /\ forall op, opH op = 0x2000 -> length ops = 16%nat ->
                execAll rnd (ops ++ [op]) c = Panic.
Proof.
  intros Hwf Hsp Hops Hlen. split.
  - destruct (calls_fit rnd ops c Hwf Hops) as (c' & Hexec & Hsp'); [lia..|].
    exists c'. split; [done|]. by rewrite Hsp', Hsp.
  - intros op Hop Hfull. apply calls_overflow; [done| |lia|].
    + apply Forall_app_2; [done|by apply Forall_singleton].
    + rewrite length_app, Hfull, Hsp. simpl. lia.
Qed.

Lemma call_depth_witness :
  wf (booted [0x22; 0x00])
  /\ (exists c', execAll 0 (replicate 16 0x2200) (booted [0x22; 0x00]) = Ok c'
                 /\ sp c' = 255)
  /\ execAll 0 (replicate 16 0x2200 ++ [0x2200]) (booted [0x22; 0x00]) = Panic.
Proof.
  assert (wf (booted [0x22; 0x00])) as Hwf by wf_by_compute.
  split; [exact Hwf|].
  destruct (call_depth 0 (replicate 16 0x2200) (booted [0x22; 0x00]) Hwf
              eq_refl) as [Hfit Hover].
  - apply Forall_replicate. reflexivity.
  - simpl. lia.
  - split; [exact Hfit|]. apply Hover; reflexivity.
Defined.

(** * Loads and bitwise operations *)

Section Logic.
Variables (rnd op : Z) (c : Chip8).
Hypothesis Hwf : wf c.

Lemma execOpcode_6XNN :
  opH op = 0x6000 ->
  execOpcode rnd op c
  = recordOp (u16 (pc c - 2)) op
      ("LD   V" +:+ fmtX 0 (opX op) +:+ ",#" +:+ fmtX 2 (opNN op))
      (set_v (<[Z.to_nat (opX op) := opNN op]> (v c)) c).
Proof using Hwf.
  intros Hh. pose proof (opX_range op). pose proof (wf_v_len c Hwf).
  unfold execOpcode. cbv zeta. rewrite Hh. dispatch.
  by rewrite setV_Ok, !bind_Ok by done.
Qed.

Lemma execOpcode_8XY0123 :
  opH op = 0x8000 -> 0 <= Z.land (opNNN op) 0xf <= 3 ->
  exists m,
    execOpcode rnd op c
    = recordOp (u16 (pc c - 2)) op m
        (set_v (<[Z.to_nat (opX op)
                  := if Z.land (opNNN op) 0xf =? 0 then reg c (opY op)
                     else if Z.land (opNNN op) 0xf =? 1
                          then Z.lor (reg c (opX op)) (reg c (opY op))
                     else if Z.land (opNNN op) 0xf =? 2
                          then Z.land (reg c (opX op)) (reg c (opY op))
                     else Z.lxor (reg c (opX op)) (reg c (opY op))]> (v c)) c).
Proof using Hwf.
  intros Hh Hsub. pose proof (opX_range op). pose proof (opY_range op).
  pose proof (wf_v_len c Hwf).
  assert (Z.land (opNNN op) 0xf = 0 \/ Z.land (opNNN op) 0xf = 1
          \/ Z.land (opNNN op) 0xf = 2 \/ Z.land (opNNN op) 0xf = 3)
    as Hcases by lia.
  unfold execOpcode. cbv zeta. rewrite Hh.
  destruct_or!; rewrite Hcases; dispatch;
    rewrite !getV_Ok, !bind_Ok by done;
    rewrite setV_Ok, !bind_Ok by done; eexists; reflexivity.
Qed.
End Logic.

(** X28: the loads and bitwise operations 6XNN, 8XY0, 8XY1, 8XY2 and
    8XY3 write VX and nothing else: unlike the arithmetic instructions of
    the same family they leave VF alone (unless X is 0xF).  Bit for bit, the
    new VX is VY, VX or VY, VX and VY, VX xor VY. *)
Theorem loads_and_logic rnd op c :
  wf c ->
  opH op = 0x6000 \/ (opH op = 0x8000 /\ 0 <= Z.land (opNNN op) 0xf <= 3) ->
  exists c',
    execOpcode rnd op c = Ok c'
    /\ (forall k, 0 <= k -> k <> opX op -> reg c' k = reg c k)
    /\ (forall b,
          Z.testbit (reg c' (opX op)) b
          = let vx := Z.testbit (reg c (opX op)) b in
            let vy := Z.testbit (reg c (opY op)) b in
            if opH op =? 0x6000 then Z.testbit (opNN op) b
            else if Z.land (opNNN op) 0xf =? 0 then vy
            else if Z.land (opNNN op) 0xf =? 1 then vx || vy
            else if Z.land (opNNN op) 0xf =? 2 then vx && vy
            else xorb vx vy).
Proof.
  intros Hwf Hop. pose proof (opX_range op) as HX.
  pose proof (wf_v_len c Hwf) as Hlen.
  assert (exists e c',
            execOpcode rnd op c = Ok c'
            /\ v c' = <[Z.to_nat (opX op) := e]> (v c)
            /\ forall b,
                 Z.testbit e b
                 = if opH op =? 0x6000 then Z.testbit (opNN op) b
                   else if Z.land (opNNN op) 0xf =? 0
                        then Z.testbit (reg c (opY op)) b
                   else if Z.land (opNNN op) 0xf =? 1
                        then Z.testbit (reg c (opX op)) b
                             || Z.testbit (reg c (opY op)) b
                   else if Z.land (opNNN op) 0xf =? 2
                        then Z.testbit (reg c (opX op)) b
                             && Z.testbit (reg c (opY op)) b
                   else xorb (Z.testbit (reg c (opX op)) b)
                             (Z.testbit (reg c (opY op)) b))
    as (e & c' & Hexec & Hv & Hbits).
  { destruct Hop as [Hh|[Hh Hsub]].
    - rewrite execOpcode_6XNN, recordOp_Ok by (done || apply Hwf).
      do 2 eexists. split; [reflexivity|]. split; [reflexivity|].
      intros b. by rewrite Hh.
    - destruct (execOpcode_8XY0123 rnd op c Hwf Hh Hsub) as [m ->].
      rewrite recordOp_Ok by apply Hwf.
      do 2 eexists. split; [reflexivity|]. split; [reflexivity|].
      intros b. rewrite Hh. dispatch.
      repeat case_match;
        by rewrite ?Z.lor_spec, ?Z.land_spec, ?Z.lxor_spec. }
  exists c'. split; [exact Hexec|]. split.
  - intros k Hk Hne. unfold reg. rewrite Hv.
    by rewrite list_lookup_insert_ne by lia.
  - intros b. cbv zeta. rewrite <- Hbits. unfold reg at 1. rewrite Hv.
    by rewrite list_lookup_insert_eq by lia.
Qed.

Lemma loads_and_logic_witness :
  wf (fetched [0x8A; 0xB3] (<[10%nat := 0x0F]> (<[11%nat := 0x3C]> noRegs)))
  /\ exists c',
      execOpcode 0 0x8AB3
        (fetched [0x8A; 0xB3] (<[10%nat := 0x0F]> (<[11%nat := 0x3C]> noRegs)))
      = Ok c'
      /\ reg c' 0xb = 0x3C /\ reg c' 0xf = 0 /\ reg c' 0xa = 0x33.
Proof.
  assert (wf (fetched [0x8A; 0xB3]
                (<[10%nat := 0x0F]> (<[11%nat := 0x3C]> noRegs))))
    as Hwf by wf_by_compute.
  split; [exact Hwf|].
  destruct (loads_and_logic 0 0x8AB3 _ Hwf)
    as (c' & Hexec & Hother & _).
  { right. split; [reflexivity|]. vm_compute. split; discriminate. }
  exists c'. split; [exact Hexec|].
  split; [apply (Hother 0xb); [lia|vm_compute; discriminate]|].
  split; [apply (Hother 0xf); [lia|vm_compute; discriminate]|].
  revert Hexec. vm_compute. intros [= <-]. reflexivity.
Defined.

(** * The index register *)

Section Index.
Variables (rnd op : Z) (c : Chip8).
Hypothesis Hwf : wf c.

Lemma execOpcode_ANNN :
  opH op = 0xA000 ->
  execOpcode rnd op c
  = recordOp (u16 (pc c - 2)) op ("LD   I,#" +:+ fmtX 4 (opNNN op))
      (set_i (opNNN op) c).
Proof using Hwf.
  intros Hh. unfold execOpcode. cbv zeta. rewrite Hh. by dispatch.
Qed.

Lemma execOpcode_FX1E :
  opH op = 0xF000 -> opNN op = 0x1E ->
  execOpcode rnd op c
  = recordOp (u16 (pc c - 2)) op ("ADD  I,V" +:+ fmtX 0 (opX op))
      (set_i ((i c + reg c (opX op)) mod 65536) c).
Proof using Hwf.
  intros Hh Hsub. pose proof (opX_range op). pose proof (wf_v_len c Hwf).
  pose proof (reg_range c (opX op) Hwf) as Hr. unfold is_u8 in Hr.
  unfold execOpcode. cbv zeta. rewrite Hh, Hsub. dispatch.
  rewrite getV_Ok, !bind_Ok by done.
  by rewrite (u16_id (reg c (opX op))) by (unfold is_u16; lia).
Qed.
End Index.

(** X29: the index register.  ANNN loads I with NNN; FX1E adds VX to it
    in 16 bits, so that the sum wraps at 0x10000 and not at the end of
    memory, and writes no register: VF does not report an overflow.  After
    ANNN the sum is NNN + VX exactly. *)
Theorem index_register rnd rnd' opa opf c :
  wf c -> opH opa = 0xA000 -> opH opf = 0xF000 -> opNN opf = 0x1E ->
  (exists c', execOpcode rnd' opf c = Ok c'
              /\ i c' = (i c + reg c (opX opf)) mod 65536 /\ v c' = v c)
  /\ (exists c1 c2,
        execOpcode rnd opa c = Ok c1 /\ i c1 = opNNN opa
        /\ execOpcode rnd' opf c1 = Ok c2
        /\ i c2 = opNNN opa + reg c (opX opf)).
Proof.
  intros Hwf Ha Hf Hsub. split.
  - rewrite execOpcode_FX1E, recordOp_Ok by (done || apply Hwf).
    eexists. repeat split; reflexivity.
  - assert (exists c1, execOpcode rnd opa c = Ok c1 /\ i c1 = opNNN opa
                       /\ v c1 = v c) as (c1 & Hexec & Hi & Hv).
    { rewrite execOpcode_ANNN, recordOp_Ok by (done || apply Hwf).
      eexists. repeat split; reflexivity. }
    assert (wf c1) as Hwf1 by exact (execOpcode_Ok_wf rnd opa c c1 Hwf Hexec).
    exists c1. eexists. split; [exact Hexec|]. split; [exact Hi|].
    rewrite (execOpcode_FX1E rnd' opf c1 Hwf1 Hf Hsub), recordOp_Ok
      by apply Hwf1.
    split; [reflexivity|]. cbn [i set_history set_i].
    unfold reg. rewrite Hi, Hv. fold (reg c (opX opf)).
    pose proof (opNNN_range opa). pose proof (reg_range c (opX opf) Hwf) as Hr.
    unfold is_u8 in Hr. apply Z.mod_small. lia.
Qed.

Lemma index_register_witness :
  wf (set_i 0xFFFF (fetched [0xF1; 0x1E] (<[1%nat := 2]> noRegs)))
  /\ exists c',
      execOpcode 0 0xF11E
        (set_i 0xFFFF (fetched [0xF1; 0x1E] (<[1%nat := 2]> noRegs))) = Ok c'
      /\ i c' = 1 /\ reg c' 0xf = 0.
Proof.
  assert (wf (set_i 0xFFFF (fetched [0xF1; 0x1E] (<[1%nat := 2]> noRegs))))
    as Hwf by wf_by_compute.
  split; [exact Hwf|].
  destruct (index_register 0 0 0xA000 0xF11E _ Hwf eq_refl eq_refl eq_refl)
    as [(c' & Hexec & Hi & Hv) _].
  exists c'. split; [exact Hexec|]. split; [exact Hi|].
  unfold reg. rewrite Hv. reflexivity.
Defined.

(** * The host loop *)

Lemma gtb_false a b : a <= b -> (a >? b) = false.
Proof. intros. rewrite Z.gtb_ltb. by apply Z.ltb_ge. Qed.

Lemma gtb_true a b : b < a -> (a >? b) = true.
Proof. intros. rewrite Z.gtb_ltb. by apply Z.ltb_lt. Qed.

Lemma perVblankCycle_eq : perVblankCycle = 8.
Proof. reflexivity. Qed.

Lemma quiet_turns ts : forall e cyc,
  Forall quiet ts -> running e = true -> focus e = true -> stepMode e = false ->
  0 <= cyc -> cyc + Z.of_nat (length ts) <= 8 ->
  runLoop ts (e, cyc)
  = c ← stepsWith (turn_rnd <$> ts) (chip8 e);
    Ok (set_chip8 c e, cyc + Z.of_nat (length ts)).
Proof.
  induction ts as [|t ts IH]; intros e cyc Hq Hrun Hfoc Hstep Hcyc Hlen.
  - simpl. destruct e. unfold set_chip8. simpl. by rewrite Z.add_0_r.
  - apply Forall_cons in Hq as [Ht Hq]. unfold quiet in Ht.
    cbn [runLoop fst snd length fmap list_fmap stepsWith]. rewrite Hrun.
    unfold turn. cbn [fst snd]. rewrite Hfoc, Hstep, Ht. cbn [andb negb].
    unfold stepChip8.
    destruct (step (turn_rnd t) (chip8 e)) as [c| |]; [|done..].
    cbn [mbind result_bind].
    rewrite gtb_false by (rewrite perVblankCycle_eq; cbn [length] in Hlen; lia).
    cbn [fst snd pollEvents mbind result_bind].
    rewrite IH by (done || cbn [length] in *; lia).
    cbn [chip8 set_chip8].
    destruct (stepsWith (turn_rnd <$> ts) c); [|done..].
    cbn [mbind result_bind]. unfold set_chip8. cbn [rom running focus stepMode].
    do 2 f_equal. cbn [length] in *. lia.
Qed.

Lemma runLoop_stopped ts s : running (fst s) = false -> runLoop ts s = Ok s.
Proof. intros Hs. destruct ts; simpl; [done|by rewrite Hs]. Qed.

Lemma runLoop_app ts ts' s :
  runLoop (ts ++ ts') s = s' ← runLoop ts s; runLoop ts' s'.
Proof.
  revert s. induction ts as [|t ts IH]; intros s; [done|].
  cbn [app runLoop]. destruct (running (fst s)) eqn:Hrun.
  - destruct (turn t s) as [s'| |]; [|done..]. cbn [mbind result_bind].
    apply IH.
  - cbn [mbind result_bind]. by rewrite runLoop_stopped.
Qed.

Lemma stepsWith_app rs rs' c :
  stepsWith (rs ++ rs') c = c' ← stepsWith rs c; stepsWith rs' c'.
Proof.
  revert c. induction rs as [|r rs IH]; intros c; [done|].
  cbn [app stepsWith]. destruct (step r c) as [c'| |]; [|done..].
  cbn [mbind result_bind]. apply IH.
Qed.

(** X18: the cadence of the loop of [Run].  A focused emulator that is
    not in step mode executes one instruction per turn.  The counter is
    compared with [perVblankCycle] = 8 by [>], so the timers are not
    touched during the first eight turns and tick once in the ninth, after
    its instruction, where the counter goes back to 0: one tick for every
    nine instructions. *)
Theorem vblank_every_ninth_turn ts t e :
  Forall quiet ts -> quiet t -> length ts = 8%nat ->
  running e = true -> focus e = true -> stepMode e = false ->
  Run ts e
  = (c ← stepsWith (turn_rnd <$> ts) (chip8 e); Ok (set_chip8 c e, 8))
  /\ Run (ts ++ [t]) e
     = (c ← stepsWith (turn_rnd <$> ts ++ [t]) (chip8 e);
        Ok (set_chip8 (decrementTimer c) e, 0)).
Proof.
  intros Hq Ht Hlen Hrun Hfoc Hstep. unfold Run.
  assert (runLoop ts (e, 0)
          = c ← stepsWith (turn_rnd <$> ts) (chip8 e); Ok (set_chip8 c e, 8))
    as Height.
  { rewrite quiet_turns by (done || rewrite ?Hlen; lia). by rewrite Hlen. }
  split; [exact Height|].
  rewrite runLoop_app, Height, fmap_app, stepsWith_app.
  destruct (stepsWith (turn_rnd <$> ts) (chip8 e)) as [c| |]; [|done..].
  cbn [mbind result_bind fmap list_fmap stepsWith runLoop fst snd running
       set_chip8].
  rewrite Hrun. unfold turn. cbn [fst snd focus stepMode set_chip8].
  rewrite Hfoc, Hstep, Ht. cbn [andb negb]. unfold stepChip8.
  cbn [chip8 set_chip8].
  destruct (step (turn_rnd t) c) as [c'| |]; [|done..].
  cbn [mbind result_bind]. rewrite gtb_true by (rewrite perVblankCycle_eq; lia).
  cbn [focus set_chip8]. rewrite Hfoc. reflexivity.
Qed.

Lemma vblank_every_ninth_turn_witness :
  exists s,
    Run (replicate 8 (mkTurn 0 []) ++ [mkTurn 0 []])
        (mkEmulator [0x6A; 0x3C; 0xFA; 0x15; 0x12; 0x04]
           (booted [0x6A; 0x3C; 0xFA; 0x15; 0x12; 0x04]) true true false)
    = Ok s
    /\ snd s = 0 /\ dt (chip8 (fst s)) = 59.
Proof.
  destruct (vblank_every_ninth_turn (replicate 8 (mkTurn 0 [])) (mkTurn 0 [])
              (mkEmulator [0x6A; 0x3C; 0xFA; 0x15; 0x12; 0x04]
                 (booted [0x6A; 0x3C; 0xFA; 0x15; 0x12; 0x04]) true true false))
    as [_ Hnine];
    [by apply Forall_replicate|done|done|done|done|done|].
  eexists. split; [rewrite Hnine; vm_compute; reflexivity|].
  split; reflexivity.
Defined.

Lemma stepChip8_flags rnd e e' :
  stepChip8 rnd e = Ok e' ->
  running e' = running e /\ focus e' = focus e /\ stepMode e' = stepMode e
  /\ rom e' = rom e.
Proof.
  unfold stepChip8. destruct (step rnd (chip8 e)); [|done..].
  by intros [= <-].
Qed.

(** X19: step mode.  While it is on the loop itself executes no
    instruction, and a turn without events changes the machine at most by
    a timer tick; each SPACE key-down executes exactly one instruction.
    SPACE outside step mode only turns the mode on. *)
Theorem step_mode_single_steps e :
  (stepMode e = true ->
   (forall t cyc, quiet t ->
      exists e' cyc', turn t (e, cyc) = Ok (e', cyc')
        /\ (chip8 e' = chip8 e \/ chip8 e' = decrementTimer (chip8 e)))
   /\ (forall rnds,
         pollEvents (space <$> rnds) e
         = c ← stepsWith rnds (chip8 e); Ok (set_chip8 c e)))
  /\ (stepMode e = false ->
      forall rnd, handleEvent rnd (fst (space rnd)) e = Ok (set_stepMode true e)).
Proof.
  split.
  - intros Hstep. split.
    + intros t cyc Ht. unfold quiet in Ht. unfold turn. cbn [fst snd].
      rewrite Hstep, andb_false_r, Ht. cbn [mbind result_bind].
      destruct (cyc + 1 >? perVblankCycle), (focus e);
        cbn [fst snd pollEvents mbind result_bind chip8 set_chip8]; eauto.
    + intros rnds. revert e Hstep.
      induction rnds as [|r rs IH]; intros e Hstep.
      * by destruct e.
      * cbn [fmap list_fmap pollEvents space handleEvent scanCode2Key
             stepsWith]. fold (space <$> rs).
        rewrite Hstep. unfold stepChip8.
        destruct (step r (chip8 e)) as [c| |]; [|done..].
        cbn [mbind result_bind]. rewrite IH by done.
        cbn [chip8 set_chip8]. by destruct (stepsWith rs c).
  - intros Hstep rnd. simpl. by rewrite Hstep.
Qed.

Lemma step_mode_single_steps_witness :
  exists e',
    pollEvents (space <$> [0; 0])
      (set_stepMode true (sample_emulator [0x6A; 0x3C; 0x7A; 0x01]))
    = Ok e'
    /\ reg (chip8 e') 0xa = 0x3D /\ pc (chip8 e') = 0x204.
Proof.
  destruct (step_mode_single_steps
              (set_stepMode true (sample_emulator [0x6A; 0x3C; 0x7A; 0x01])))
    as [Hon _].
  destruct (Hon eq_refl) as [_ Hspace].
  eexists. split; [rewrite (Hspace [0; 0]); vm_compute; reflexivity|].
  split; reflexivity.
Defined.

(** X20: without focus the machine is frozen.  Turns in which no event
    arrives execute no instruction and tick no timer: the emulator comes out
    of any number of them as it went in. *)
Theorem unfocused_is_frozen ts e cyc :
  focus e = false -> Forall quiet ts ->
  exists cyc', runLoop ts (e, cyc) = Ok (e, cyc').
Proof.
  intros Hfoc Hq. revert cyc.
  induction Hq as [|t ts Ht Hq IH]; intros cyc; [by exists cyc|].
  cbn [runLoop fst]. destruct (running e) eqn:Hrun; [|by exists cyc].
  unfold turn. cbn [fst snd]. rewrite Hfoc. cbn [andb mbind result_bind].
  unfold quiet in Ht. rewrite Ht.
  destruct (cyc + 1 >? perVblankCycle);
    rewrite ?Hfoc; cbn [fst snd pollEvents mbind result_bind]; apply IH.
Qed.

Lemma unfocused_is_frozen_witness :
  exists cyc',
    runLoop (replicate 20 (mkTurn 0 []))
      (set_focus false (sample_emulator [0x6A; 0x3C]), 0)
    = Ok (set_focus false (sample_emulator [0x6A; 0x3C]), cyc').
Proof.
  apply (unfocused_is_frozen (replicate 20 (mkTurn 0 []))
           (set_focus false (sample_emulator [0x6A; 0x3C])) 0);
    [reflexivity|by apply Forall_replicate].
Defined.

Lemma handleEvent_stopped rnd ev e e' :
  running e = false -> handleEvent rnd ev e = Ok e' -> running e' = false.
Proof.
  intros Hrun. destruct ev as [|s o|s| | |]; cbn [handleEvent].
  - by intros [= <-].
  - destruct (scanCode2Key s).
    + destruct (setKey s true (chip8 e)); [|done..]. by intros [= <-].
    + destruct o.
      * destruct (stepMode e); [|by intros [= <-]].
        intros He. by destruct (stepChip8_flags _ _ _ He) as (-> & _).
      * destruct (stepMode e); by intros [= <-].
      * destruct (newChip8 (rom e)); [|done..]. by intros [= <-].
      * by intros [= <-].
  - destruct (scanCode2Key s); [|by intros [= <-]].
    destruct (setKey s false (chip8 e)); [|done..]. by intros [= <-].
  - by intros [= <-].
  - by intros [= <-].
  - by intros [= <-].
Qed.

Lemma pollEvents_stopped evs e e' :
  running e = false -> pollEvents evs e = Ok e' -> running e' = false.
Proof.
  revert e. induction evs as [|[ev r] evs IH]; intros e Hrun; cbn [pollEvents].
  - by intros [= <-].
  - destruct (handleEvent r ev e) as [e1| |] eqn:He; [|done..].
    cbn [mbind result_bind]. apply IH. by eapply handleEvent_stopped.
Qed.

(** X21: quitting.  Once a quit event has been polled nothing turns
    [running] on again: the rest of the queue is still handled, and the
    loop of [Run] is left before its next turn. *)
Theorem quit_ends_run evs rnd e e' :
  In (QuitEvent, rnd) evs -> pollEvents evs e = Ok e' ->
  running e' = false
  /\ forall ts cyc, runLoop ts (e', cyc) = Ok (e', cyc).
Proof.
  intros Hin Hpoll.
  assert (running e' = false) as Hstop.
  { revert e Hpoll. induction evs as [|[ev r] evs IH]; intros e; [done|].
    cbn [pollEvents].
    destruct (handleEvent r ev e) as [e1| |] eqn:He; [|done..].
    cbn [mbind result_bind]. intros Hpoll.
    destruct Hin as [[= -> ->]|Hin].
    - injection He as <-. by apply (pollEvents_stopped evs _ e') in Hpoll.
    - by apply (IH Hin e1). }
  split; [exact Hstop|]. intros ts cyc. by apply runLoop_stopped.
Qed.

Lemma quit_ends_run_witness :
  exists e',
    pollEvents [(KEYDOWN SCANCODE_4 SCANCODE_unused, 0); (QuitEvent, 0);
                (KEYUP SCANCODE_4, 0)]
      (sample_emulator [0x6A; 0x3C]) = Ok e'
    /\ running e' = false
    /\ runLoop [mkTurn 0 []] (e', 3) = Ok (e', 3).
Proof.
  assert (exists e',
            pollEvents [(KEYDOWN SCANCODE_4 SCANCODE_unused, 0); (QuitEvent, 0);
                        (KEYUP SCANCODE_4, 0)]
              (sample_emulator [0x6A; 0x3C]) = Ok e') as [e' Hpoll]
    by (eexists; vm_compute; reflexivity).
  exists e'. split; [exact Hpoll|].
  assert (In (QuitEvent, 0)
            [(KEYDOWN SCANCODE_4 SCANCODE_unused, 0); (QuitEvent, 0);
             (KEYUP SCANCODE_4, 0)]) as Hin by (right; left; reflexivity).
  destruct (quit_ends_run _ 0 _ e' Hin Hpoll) as [Hstop Hloop].
  split; [exact Hstop|apply Hloop].
Defined.

(** X22: the key map is one to one between the sixteen mapped host keys
    and the sixteen keys of the keypad. *)
Theorem scanCode2Key_bijective :
  (forall s s' k, scanCode2Key s = Some k -> scanCode2Key s' = Some k -> s = s')
  /\ (forall s k, scanCode2Key s = Some k -> 0 <= k <= 0xf)
  /\ (forall k, 0 <= k <= 0xf -> exists s, scanCode2Key s = Some k).
Proof.
  split; [|split].
  - intros s s' k. destruct s, s'; simpl; congruence.
  - intros s k. destruct s; simpl; intros [= <-]; lia.
  - intros k Hk.
    assert (k = 0 \/ k = 1 \/ k = 2 \/ k = 3 \/ k = 4 \/ k = 5 \/ k = 6
            \/ k = 7 \/ k = 8 \/ k = 9 \/ k = 10 \/ k = 11 \/ k = 12
            \/ k = 13 \/ k = 14 \/ k = 15) as Hcases by lia.
    destruct_or!; subst k;
      [exists SCANCODE_B|exists SCANCODE_4|exists SCANCODE_5|exists SCANCODE_6
      |exists SCANCODE_R|exists SCANCODE_T|exists SCANCODE_Y|exists SCANCODE_F
      |exists SCANCODE_G|exists SCANCODE_H|exists SCANCODE_V|exists SCANCODE_N
      |exists SCANCODE_7|exists SCANCODE_U|exists SCANCODE_J|exists SCANCODE_M];
      reflexivity.
Qed.

(** X23: key events.  On a machine whose keypad has its sixteen cells, a
    key-down event of a mapped key sets that key's cell to 1 and the key-up
    event sets it back to 0, whatever the mode and the focus; no other cell
    and nothing else in the emulator changes, so that pressing and
    releasing a key that was up gives the machine back as it was. *)
Theorem key_press_release e s o k rnd rnd' :
  length (keys (chip8 e)) = 16%nat -> scanCode2Key s = Some k ->
  exists e1 e2,
    handleEvent rnd (KEYDOWN s o) e = Ok e1
    /\ e1 = set_chip8 (set_keys (<[Z.to_nat k := 1]> (keys (chip8 e))) (chip8 e)) e
    /\ handleEvent rnd' (KEYUP s) e1 = Ok e2
    /\ e2 = set_chip8 (set_keys (<[Z.to_nat k := 0]> (keys (chip8 e))) (chip8 e)) e
    /\ (keys (chip8 e) !! Z.to_nat k = Some 0 -> e2 = e).
Proof.
  intros Hlen Hs.
  assert (0 <= k <= 15) as Hk by (destruct s; simpl in Hs; simplify_eq; lia).
  cbn [handleEvent]. rewrite Hs. unfold setKey. rewrite Hs.
  rewrite store_Ok by lia. cbn [mbind result_bind].
  do 2 eexists. split; [reflexivity|]. split; [reflexivity|].
  cbn [handleEvent]. rewrite ?Hs. unfold setKey. rewrite ?Hs.
  cbn [chip8 set_chip8 keys set_keys].
  rewrite store_Ok by (rewrite length_insert; lia). cbn [mbind result_bind].
  rewrite list_insert_insert_eq.
  split; [reflexivity|]. split; [reflexivity|].
  intros Hup. rewrite list_insert_id by done.
  destruct e as [r c ru f sm]. by destruct c.
Qed.

Lemma key_press_release_witness :
  exists e1 e2,
    handleEvent 0 (KEYDOWN SCANCODE_R SCANCODE_unused)
      (sample_emulator [0x6A; 0x3C]) = Ok e1
    /\ keys (chip8 e1) !! 4%nat = Some 1
    /\ handleEvent 0 (KEYUP SCANCODE_R) e1 = Ok e2
    /\ e2 = sample_emulator [0x6A; 0x3C].
Proof.
  destruct (key_press_release (sample_emulator [0x6A; 0x3C]) SCANCODE_R
              SCANCODE_unused 4 0 0 eq_refl eq_refl)
    as (e1 & e2 & Hdown & He1 & Hup & _ & Hback).
  exists e1, e2. split; [exact Hdown|].
  split; [rewrite He1; reflexivity|]. split; [exact Hup|].
  apply Hback. reflexivity.
Defined.


